(** * nanobot: persistent agent memory

    A shallow embedding of

    - [nanobot/agent/memory.py]        ([MemoryStore], [consolidate]),
    - [nanobot/agent/vector_memory.py] ([VectorMemoryStore]),
    - [nanobot/utils/db.py]            ([DatabaseManager.get_user_id]),

    followed by the properties of the memory layer stated over it.

    Python objects that are mutated in place (the session, the two memory
    files, the database manager and the tables behind its pool) live in one
    [World] that every operation threads; exceptions are explicit results.
    What lies outside the repository (the chat provider, the embedding
    service, the json codec, [str.upper], the storage engine's failures and
    its distance operator) is an oracle collected in [Env].

    Conventions: a message of the session is a record with the four
    fields the transcript reads; the two files hold UTF-8 text on a POSIX
    system (writing leaves line ends alone) and the file system itself
    does not fail, so that a write raises only where its text cannot be
    encoded; [await] is sequential, one caller at a time; log lines are
    left out. *)

From Stdlib Require Import ZArith NArith List String Ascii Bool Lia Floats Sorted.
From Stdlib Require Import DecimalString Permutation.
Import ListNotations.

Local Open Scope Z_scope.
Set Warnings "-register-all".

(* ================================================================== *)
(** ** Python text *)

(** A Python [str] is a sequence of Unicode code points. *)
Definition char := N.
Definition str := list char.

(** A literal of the source, read character by character. *)
Definition lit (s : string) : str := map N_of_ascii (list_ascii_of_string s).

(** [chr(10)] *)
Definition LF : char := 10%N.

Definition in_range (lo hi c : N) : bool := (N.leb lo c && N.leb c hi)%bool.

(** [str.isspace] for one character: the code points CPython's
    [Py_UNICODE_ISSPACE] accepts. *)
Definition isspace (c : char) : bool :=
  (in_range 9 13 c || in_range 28 32 c || N.eqb c 133 || N.eqb c 160
   || N.eqb c 5760 || in_range 8192 8202 c || N.eqb c 8232 || N.eqb c 8233
   || N.eqb c 8239 || N.eqb c 8287 || N.eqb c 12288)%bool.

(** [s.lstrip()] *)
Fixpoint lstrip (s : str) : str :=
  match s with
  | [] => []
  | c :: s' => if isspace c then lstrip s' else s
  end.

(** [s.rstrip()]: the longest prefix that does not end in whitespace. *)
Fixpoint rstrip (s : str) : str :=
  match s with
  | [] => []
  | c :: s' =>
      match rstrip s' with
      | [] => if isspace c then [] else [c]
      | r => c :: r
      end
  end.

(** [s.strip()] *)
Definition strip (s : str) : str := rstrip (lstrip s).

(** Whether [s.encode("utf-8")] succeeds: a [str] holds code points up
    to 0x10FFFF, of which the surrogates U+D800..U+DFFF have no UTF-8
    form ([UnicodeEncodeError]). *)
Definition encodable_char (c : char) : bool := negb (in_range 55296 57343 c).

Definition encodable (s : str) : bool := forallb encodable_char s.

(** What a file opened for reading in text mode hands over (universal
    newlines): CR LF and a lone CR are read as LF. *)
Fixpoint universal_newlines (s : str) : str :=
  match s with
  | [] => []
  | c :: rest =>
      if N.eqb c 13 then
        match rest with
        | d :: rest' =>
            if N.eqb d 10 then LF :: universal_newlines rest'
            else LF :: universal_newlines rest
        | [] => [LF]
        end
      else c :: universal_newlines rest
  end.

(** [sep.join(parts)] *)
Fixpoint join (sep : str) (parts : list str) : str :=
  match parts with
  | [] => []
  | [p] => p
  | p :: ps => p ++ sep ++ join sep ps
  end.

Fixpoint str_eqb (a b : str) : bool :=
  match a, b with
  | [], [] => true
  | x :: a', y :: b' => (N.eqb x y && str_eqb a' b')%bool
  | _, _ => false
  end.

(* ================================================================== *)
(** ** Python values *)

(** The values a tool call's arguments are made of: what [json.loads]
    produces, and what a provider hands over when it has decoded the
    arguments itself.  A [dict] keeps its insertion order. *)
Inductive pyval : Type :=
| PNone
| PBool (b : bool)
| PInt (z : Z)
| PFloat (f : float)
| PStr (s : str)
| PList (items : list pyval)
| PDict (entries : list (str * pyval)).

(** Truth value of an object, as [if x] and [x and y] test it. *)
Definition truthy (v : pyval) : bool :=
  match v with
  | PNone => false
  | PBool b => b
  | PInt z => negb (z =? 0)
  | PFloat f => negb (PrimFloat.eqb f 0%float)
  | PStr [] => false
  | PStr _ => true
  | PList [] => false
  | PList _ => true
  | PDict [] => false
  | PDict _ => true
  end.

(** [isinstance(v, str)] *)
Definition is_str (v : pyval) : bool :=
  match v with PStr _ => true | _ => false end.

(** [isinstance(v, dict)] *)
Definition is_dict (v : pyval) : bool :=
  match v with PDict _ => true | _ => false end.

(** [d.get(key)]: the value stored under [key], [None] when absent. *)
Fixpoint dict_get (d : list (str * pyval)) (key : str) : pyval :=
  match d with
  | [] => PNone
  | (k, v) :: d' => if str_eqb k key then v else dict_get d' key
  end.

(** The items a [for] loop draws from [v]: the elements of a list, the
    characters of a string, the keys of a dict; [None] when [v] is not
    iterable (the loop raises [TypeError]). *)
Definition py_iter (v : pyval) : option (list pyval) :=
  match v with
  | PList items => Some items
  | PStr s => Some (map (fun c => PStr [c]) s)
  | PDict entries => Some (map (fun kv => PStr (fst kv)) entries)
  | PNone | PBool _ | PInt _ | PFloat _ => None
  end.

(** [len(l)] *)
Definition len {A : Type} (l : list A) : Z := Z.of_nat (List.length l).

(** A slice bound brought into [0 .. n]: a negative bound counts from
    the end. *)
Definition slice_bound (n i : Z) : Z :=
  if i <? 0 then Z.max 0 (n + i) else Z.min i n.

(** [l[start:stop]] *)
Definition py_slice {A : Type} (l : list A) (start stop : Z) : list A :=
  let a := slice_bound (len l) start in
  let b := slice_bound (len l) stop in
  firstn (Z.to_nat (b - a)) (skipn (Z.to_nat a) l).


(* ================================================================== *)
(** ** The data model *)

(** One record of [session.messages]. *)
Record message : Type := {
  role : str;
  content : option str;
  timestamp : option str;
  tools_used : option (list str)
}.

(** The session handed to [consolidate] by reference. *)
Record Session : Type := {
  messages : list message;
  last_consolidated : Z
}.

(** [nanobot.config] and [asyncpg] are not part of the memory layer: the
    pool is present or not. *)
Variant Pool : Type := asyncpg_pool.

Record DatabaseManager : Type := {
  enabled : bool;
  _pool : option Pool
}.

(** [self.pool] *)
Definition pool (d : DatabaseManager) : option Pool := _pool d.

(** A vector of floats returned by the embedding service. *)
Definition embedding := list float.

(** Rows of the three tables of [_init_tables]. *)
Record user_row : Type := {
  usr_id : Z;
  usr_created_at : nat
}.

Record identity_row : Type := {
  idn_user_id : Z;
  idn_channel : str;
  idn_sender_id : str
}.

Record memory_row : Type := {
  mem_id : Z;
  mem_user_id : Z;
  mem_content : str;
  mem_embedding : embedding;
  mem_created_at : nat
}.

(** The tables behind the pool, with the two [SERIAL] sequences. *)
Record Database : Type := {
  users : list user_row;
  users_id_seq : Z;
  user_identities : list identity_row;
  vector_memories : list memory_row;
  vector_memories_id_seq : Z
}.

(** A [VectorMemoryStore]: [self.db] is the world's database manager, or
    [None]. *)
Record VectorMemoryStore : Type := {
  vs_db : bool;
  api_key : str;
  vs_model : str
}.

(** Everything the operations read and mutate. *)
Record World : Type := {
  session : Session;
  memory_file : option str;     (* memory/MEMORY.md, when it exists *)
  history_file : option str;    (* memory/HISTORY.md, when it exists *)
  db : DatabaseManager;
  tables : Database;
  clock : nat                   (* external round trips made so far *)
}.

(** Modelled from the spec: the request and response types of
    [nanobot.providers.base], of which the memory layer reads
    [has_tool_calls] and [tool_calls[0].arguments]. *)
Record chat_request : Type := {
  req_messages : list (str * str);   (* role, content *)
  req_tools : pyval;
  req_model : str
}.

Record ToolCallRequest : Type := {
  arguments : pyval
}.

Record LLMResponse : Type := {
  has_tool_calls : bool;
  tool_calls : list ToolCallRequest
}.

(** What [await provider.chat(...)] comes to. *)
Inductive chat_outcome : Type :=
| ChatRaises
| ChatReturns (response : LLMResponse).

Definition LLMProvider := chat_request -> chat_outcome.

(** What [dashscope.TextEmbedding.call] comes to: an exception, or a
    response with its status and [output['embeddings'][0]['embedding']]
    ([None] when that path is missing from the output). *)
Inductive embedding_response : Type :=
| CallRaises
| CallReturns (status_ok : bool) (output : option embedding).

(** What an operation did, in order. *)
Inductive event : Type :=
| EvChat (request : chat_request)
| EvAppendHistory (entry : str)
| EvWriteLongTerm (text : str)
| EvAddMemory (user_id : Z) (fact : str).

Inductive exn : Type :=
| IndexError
| TypeError
| JSONDecodeError
| UnicodeEncodeError
| ProviderError
| StorageError.

(** The oracles.  Those of a service that may answer differently from one
    call to the next are indexed by the world's [clock]. *)
Record Env : Type := {
  str_upper : str -> str;                  (* s.upper(), over all of Unicode *)
  json_loads : str -> option pyval;        (* [None]: json.loads raises *)
  json_dumps : pyval -> str;               (* json.dumps(v, ensure_ascii=False) *)
  TextEmbedding_call : nat -> str -> str -> embedding_response;
  storage_fault : nat -> bool;             (* this round trip to the pool raises *)
  distance : Type;                         (* values of pgvector's [<=>] *)
  cosine_distance : embedding -> embedding -> distance;
  distance_leb : distance -> distance -> bool
}.

(* ================================================================== *)
(** ** Computations: state, effects performed, exceptions *)

Inductive outcome (A : Type) : Type :=
| Ret (a : A)
| Raise (e : exn).

Arguments Ret {A} a.
Arguments Raise {A} e.

Definition M (A : Type) : Type := World -> outcome A * World * list event.

Definition ret {A : Type} (a : A) : M A := fun w => (Ret a, w, []).

Definition raise {A : Type} (e : exn) : M A := fun w => (Raise e, w, []).

Definition bind {A B : Type} (m : M A) (k : A -> M B) : M B :=
  fun w =>
    match m w with
    | (Ret a, w1, ev1) =>
        match k a w1 with
        | (r, w2, ev2) => (r, w2, ev1 ++ ev2)
        end
    | (Raise e, w1, ev1) => (Raise e, w1, ev1)
    end.

(** [try: m except Exception: handler]: what [m] did before it raised
    stays done. *)
Definition try_except {A : Type} (m : M A) (handler : exn -> M A) : M A :=
  fun w =>
    match m w with
    | (Ret a, w1, ev1) => (Ret a, w1, ev1)
    | (Raise e, w1, ev1) =>
        match handler e w1 with
        | (r, w2, ev2) => (r, w2, ev1 ++ ev2)
        end
    end.

Definition gets {A : Type} (f : World -> A) : M A := fun w => (Ret (f w), w, []).

Definition modify (f : World -> World) : M unit := fun w => (Ret tt, f w, []).

Definition emit (e : event) : M unit := fun w => (Ret tt, w, [e]).

Definition when (b : bool) (m : M unit) : M unit := if b then m else ret tt.

Declare Scope py_scope.
Delimit Scope py_scope with py.

Notation "x <- m ;; k" := (bind m (fun x => k))
  (at level 100, m at next level, right associativity) : py_scope.
Notation "m ;; k" := (bind m (fun _ => k))
  (at level 100, right associativity) : py_scope.
Notation "'try' m 'except' h" := (try_except m h)
  (at level 100, m at next level, h at next level) : py_scope.

Local Open Scope py_scope.

(** [for x in xs: body x] *)
Fixpoint for_each {A : Type} (xs : list A) (body : A -> M unit) : M unit :=
  match xs with
  | [] => ret tt
  | x :: xs' => body x ;; for_each xs' body
  end.

Definition set_session (s : Session) (w : World) : World :=
  {| session := s; memory_file := memory_file w; history_file := history_file w;
     db := db w; tables := tables w; clock := clock w |}.

Definition set_memory_file (f : option str) (w : World) : World :=
  {| session := session w; memory_file := f; history_file := history_file w;
     db := db w; tables := tables w; clock := clock w |}.

Definition set_history_file (f : option str) (w : World) : World :=
  {| session := session w; memory_file := memory_file w; history_file := f;
     db := db w; tables := tables w; clock := clock w |}.

Definition set_tables (t : Database) (w : World) : World :=
  {| session := session w; memory_file := memory_file w; history_file := history_file w;
     db := db w; tables := t; clock := clock w |}.

Definition set_clock (n : nat) (w : World) : World :=
  {| session := session w; memory_file := memory_file w; history_file := history_file w;
     db := db w; tables := tables w; clock := n |}.

Definition set_db (d : DatabaseManager) (w : World) : World :=
  {| session := session w; memory_file := memory_file w; history_file := history_file w;
     db := d; tables := tables w; clock := clock w |}.

(** One external round trip: its number, and the clock moves on. *)
Definition tick : M nat :=
  fun w => (Ret (clock w), set_clock (S (clock w)) w, []).

Definition is_some {A : Type} (o : option A) : bool :=
  match o with Some _ => true | None => false end.

(* ================================================================== *)
(** ** nanobot/agent/memory.py: constants and pure parts *)

(** The tool schema sent with the consolidation request. *)
Definition _SAVE_MEMORY_TOOL : pyval :=
  PList [
    PDict [
      (lit "type", PStr (lit "function"));
      (lit "function", PDict [
        (lit "name", PStr (lit "save_memory"));
        (lit "description",
         PStr (lit "Save the memory consolidation result to persistent storage."));
        (lit "parameters", PDict [
          (lit "type", PStr (lit "object"));
          (lit "properties", PDict [
            (lit "history_entry", PDict [
              (lit "type", PStr (lit "string"));
              (lit "description",
               PStr (lit "A paragraph (2-5 sentences) summarizing key events/decisions/topics. "
                     ++ lit "Start with [YYYY-MM-DD HH:MM]. Include detail useful for grep search."))]);
            (lit "memory_update", PDict [
              (lit "type", PStr (lit "string"));
              (lit "description",
               PStr (lit "Full updated core long-term memory (PROFILE) as markdown. "
                     ++ lit "Include all existing core facts plus new ones. Return unchanged if nothing new."))]);
            (lit "facts", PDict [
              (lit "type", PStr (lit "array"));
              (lit "items", PDict [(lit "type", PStr (lit "string"))]);
              (lit "description",
               PStr (lit "List of NEW atomic, self-contained factual snippets or user preferences "
                     ++ lit "extracted from this conversation (e.g. 'User lives in Paris', 'User has a dog named Rex')."))])]);
          (lit "required", PList [PStr (lit "history_entry"); PStr (lit "memory_update")])])])]].

(** Lines 91-104 of [consolidate]: the messages to archive and the number
    kept, or [None] where the source returns [True] at once. *)
Definition select_old_messages (s : Session) (archive_all : bool) (memory_window : Z)
  : option (list message * Z) :=
  if archive_all then Some (messages s, 0)
  else
    let keep_count := memory_window / 2 in
    if len (messages s) <=? keep_count then None
    else if len (messages s) - last_consolidated s <=? 0 then None
    else
      match py_slice (messages s) (last_consolidated s) (- keep_count) with
      | [] => None
      | old_messages => Some (old_messages, keep_count)
      end.

(** Lines 108-111: the transcript line of one message, none for a message
    without content. *)
Definition transcript_line (env : Env) (m : message) : option str :=
  match content m with
  | None | Some [] => None
  | Some text =>
      let tools :=
        match tools_used m with
        | None | Some [] => []
        | Some names => lit " [tools: " ++ join (lit ", ") names ++ lit "]"
        end in
      let stamp := match timestamp m with Some t => t | None => lit "?" end in
      Some (lit "[" ++ firstn 16 stamp ++ lit "] " ++ str_upper env (role m) ++ tools
            ++ lit ": " ++ text)
  end.

Fixpoint transcript (env : Env) (old_messages : list message) : list str :=
  match old_messages with
  | [] => []
  | m :: rest =>
      match transcript_line env m with
      | None => transcript env rest
      | Some line => line :: transcript env rest
      end
  end.

(** Lines 114-125: the user prompt. *)
Definition consolidation_prompt (current_memory : str) (lines : list str) : str :=
  lit "Process this conversation and call the save_memory tool with your consolidation."
  ++ [LF; LF]
  ++ lit "Extract:" ++ [LF]
  ++ lit "1. A brief summary for the history log." ++ [LF]
  ++ lit "2. Updates to the core user profile (MEMORY.md). Keep this section small and focused on critical facts."
  ++ [LF]
  ++ lit "3. A list of NEW atomic, self-contained facts or user preferences to store in a vector database for later retrieval."
  ++ [LF; LF]
  ++ lit "## Current Core Profile (MEMORY.md)" ++ [LF]
  ++ (match current_memory with [] => lit "(empty)" | _ => current_memory end)
  ++ [LF; LF]
  ++ lit "## Conversation to Process" ++ [LF]
  ++ join [LF] lines.

(** Lines 128-135: the request sent to the provider. *)
Definition consolidation_request (prompt model : str) : chat_request :=
  {| req_messages :=
       [ (lit "system",
          lit "You are a memory consolidation agent. Call the save_memory tool with your consolidation of the conversation.");
         (lit "user", prompt) ];
     req_tools := _SAVE_MEMORY_TOOL;
     req_model := model |}.

(** Truth value of the optional [user_id] argument. *)
Definition truthy_id (user_id : option Z) : bool :=
  match user_id with
  | None => false
  | Some u => negb (u =? 0)
  end.

(** Truth value of [fact.strip()] *)
Definition nonblank (s : str) : bool :=
  match strip s with [] => false | _ => true end.

(* ================================================================== *)
(** ** nanobot/utils/db.py and the SQL statements: pure parts *)

(** [WHERE channel = $1 AND sender_id = $2] *)
Definition identity_matches (channel sender_id : str) (r : identity_row) : bool :=
  (str_eqb (idn_channel r) channel && str_eqb (idn_sender_id r) sender_id)%bool.

(** [SELECT user_id FROM user_identities WHERE ...], first row. *)
Definition find_identity (t : Database) (channel sender_id : str) : option identity_row :=
  find (identity_matches channel sender_id) (user_identities t).

(** [INSERT INTO users DEFAULT VALUES RETURNING id] *)
Definition with_new_user (now : nat) (t : Database) : Database :=
  {| users := users t ++ [ {| usr_id := users_id_seq t; usr_created_at := now |} ];
     users_id_seq := users_id_seq t + 1;
     user_identities := user_identities t;
     vector_memories := vector_memories t;
     vector_memories_id_seq := vector_memories_id_seq t |}.

(** [INSERT INTO user_identities (user_id, channel, sender_id) VALUES ...] *)
Definition with_new_identity (user_id : Z) (channel sender_id : str) (t : Database)
  : Database :=
  {| users := users t;
     users_id_seq := users_id_seq t;
     user_identities :=
       user_identities t
       ++ [ {| idn_user_id := user_id; idn_channel := channel;
               idn_sender_id := sender_id |} ];
     vector_memories := vector_memories t;
     vector_memories_id_seq := vector_memories_id_seq t |}.

(** [INSERT INTO vector_memories (user_id, content, embedding) VALUES ...] *)
Definition with_new_memory (now : nat) (user_id : Z) (text : str) (e : embedding)
  (t : Database) : Database :=
  {| users := users t;
     users_id_seq := users_id_seq t;
     user_identities := user_identities t;
     vector_memories :=
       vector_memories t
       ++ [ {| mem_id := vector_memories_id_seq t; mem_user_id := user_id;
               mem_content := text; mem_embedding := e; mem_created_at := now |} ];
     vector_memories_id_seq := vector_memories_id_seq t + 1 |}.

(** A rolled-back transaction: the rows are those of [saved]; sequence
    values handed out meanwhile are not given back. *)
Definition rolled_back (saved now : Database) : Database :=
  {| users := users saved;
     users_id_seq := users_id_seq now;
     user_identities := user_identities saved;
     vector_memories := vector_memories saved;
     vector_memories_id_seq := vector_memories_id_seq now |}.

(** [ORDER BY]: insertion into a list ordered by [le], after the rows
    that are not larger. *)
Fixpoint insert_by {A : Type} (le : A -> A -> bool) (x : A) (l : list A) : list A :=
  match l with
  | [] => [x]
  | y :: l' => if le y x then y :: insert_by le x l' else x :: l
  end.

Definition order_by {A : Type} (le : A -> A -> bool) (l : list A) : list A :=
  fold_right (insert_by le) [] l.

(* ================================================================== *)
(** ** The operations *)

Section Operations.

Variable env : Env.

(** *** Round trips to the pool *)

(** One statement sent over a pooled connection; the engine's refusals
    (constraint violations, a negative [LIMIT], ...) are storage errors
    like a lost connection, and come from the oracle. *)
Definition round_trip : M nat :=
  t <- tick ;;
  if storage_fault env t then raise StorageError else ret t.

(** [self.db.pool.acquire()] / [self._pool.acquire()] *)
Definition acquire : M unit := round_trip ;; ret tt.

(** [async with conn.transaction(): body]: BEGIN, the body, COMMIT; an
    exception of the body or of COMMIT rolls back and goes on up. *)
Definition transaction {A : Type} (body : M A) : M A :=
  round_trip ;;
  saved <- gets tables ;;
  try (a <- body ;; round_trip ;; ret a)
  except (fun e =>
    modify (fun w => set_tables (rolled_back saved (tables w)) w) ;;
    raise e).

(** *** nanobot/utils/db.py *)

(** [DatabaseManager.get_user_id] *)
Definition get_user_id (channel sender_id : str) : M (option Z) :=
  self <- gets db ;;
  if (negb (is_some (_pool self)) || negb (enabled self))%bool then ret None
  else
    try (
      acquire ;;
      round_trip ;;
      t <- gets tables ;;
      match find_identity t channel sender_id with
      | Some row => ret (Some (idn_user_id row))
      | None =>
          transaction (
            now <- round_trip ;;
            user_id <- gets (fun w => users_id_seq (tables w)) ;;
            modify (fun w => set_tables (with_new_user now (tables w)) w) ;;
            round_trip ;;
            modify (fun w =>
              set_tables (with_new_identity user_id channel sender_id (tables w)) w) ;;
            ret (Some user_id))
      end)
    except (fun _ => ret None).

(** *** nanobot/agent/vector_memory.py *)

(** [VectorMemoryStore.get_embeddings] *)
Definition get_embeddings (self : VectorMemoryStore) (text : str)
  : M (option embedding) :=
  match api_key self with
  | [] => ret None
  | _ =>
      t <- tick ;;
      match TextEmbedding_call env t (vs_model self) text with
      | CallReturns true (Some e) => ret (Some e)
      | CallReturns true None => ret None
      | CallReturns false _ => ret None
      | CallRaises => ret None
      end
  end.

(** [not self.db or not self.db.enabled or not self.db.pool] *)
Definition unavailable (self : VectorMemoryStore) : M bool :=
  d <- gets db ;;
  ret (negb (vs_db self) || negb (enabled d) || negb (is_some (pool d)))%bool.

(** [VectorMemoryStore.add_memory] *)
Definition add_memory (self : VectorMemoryStore) (user_id : Z) (text : str) : M unit :=
  emit (EvAddMemory user_id text) ;;
  off <- unavailable self ;;
  if off then ret tt
  else
    e <- get_embeddings self text ;;
    match e with
    | None | Some [] => ret tt
    | Some e =>
        try (
          acquire ;;
          now <- round_trip ;;
          modify (fun w => set_tables (with_new_memory now user_id text e (tables w)) w))
        except (fun _ => ret tt)
    end.

(** [embedding <=> $2::vector], compared between two rows. *)
Definition closer (query : embedding) (a b : memory_row) : bool :=
  distance_leb env (cosine_distance env (mem_embedding a) query)
                   (cosine_distance env (mem_embedding b) query).

(** [SELECT content FROM vector_memories WHERE user_id = $1
     ORDER BY embedding <=> $2::vector LIMIT $3] *)
Definition nearest_memories (t : Database) (user_id : Z) (query : embedding) (limit : Z)
  : list memory_row :=
  firstn (Z.to_nat limit)
    (order_by (closer query)
       (filter (fun r => mem_user_id r =? user_id) (vector_memories t))).

(** [VectorMemoryStore.search_memories] *)
Definition search_memories (self : VectorMemoryStore) (user_id : Z) (query : str)
  (limit : Z) : M (list str) :=
  off <- unavailable self ;;
  if off then ret []
  else
    e <- get_embeddings self query ;;
    match e with
    | None | Some [] => ret []
    | Some e =>
        try (
          acquire ;;
          round_trip ;;
          t <- gets tables ;;
          let rows := nearest_memories t user_id e limit in
          ret (map mem_content rows))
        except (fun _ => ret [])
    end.

(** *** nanobot/agent/memory.py *)

(** What [read_text] makes of MEMORY.md, empty when the file does not
    exist. *)
Definition long_term (w : World) : str :=
  match memory_file w with Some text => universal_newlines text | None => [] end.

(** [MemoryStore.read_long_term] *)
Definition read_long_term : M str := gets long_term.

(** [MemoryStore.write_long_term]: [write_text] opens the file for
    writing, which empties it, and then encodes the text. *)
Definition write_long_term (text : str) : M unit :=
  modify (set_memory_file (Some [])) ;;
  if encodable text then
    emit (EvWriteLongTerm text) ;;
    modify (set_memory_file (Some text))
  else raise UnicodeEncodeError.

(** The text of HISTORY.md, empty when the file does not exist. *)
Definition history_text (w : World) : str :=
  match history_file w with Some text => text | None => [] end.

(** What [append_history] writes for one entry. *)
Definition block (entry : str) : str := rstrip entry ++ [LF; LF].

(** [MemoryStore.append_history]: [open(..., "a")] creates the file where
    there is none, and the block is encoded before any of it is
    written. *)
Definition append_history (entry : str) : M unit :=
  modify (fun w => set_history_file (Some (history_text w)) w) ;;
  if encodable (block entry) then
    emit (EvAppendHistory entry) ;;
    modify (fun w => set_history_file (Some (history_text w ++ block entry)) w)
  else raise UnicodeEncodeError.

(** [MemoryStore.get_memory_context] *)
Definition get_memory_context : M str :=
  long_term <- read_long_term ;;
  ret (match long_term with
       | [] => []
       | _ => lit "## Core Profile" ++ [LF] ++ long_term
       end).

(** [await provider.chat(...)] *)
Definition chat (provider : LLMProvider) (request : chat_request) : M LLMResponse :=
  emit (EvChat request) ;;
  match provider request with
  | ChatRaises => raise ProviderError
  | ChatReturns response => ret response
  end.

(** [xs[0]] *)
Definition first_item {A : Type} (xs : list A) : M A :=
  match xs with
  | [] => raise IndexError
  | x :: _ => ret x
  end.

(** Lines 143-144: a string of arguments is decoded. *)
Definition decoded (args : pyval) : M pyval :=
  match args with
  | PStr s =>
      match json_loads env s with
      | Some v => ret v
      | None => raise JSONDecodeError
      end
  | _ => ret args
  end.

(** Lines 150-151 and 154-155: a value that is not a string is dumped. *)
Definition as_text (v : pyval) : str :=
  match v with
  | PStr s => s
  | _ => json_dumps env v
  end.

(** Lines 160-163: the facts go to the vector store. *)
Definition save_facts (user_id : option Z) (vector_store : option VectorMemoryStore)
  (args : list (str * pyval)) : M unit :=
  match user_id, vector_store with
  | Some uid, Some store =>
      let facts := dict_get args (lit "facts") in
      if (truthy_id user_id && truthy facts)%bool then
        match py_iter facts with
        | None => raise TypeError
        | Some items =>
            for_each items (fun fact =>
              match fact with
              | PStr s => when (nonblank s) (add_memory store uid s)
              | _ => ret tt
              end)
        end
      else ret tt
  | _, _ => ret tt
  end.

(** Lines 149-167: what is done with the arguments of the tool call. *)
Definition apply_save_memory (current_memory : str) (args : list (str * pyval))
  (archive_all : bool) (keep_count : Z) (user_id : option Z)
  (vector_store : option VectorMemoryStore) : M bool :=
  (let entry := dict_get args (lit "history_entry") in
   when (truthy entry) (append_history (as_text entry))) ;;
  (let update := dict_get args (lit "memory_update") in
   when (truthy update)
     (when (negb (str_eqb (as_text update) current_memory))
           (write_long_term (as_text update)))) ;;
  save_facts user_id vector_store args ;;
  modify (fun w =>
    set_session
      {| messages := messages (session w);
         last_consolidated :=
           if archive_all then 0 else len (messages (session w)) - keep_count |} w) ;;
  ret true.

(** [MemoryStore.consolidate] *)
Definition consolidate (provider : LLMProvider) (model : str) (archive_all : bool)
  (memory_window : Z) (user_id : option Z) (vector_store : option VectorMemoryStore)
  : M bool :=
  s <- gets session ;;
  match select_old_messages s archive_all memory_window with
  | None => ret true
  | Some (old_messages, keep_count) =>
      let lines := transcript env old_messages in
      current_memory <- read_long_term ;;
      let prompt := consolidation_prompt current_memory lines in
      try (
        response <- chat provider (consolidation_request prompt model) ;;
        if negb (has_tool_calls response) then ret false
        else
          call <- first_item (tool_calls response) ;;
          args <- decoded (arguments call) ;;
          match args with
          | PDict args =>
              apply_save_memory current_memory args archive_all keep_count
                                user_id vector_store
          | _ => ret false
          end)
      except (fun _ => ret false)
  end.

(** *** nanobot/utils/db.py: the life of the pool *)

(** [DatabaseManager._init_tables]: the extension and the three tables
    are created [IF NOT EXISTS], which leaves the rows there are alone.
    The connection is acquired outside the [try]. *)
Definition _init_tables : M unit :=
  self <- gets db ;;
  if negb (is_some (_pool self)) then ret tt
  else
    acquire ;;
    try (round_trip ;; round_trip ;; round_trip ;; round_trip ;; ret tt)
    except (fun _ => ret tt).

(** [DatabaseManager.connect]; [asyncpg.create_pool] is one round trip. *)
Definition connect : M unit :=
  self <- gets db ;;
  if negb (enabled self) then ret tt
  else if is_some (_pool self) then ret tt
  else
    try (
      round_trip ;;
      modify (fun w =>
        set_db {| enabled := enabled (db w); _pool := Some asyncpg_pool |} w) ;;
      _init_tables)
    except (fun _ =>
      modify (fun w => set_db {| enabled := false; _pool := _pool (db w) |} w)).

(** [DatabaseManager.close]; [self._pool.close()] is one round trip,
    outside any [try]. *)
Definition close : M unit :=
  self <- gets db ;;
  match _pool self with
  | None => ret tt
  | Some _ =>
      round_trip ;;
      modify (fun w => set_db {| enabled := enabled (db w); _pool := None |} w)
  end.

End Operations.

(* ================================================================== *)
(** ** What the operations are expected to do

    Definitions used to state the properties: what a call leaves alone,
    and the events and mappings the lines of [consolidate] give rise
    to. *)

(** The session, the two files and the database manager are the same. *)
Definition same_memory (w w' : World) : Prop :=
  session w' = session w /\ memory_file w' = memory_file w
  /\ history_file w' = history_file w /\ db w' = db w.

(** The identity tables are the same, and facts were only added. *)
Definition facts_added (user_id : Z) (w w' : World) : Prop :=
  users (tables w') = users (tables w)
  /\ user_identities (tables w') = user_identities (tables w)
  /\ exists rows,
       vector_memories (tables w') = vector_memories (tables w) ++ rows
       /\ Forall (fun r => mem_user_id r = user_id /\ mem_embedding r <> []) rows.

(** The calls of [add_memory] that the loop of lines 161-163 makes for
    the items of [facts]. *)
Definition forwarded (user_id : Z) (items : list pyval) : list event :=
  flat_map (fun fact =>
              match fact with
              | PStr s => if nonblank s then [EvAddMemory user_id s] else []
              | _ => []
              end) items.


(** The entries before the first that cannot be encoded. *)
Fixpoint writable_prefix (entries : list str) : list str :=
  match entries with
  | [] => []
  | entry :: rest => if encodable entry then entry :: writable_prefix rest else []
  end.

(** The manager has no pool or is disabled. *)
Definition offline (w : World) : Prop :=
  _pool (db w) = None \/ enabled (db w) = false.

(** The key of an identity row. *)
Definition identity_key (r : identity_row) : str * str :=
  (idn_channel r, idn_sender_id r).

(** What the schema of [_init_tables] asks of the identity tables: the
    sequence is ahead of every user id, the user ids are distinct, no
    pair has two identity rows, and every identity row names a user. *)
Definition consistent (t : Database) : Prop :=
  (forall u, In u (users t) -> usr_id u < users_id_seq t)
  /\ NoDup (map usr_id (users t))
  /\ NoDup (map identity_key (user_identities t))
  /\ (forall r, In r (user_identities t) -> In (idn_user_id r) (map usr_id (users t))).

Section Expected.

Variable env : Env.

(** The mapping that lines 141-147 extract from the arguments of a tool
    call, if any. *)
Definition parsed_arguments (args : pyval) : option (list (str * pyval)) :=
  match args with
  | PDict d => Some d
  | PStr s =>
      match json_loads env s with
      | Some (PDict d) => Some d
      | _ => None
      end
  | _ => None
  end.

(** Line 152 is reached: the entry is truthy. *)
Definition history_due (args : list (str * pyval)) : bool :=
  truthy (dict_get args (lit "history_entry")).

(** The text line 152 hands to [append_history]. *)
Definition history_entry (args : list (str * pyval)) : str :=
  as_text env (dict_get args (lit "history_entry")).

(** Line 152 raises: the block cannot be encoded. *)
Definition history_fails (args : list (str * pyval)) : bool :=
  (history_due args && negb (encodable (block (history_entry args))))%bool.

(** The append of lines 149-152. *)
Definition history_events (args : list (str * pyval)) : list event :=
  if (history_due args && encodable (block (history_entry args)))%bool
  then [EvAppendHistory (history_entry args)] else [].

(** Line 157 is reached: the update is truthy and is not the text read. *)
Definition profile_due (current_memory : str) (args : list (str * pyval)) : bool :=
  let update := dict_get args (lit "memory_update") in
  (truthy update && negb (str_eqb (as_text env update) current_memory))%bool.

(** The text line 157 hands to [write_long_term]. *)
Definition profile_update (args : list (str * pyval)) : str :=
  as_text env (dict_get args (lit "memory_update")).

(** Line 157 raises: the update cannot be encoded. *)
Definition profile_fails (current_memory : str) (args : list (str * pyval)) : bool :=
  (profile_due current_memory args && negb (encodable (profile_update args)))%bool.

(** The write of lines 153-157. *)
Definition profile_events (current_memory : str) (args : list (str * pyval))
  : list event :=
  if (profile_due current_memory args && encodable (profile_update args))%bool
  then [EvWriteLongTerm (profile_update args)] else [].

(** Whether line 160 lets the facts through, and what they are. *)
Definition facts_to_save (user_id : option Z) (vector_store : option VectorMemoryStore)
  (args : list (str * pyval)) : option pyval :=
  match user_id, vector_store with
  | Some _, Some _ =>
      if (truthy_id user_id && truthy (dict_get args (lit "facts")))%bool
      then Some (dict_get args (lit "facts")) else None
  | _, _ => None
  end.

(** The calls of lines 161-163. *)
Definition fact_events (user_id : option Z) (vector_store : option VectorMemoryStore)
  (args : list (str * pyval)) : list event :=
  match user_id, facts_to_save user_id vector_store args with
  | Some u, Some facts =>
      match py_iter facts with
      | Some items => forwarded u items
      | None => []
      end
  | _, _ => []
  end.

(** Line 161 raises: the facts let through cannot be iterated. *)
Definition facts_not_iterable (user_id : option Z)
  (vector_store : option VectorMemoryStore) (args : list (str * pyval)) : bool :=
  match facts_to_save user_id vector_store args with
  | Some facts => negb (is_some (py_iter facts))
  | None => false
  end.

(** Lines 149-167 run to the end: neither write raises and the facts let
    through can be iterated. *)
Definition applies (current_memory : str) (user_id : option Z)
  (vector_store : option VectorMemoryStore) (args : list (str * pyval)) : bool :=
  (negb (history_fails args) && negb (profile_fails current_memory args)
   && negb (facts_not_iterable user_id vector_store args))%bool.

(** What lines 149-163 do, each step only if the one before returned. *)
Definition applied_events (current_memory : str) (user_id : option Z)
  (vector_store : option VectorMemoryStore) (args : list (str * pyval)) : list event :=
  history_events args
  ++ (if history_fails args then []
      else profile_events current_memory args
           ++ (if profile_fails current_memory args then []
               else fact_events user_id vector_store args)).

(** The request [consolidate] sends when it archives [old_messages]. *)
Definition request_for (w : World) (old_messages : list message) (model : str)
  : chat_request :=
  consolidation_request
    (consolidation_prompt (long_term w) (transcript env old_messages)) model.

(** The mapping lines 137-147 accept from the provider's answer. *)
Definition tool_arguments (reply : chat_outcome) : option (list (str * pyval)) :=
  match reply with
  | ChatRaises => None
  | ChatReturns response =>
      if has_tool_calls response then
        match tool_calls response with
        | [] => None
        | call :: _ => parsed_arguments (arguments call)
        end
      else None
  end.


(** No storage error in the [n] round trips from number [t] on. *)
Definition quiet (t n : nat) : Prop :=
  forall k, (k < n)%nat -> storage_fault env (t + k) = false.

(** A storage error in one of the [n] round trips from number [t] on. *)
Definition faulty (t n : nat) : Prop :=
  exists k, (k < n)%nat /\ storage_fault env (t + k) = true.

End Expected.

(* ================================================================== *)
(** ** Sample inputs *)

(** Upper case for the roles the examples use, which are ASCII. *)
Definition sample_upper (s : str) : str :=
  map (fun c => if in_range 97 122 c then (c - 32)%N else c) s.

(** A codec for the values the examples use. *)
Definition sample_loads (s : str) : option pyval :=
  if str_eqb s (lit "{}") then Some (PDict [])
  else if str_eqb s (lit "[]") then Some (PList [])
  else if str_eqb s (lit "null") then Some PNone
  else None.

Definition sample_dumps (v : pyval) : str :=
  match v with
  | PNone => lit "null"
  | PBool true => lit "true"
  | PBool false => lit "false"
  | PInt z => lit (NilZero.string_of_int (Z.to_int z))
  | PList [] => lit "[]"
  | PList [PStr [c]] => lit "[" ++ [34%N; c; 34%N] ++ lit "]"
  | PDict [] => lit "{}"
  | _ => lit "..."
  end.

(** An embedding service that answers every text but the empty one. *)
Definition sample_embedding (text : str) : embedding :=
  match text with
  | [] => []
  | c :: _ => if N.even c then [1%float; 0%float] else [0%float; 1%float]
  end.

Definition sample_call (t : nat) (model text : str) : embedding_response :=
  match text with
  | [] => CallReturns false None
  | _ => CallReturns true (Some (sample_embedding text))
  end.

(** A distance for the examples: the number of coordinates in which two
    vectors differ. *)
Fixpoint sample_distance (a b : embedding) : Z :=
  match a, b with
  | x :: a', y :: b' => (if PrimFloat.eqb x y then 0 else 1) + sample_distance a' b'
  | _, _ => 0
  end.

Definition sample_env : Env :=
  {| str_upper := sample_upper;
     json_loads := sample_loads;
     json_dumps := sample_dumps;
     TextEmbedding_call := sample_call;
     storage_fault := fun _ => false;
     distance := Z;
     cosine_distance := sample_distance;
     distance_leb := Z.leb |}.


Definition sample_message : message :=
  {| role := lit "user";
     content := Some (lit "We should go hiking next week.");
     timestamp := Some (lit "2024-01-01T10:00:00.000000");
     tools_used := None |}.

Definition empty_tables : Database :=
  {| users := []; users_id_seq := 1; user_identities := [];
     vector_memories := []; vector_memories_id_seq := 1 |}.

(** A world whose session holds [n] messages with the cursor at
    [cursor], and whose profile reads "old profile". *)
Definition sample_world (n : nat) (cursor : Z) : World :=
  {| session := {| messages := repeat sample_message n; last_consolidated := cursor |};
     memory_file := Some (lit "old profile");
     history_file := None;
     db := {| enabled := true; _pool := Some asyncpg_pool |};
     tables := empty_tables;
     clock := 0 |}.

(** A provider that answers with one tool call carrying [args]. *)
Definition answering (args : pyval) : LLMProvider :=
  fun _ => ChatReturns {| has_tool_calls := true;
                          tool_calls := [ {| arguments := args |} ] |}.

(** A provider that answers in plain text. *)
Definition chatting : LLMProvider :=
  fun _ => ChatReturns {| has_tool_calls := false; tool_calls := [] |}.

Definition sample_args : pyval :=
  PDict [ (lit "history_entry", PStr (lit "[2024-01-01 10:00] Discussed trip"));
          (lit "memory_update", PStr (lit "User likes hiking"));
          (lit "facts", PList [PStr (lit "User has a dog named Rex")]) ].

Definition sample_store : VectorMemoryStore :=
  {| vs_db := true; api_key := lit "sk-sample"; vs_model := lit "text-embedding-v3" |}.

Definition sample_model : str := lit "sample-model".

(** Three facts of user 7 and one of user 8. *)
Definition sample_facts : Database :=
  {| users := [ {| usr_id := 7; usr_created_at := 0 |};
                {| usr_id := 8; usr_created_at := 0 |} ];
     users_id_seq := 9;
     user_identities :=
       [ {| idn_user_id := 7; idn_channel := lit "telegram"; idn_sender_id := lit "42" |} ];
     vector_memories :=
       [ {| mem_id := 1; mem_user_id := 7; mem_content := lit "User lives in Paris";
            mem_embedding := [0%float; 1%float]; mem_created_at := 1 |};
         {| mem_id := 2; mem_user_id := 8; mem_content := lit "User likes tea";
            mem_embedding := [1%float; 0%float]; mem_created_at := 2 |};
         {| mem_id := 3; mem_user_id := 7; mem_content := lit "User has a dog named Rex";
            mem_embedding := [1%float; 0%float]; mem_created_at := 3 |};
         {| mem_id := 4; mem_user_id := 7; mem_content := lit "User works at night";
            mem_embedding := [1%float; 1%float]; mem_created_at := 4 |} ];
     vector_memories_id_seq := 5 |}.

Definition facts_world : World :=
  set_tables sample_facts (sample_world 0 0).

(** A world whose manager is enabled and has no pool yet. *)
Definition unconnected_world : World :=
  set_db {| enabled := true; _pool := None |} facts_world.

(** A store that was given no API key. *)
Definition unkeyed_store : VectorMemoryStore :=
  {| vs_db := true; api_key := []; vs_model := lit "text-embedding-v3" |}.

(** A provider that raises. *)
Definition unreachable : LLMProvider := fun _ => ChatRaises.

(** U+D83D, one half of a surrogate pair: on its own it has no UTF-8
    form. *)
Definition lone_surrogate : char := 55357%N.

(** Arguments whose history entry cannot be encoded. *)
Definition unwritable_args : pyval :=
  PDict [ (lit "history_entry", PStr (lit "x" ++ [lone_surrogate]));
          (lit "memory_update", PStr (lit "User likes hiking"));
          (lit "facts", PList [PStr (lit "User has a dog named Rex")]) ].

(** Arguments whose facts are a number. *)
Definition number_args : list (str * pyval) :=
  [ (lit "history_entry", PStr (lit "[2024-01-01 10:00] Discussed trip"));
    (lit "facts", PInt 5) ].

(** Arguments whose facts are one string. *)
Definition string_args : list (str * pyval) :=
  [ (lit "facts", PStr (lit "a b")) ].

(* ================================================================== *)
(** ** Text *)

Lemma str_eqb_eq (a b : str) : str_eqb a b = true <-> a = b.
Proof.
  revert b; induction a as [|x a IH]; intros [|y b]; simpl; split;
    try congruence; try discriminate; auto.
  - intros H. apply andb_true_iff in H as [Hx Hab].
    apply N.eqb_eq in Hx. apply IH in Hab. congruence.
  - intros H. injection H as -> ->.
    apply andb_true_iff. split; [apply N.eqb_refl | now apply IH].
Qed.

Lemma str_eqb_refl (a : str) : str_eqb a a = true.
Proof. now apply str_eqb_eq. Qed.

Lemma str_eqb_neq (a b : str) : str_eqb a b = false <-> a <> b.
Proof.
  split.
  - intros H E. apply str_eqb_eq in E. congruence.
  - intros H. destruct (str_eqb a b) eqn:E; [|reflexivity].
    apply str_eqb_eq in E. contradiction.
Qed.

Lemma rstrip_spaces (ws : str) : forallb isspace ws = true -> rstrip ws = [].
Proof.
  induction ws as [|c ws IH]; simpl; [reflexivity|].
  intros H. apply andb_true_iff in H as [Hc Hws].
  rewrite (IH Hws), Hc. reflexivity.
Qed.

(** What [rstrip] removes is whitespace. *)
Lemma rstrip_split (s : str) :
  exists ws, s = rstrip s ++ ws /\ forallb isspace ws = true.
Proof.
  induction s as [|c s (ws & Hs & Hws)]; simpl.
  - exists []. auto.
  - destruct (rstrip s) as [|y r] eqn:E; simpl in Hs.
    + destruct (isspace c) eqn:Hc.
      * exists (c :: ws). simpl. rewrite Hc, Hws. split; [congruence | reflexivity].
      * exists ws. simpl. split; [congruence | assumption].
    + exists ws. split; [|assumption]. simpl. congruence.
Qed.

(** What [rstrip] leaves does not end in whitespace. *)
Lemma rstrip_last (s body : str) (c : char) :
  rstrip s = body ++ [c] -> isspace c = false.
Proof.
  revert body; induction s as [|x s IH]; intros body; simpl.
  - destruct body; discriminate.
  - destruct (rstrip s) as [|y r] eqn:E.
    + destruct (isspace x) eqn:Hx.
      * destruct body; discriminate.
      * destruct body as [|b [|b' body]]; simpl; try discriminate.
        intros H; injection H as ->. assumption.
    + destruct body as [|b body]; simpl.
      * discriminate.
      * intros H. injection H as _ H. eauto.
Qed.

(** Trailing whitespace of the argument does not show in the result. *)
Lemma rstrip_app_spaces (s ws : str) :
  forallb isspace ws = true -> rstrip (s ++ ws) = rstrip s.
Proof.
  intros Hws. induction s as [|c s IH]; simpl.
  - now apply rstrip_spaces.
  - rewrite IH. reflexivity.
Qed.

Lemma rstrip_idempotent (s : str) : rstrip (rstrip s) = rstrip s.
Proof.
  destruct (rstrip_split s) as (ws & Hs & Hws).
  rewrite Hs at 2. now rewrite rstrip_app_spaces.
Qed.

(** Whitespace can be encoded, so stripping does not change whether a
    text can. *)
Lemma encodable_app (a b : str) :
  encodable (a ++ b) = (encodable a && encodable b)%bool.
Proof. apply forallb_app. Qed.

Lemma isspace_encodable (c : char) : isspace c = true -> encodable_char c = true.
Proof.
  unfold isspace, encodable_char, in_range. intros H.
  assert (Hc : (c <= 12288)%N).
  { repeat (apply orb_true_iff in H; destruct H as [H|H]);
      repeat match goal with
             | H : (_ && _)%bool = true |- _ => apply andb_true_iff in H; destruct H
             | H : N.leb _ _ = true |- _ => apply N.leb_le in H
             | H : N.eqb _ _ = true |- _ => apply N.eqb_eq in H
             end; lia. }
  destruct (N.leb_spec 55296 c); [lia | reflexivity].
Qed.

Lemma spaces_encodable (ws : str) : forallb isspace ws = true -> encodable ws = true.
Proof.
  induction ws as [|c ws IH]; simpl; [reflexivity|].
  intros H. apply andb_true_iff in H as [Hc Hws].
  now rewrite (isspace_encodable c Hc), (IH Hws).
Qed.

Lemma encodable_rstrip (s : str) : encodable (rstrip s) = encodable s.
Proof.
  destruct (rstrip_split s) as (ws & Hs & Hws).
  rewrite Hs at 2. rewrite encodable_app, (spaces_encodable ws Hws).
  now rewrite andb_true_r.
Qed.

Lemma encodable_block (entry : str) : encodable (block entry) = encodable entry.
Proof.
  unfold block. rewrite encodable_app, encodable_rstrip. simpl. apply andb_true_r.
Qed.

(** A text without carriage returns is read back as it is. *)
Lemma universal_newlines_plain (s : str) :
  forallb (fun c => negb (N.eqb c 13)) s = true -> universal_newlines s = s.
Proof.
  induction s as [|c s IH]; simpl; [reflexivity|].
  intros H. apply andb_true_iff in H as [Hc Hs].
  apply negb_true_iff in Hc. rewrite Hc, (IH Hs). reflexivity.
Qed.

Lemma universal_newlines_cons (c : char) (rest : str) :
  universal_newlines (c :: rest)
  = if N.eqb c 13 then
      match rest with
      | d :: rest' =>
          if N.eqb d 10 then LF :: universal_newlines rest'
          else LF :: universal_newlines rest
      | [] => [LF]
      end
    else c :: universal_newlines rest.
Proof. reflexivity. Qed.

(** What is read holds no carriage return. *)
Lemma universal_newlines_no_cr (s : str) :
  forallb (fun c => negb (N.eqb c 13)) (universal_newlines s) = true.
Proof.
  assert (H : forall n s, (List.length s <= n)%nat ->
                forallb (fun c => negb (N.eqb c 13)) (universal_newlines s) = true).
  { clear s. induction n as [|n IH]; intros [|c s] Hn;
      try reflexivity; try (simpl in Hn; lia).
    rewrite universal_newlines_cons.
    destruct (N.eqb c 13) eqn:Hc.
    - destruct s as [|d s]; [reflexivity|]. simpl in Hn.
      destruct (N.eqb d 10); cbn [forallb]; apply IH; simpl; lia.
    - cbn [forallb]. rewrite Hc. apply IH. simpl in Hn. lia. }
  apply (H (List.length s)). lia.
Qed.

(* ================================================================== *)
(** ** The history log *)

(** What [append_history] does, whatever the entry. *)
Lemma append_history_run (entry : str) (w : World) :
  append_history entry w
  = (if encodable entry then Ret tt else Raise UnicodeEncodeError,
     set_history_file
       (Some (history_text w ++ (if encodable entry then block entry else []))) w,
     if encodable entry then [EvAppendHistory entry] else []).
Proof.
  unfold append_history, bind, modify, emit, raise. simpl.
  rewrite encodable_block.
  destruct (encodable entry); simpl; [reflexivity|].
  now rewrite app_nil_r.
Qed.

(** What [write_long_term] does, whatever the text. *)
Lemma write_long_term_run (text : str) (w : World) :
  write_long_term text w
  = (if encodable text then Ret tt else Raise UnicodeEncodeError,
     set_memory_file (Some (if encodable text then text else [])) w,
     if encodable text then [EvWriteLongTerm text] else []).
Proof.
  unfold write_long_term, bind, modify, emit, raise. simpl.
  destruct (encodable text); reflexivity.
Qed.

(** C10. [append_history entry], for an entry that can be encoded as
    UTF-8, returns and leaves HISTORY.md holding its old text followed by
    [entry.rstrip()] and two line feeds; for an entry that cannot (it
    holds a surrogate) it raises, and HISTORY.md holds its old text, empty
    if the file was not there.  Nothing else changes.  What was stripped
    is whitespace only, the stripped entry does not end in whitespace (so
    the block ends in one blank line exactly), an entry of whitespace
    only leaves the two line feeds, and the file does not depend on the
    whitespace the entry ends with. *)
Theorem append_history_block (entry : str) (w : World) :
  exists w',
    append_history entry w
    = (if encodable entry then Ret tt else Raise UnicodeEncodeError, w',
       if encodable entry then [EvAppendHistory entry] else [])
    /\ history_file w'
       = Some (history_text w
               ++ (if encodable entry then rstrip entry ++ [LF; LF] else []))
    /\ (session w' = session w /\ memory_file w' = memory_file w
        /\ db w' = db w /\ tables w' = tables w /\ clock w' = clock w)
    /\ (exists ws, entry = rstrip entry ++ ws /\ forallb isspace ws = true)
    /\ (forall body c, rstrip entry = body ++ [c] -> isspace c = false)
    /\ (forallb isspace entry = true -> rstrip entry = [])
    /\ (forall ws, forallb isspace ws = true ->
        exists w'',
          append_history (entry ++ ws) w
          = (if encodable entry then Ret tt else Raise UnicodeEncodeError, w'',
             if encodable entry then [EvAppendHistory (entry ++ ws)] else [])
          /\ history_file w'' = history_file w').
Proof.
  eexists. split; [apply append_history_run|].
  split; [reflexivity|]. split; [repeat split|].
  split; [apply rstrip_split|].
  split; [intros body c; apply rstrip_last|].
  split; [apply rstrip_spaces|].
  intros ws Hws. eexists. rewrite append_history_run.
  assert (E : encodable (entry ++ ws) = encodable entry).
  { rewrite encodable_app, (spaces_encodable ws Hws). apply andb_true_r. }
  rewrite E. split; [reflexivity|]. simpl. unfold block.
  now rewrite rstrip_app_spaces.
Qed.

(* ================================================================== *)
(** ** Frames *)

Lemma same_memory_refl (w : World) : same_memory w w.
Proof. repeat split. Qed.

Lemma same_memory_trans (w1 w2 w3 : World) :
  same_memory w1 w2 -> same_memory w2 w3 -> same_memory w1 w3.
Proof. unfold same_memory. intuition congruence. Qed.

Lemma facts_added_refl (u : Z) (w : World) : facts_added u w w.
Proof.
  repeat split. exists []. rewrite app_nil_r. auto.
Qed.

Lemma facts_added_trans (u : Z) (w1 w2 w3 : World) :
  facts_added u w1 w2 -> facts_added u w2 w3 -> facts_added u w1 w3.
Proof.
  intros (Hu & Hi & r1 & Hr1 & F1) (Hu' & Hi' & r2 & Hr2 & F2).
  repeat split; try congruence.
  exists (r1 ++ r2). split.
  - rewrite Hr2, Hr1, app_assoc. reflexivity.
  - apply Forall_app. auto.
Qed.

(** An equivalence between truth values that have been computed. *)
Ltac settle_iff :=
  split; intros;
  repeat match goal with
         | H : _ \/ _ |- _ => destruct H
         | H : _ /\ _ |- _ => destruct H
         end;
  try discriminate; try congruence; auto;
  try solve [left; congruence | right; left; congruence
            | right; right; congruence | right; congruence].

(** Case analysis on an innermost scrutinee of the goal. *)
Ltac break_match :=
  match goal with
  | |- context [match ?x with _ => _ end] =>
      lazymatch x with
      | context [match _ with _ => _ end] => fail
      | _ => destruct x eqn:?
      end
  end.

Section Properties.

Variable env : Env.

(* ------------------------------------------------------------------ *)
(** *** The vector store *)

(** [get_embeddings] never raises and only moves the clock. *)
Lemma get_embeddings_total (self : VectorMemoryStore) (text : str) (w : World) :
  exists e w',
    get_embeddings env self text w = (Ret e, w', [])
    /\ same_memory w w' /\ tables w' = tables w.
Proof.
  unfold get_embeddings, bind, tick, ret.
  destruct (api_key self); [do 2 eexists; repeat split|].
  repeat break_match; do 2 eexists; repeat split.
Qed.

(** [add_memory] never raises; it touches nothing but the facts table,
    to which it adds at most one row, of the given user. *)
Lemma add_memory_total (self : VectorMemoryStore) (u : Z) (text : str) (w : World) :
  exists w',
    add_memory env self u text w = (Ret tt, w', [EvAddMemory u text])
    /\ same_memory w w' /\ facts_added u w w'.
Proof.
  unfold add_memory, bind at 1 2, emit, unavailable, gets, ret. simpl.
  destruct (negb (vs_db self) || negb (enabled (db w)) || negb (is_some (pool (db w))))%bool.
  { eexists. repeat split. exists []. rewrite app_nil_r. auto. }
  unfold bind.
  destruct (get_embeddings_total self text w) as (e & w1 & -> & Hm & Ht).
  destruct e as [[|x e]|].
  1,3: eexists; split; [reflexivity|]; split; [assumption|];
       unfold facts_added; rewrite Ht; repeat split; exists []; rewrite app_nil_r; auto.
  unfold try_except, acquire, round_trip, bind, tick, raise, ret, modify. simpl.
  destruct Hm as (Hs & Hmf & Hh & Hd).
  repeat break_match; simpl; eexists; (split; [reflexivity|]);
    repeat match goal with H : (_, _, _) = (_, _, _) |- _ => inversion H; clear H; subst end;
    simpl; unfold same_memory, facts_added; simpl; rewrite ?Ht;
    repeat split; auto; try discriminate.
  all: try solve [exists []; rewrite app_nil_r; auto].
  eexists. split; [reflexivity|]. repeat constructor; simpl; discriminate.
Qed.

(** A fact whose embedding fails leaves the tables as they were. *)
Lemma add_memory_without_embedding (self : VectorMemoryStore) (u : Z) (text : str)
  (w w1 : World) (e : option embedding) :
  get_embeddings env self text w = (Ret e, w1, []) ->
  e = None \/ e = Some [] ->
  exists w',
    add_memory env self u text w = (Ret tt, w', [EvAddMemory u text])
    /\ tables w' = tables w.
Proof.
  intros He Hfail.
  destruct (get_embeddings_total self text w) as (e' & w1' & He' & _ & Ht).
  rewrite He in He'. injection He' as <- <-.
  unfold add_memory, bind at 1 2, emit, unavailable, gets, ret. simpl.
  destruct (negb (vs_db self) || negb (enabled (db w)) || negb (is_some (pool (db w))))%bool.
  { eexists. split; reflexivity. }
  unfold bind. rewrite He.
  destruct Hfail as [-> | ->]; eexists; (split; [reflexivity | assumption]).
Qed.

(** With the store available, an embedding and no storage error, the
    fact becomes one more row. *)
Lemma add_memory_inserts (self : VectorMemoryStore) (u : Z) (text : str)
  (w w1 : World) (x : float) (e : embedding) :
  vs_db self = true -> enabled (db w) = true -> pool (db w) = Some asyncpg_pool ->
  get_embeddings env self text w = (Ret (Some (x :: e)), w1, []) ->
  storage_fault env (clock w1) = false ->
  storage_fault env (S (clock w1)) = false ->
  exists w',
    add_memory env self u text w = (Ret tt, w', [EvAddMemory u text])
    /\ vector_memories (tables w')
       = vector_memories (tables w)
         ++ [ {| mem_id := vector_memories_id_seq (tables w); mem_user_id := u;
                 mem_content := text; mem_embedding := x :: e;
                 mem_created_at := S (clock w1) |} ].
Proof.
  intros Hdb Hen Hpool He F1 F2.
  destruct (get_embeddings_total self text w) as (e' & w1' & He' & _ & Ht).
  rewrite He in He'. injection He' as <- <-.
  unfold add_memory, bind at 1 2, emit, unavailable, gets, ret. simpl.
  rewrite Hdb, Hen, Hpool. simpl.
  unfold bind at 1. rewrite He.
  unfold try_except, acquire, round_trip, bind, tick, raise, ret, modify. simpl.
  rewrite F1. simpl. rewrite F2. simpl.
  eexists. split; [reflexivity|]. simpl. rewrite Ht. reflexivity.
Qed.

(** The loop over the facts: one call of [add_memory] per string that
    is not blank, in order, and no exception. *)
Lemma forward_loop (store : VectorMemoryStore) (u : Z) (items : list pyval) (w : World) :
  exists w',
    for_each items
      (fun fact =>
         match fact with
         | PStr s => when (nonblank s) (add_memory env store u s)
         | _ => ret tt
         end) w
    = (Ret tt, w', forwarded u items)
    /\ same_memory w w' /\ facts_added u w w'.
Proof.
  revert w. induction items as [|fact items IH]; intros w; simpl.
  - exists w. split; [reflexivity|]. split; [apply same_memory_refl | apply facts_added_refl].
  - unfold bind.
    assert (Hstep : exists w1,
      (match fact with
       | PStr s => when (nonblank s) (add_memory env store u s)
       | _ => ret tt
       end) w
      = (Ret tt, w1,
         match fact with
         | PStr s => if nonblank s then [EvAddMemory u s] else []
         | _ => []
         end)
      /\ same_memory w w1 /\ facts_added u w w1).
    { destruct fact; try (exists w; split; [reflexivity|];
        split; [apply same_memory_refl | apply facts_added_refl]).
      unfold when. destruct (nonblank s).
      - apply add_memory_total.
      - exists w. split; [reflexivity|].
        split; [apply same_memory_refl | apply facts_added_refl]. }
    destruct Hstep as (w1 & -> & Hm1 & Hf1).
    destruct (IH w1) as (w2 & -> & Hm2 & Hf2).
    exists w2. split; [reflexivity|].
    split; [eapply same_memory_trans | eapply facts_added_trans]; eassumption.
Qed.

(* ------------------------------------------------------------------ *)
(** *** Lines 149-167 *)

Lemma save_facts_spec (user_id : option Z) (vector_store : option VectorMemoryStore)
  (args : list (str * pyval)) (w : World) :
  exists w',
    save_facts env user_id vector_store args w
    = (if facts_not_iterable user_id vector_store args then Raise TypeError else Ret tt,
       w', fact_events user_id vector_store args)
    /\ same_memory w w'
    /\ facts_added (match user_id with Some u => u | None => 0 end) w w'
    /\ (facts_to_save user_id vector_store args = None
        \/ facts_not_iterable user_id vector_store args = true -> w' = w).
Proof.
  unfold save_facts, facts_not_iterable, fact_events, facts_to_save.
  destruct user_id as [u|], vector_store as [store|];
    try solve [exists w; repeat split; apply facts_added_refl].
  destruct (truthy_id (Some u) && truthy (dict_get args (lit "facts")))%bool;
    [| exists w; repeat split; apply facts_added_refl ].
  destruct (py_iter (dict_get args (lit "facts"))) as [items|]; simpl.
  - destruct (forward_loop store u items w) as (w' & E & Hm & Hf).
    exists w'. rewrite E. repeat split; try apply Hm; try apply Hf.
    intros [H|H]; discriminate.
  - exists w. repeat split; try apply facts_added_refl.
Qed.

(** Lines 149-152. *)
Lemma history_step (args : list (str * pyval)) (w : World) :
  exists w1,
    when (truthy (dict_get args (lit "history_entry")))
         (append_history (as_text env (dict_get args (lit "history_entry")))) w
    = (if history_fails env args then Raise UnicodeEncodeError else Ret tt, w1,
       history_events env args)
    /\ session w1 = session w /\ memory_file w1 = memory_file w /\ db w1 = db w
    /\ tables w1 = tables w /\ clock w1 = clock w
    /\ history_file w1
       = (if history_due args
          then Some (history_text w
                     ++ (if encodable (history_entry env args)
                         then block (history_entry env args) else []))
          else history_file w).
Proof.
  unfold history_fails, history_events, history_due, history_entry, when.
  destruct (truthy (dict_get args (lit "history_entry"))); simpl.
  - rewrite append_history_run, encodable_block.
    destruct (encodable (as_text env (dict_get args (lit "history_entry"))));
      eexists; (split; [reflexivity | repeat split]).
  - exists w. repeat split.
Qed.

(** Lines 153-157. *)
Lemma profile_step (current_memory : str) (args : list (str * pyval)) (w : World) :
  exists w1,
    when (truthy (dict_get args (lit "memory_update")))
      (when (negb (str_eqb (as_text env (dict_get args (lit "memory_update")))
                           current_memory))
            (write_long_term (as_text env (dict_get args (lit "memory_update"))))) w
    = (if profile_fails env current_memory args
       then Raise UnicodeEncodeError else Ret tt, w1,
       profile_events env current_memory args)
    /\ session w1 = session w /\ history_file w1 = history_file w /\ db w1 = db w
    /\ tables w1 = tables w /\ clock w1 = clock w
    /\ memory_file w1
       = (if profile_due env current_memory args
          then Some (if encodable (profile_update env args)
                     then profile_update env args else [])
          else memory_file w).
Proof.
  unfold profile_fails, profile_events, profile_due, profile_update, when.
  destruct (truthy (dict_get args (lit "memory_update"))); simpl.
  - destruct (str_eqb (as_text env (dict_get args (lit "memory_update")))
                      current_memory); simpl.
    + exists w. repeat split.
    + rewrite write_long_term_run.
      destruct (encodable (as_text env (dict_get args (lit "memory_update"))));
        eexists; (split; [reflexivity | repeat split]).
  - exists w. repeat split.
Qed.

(** Everything lines 149-167 do, in one equation. *)
Lemma apply_save_memory_spec (current_memory : str) (args : list (str * pyval))
  (archive_all : bool) (keep_count : Z) (user_id : option Z)
  (vector_store : option VectorMemoryStore) (w : World) :
  exists w',
    apply_save_memory env current_memory args archive_all keep_count
                      user_id vector_store w
    = (if history_fails env args then Raise UnicodeEncodeError
       else if profile_fails env current_memory args then Raise UnicodeEncodeError
       else if facts_not_iterable user_id vector_store args then Raise TypeError
       else Ret true,
       w',
       applied_events env current_memory user_id vector_store args)
    /\ messages (session w') = messages (session w)
    /\ last_consolidated (session w')
       = (if applies env current_memory user_id vector_store args
          then (if archive_all then 0 else len (messages (session w)) - keep_count)
          else last_consolidated (session w))
    /\ history_file w'
       = (if history_due args
          then Some (history_text w
                     ++ (if encodable (history_entry env args)
                         then block (history_entry env args) else []))
          else history_file w)
    /\ memory_file w'
       = (if history_fails env args then memory_file w
          else if profile_due env current_memory args
          then Some (if encodable (profile_update env args)
                     then profile_update env args else [])
          else memory_file w)
    /\ db w' = db w
    /\ facts_added (match user_id with Some u => u | None => 0 end) w w'
    /\ (history_fails env args = true \/ profile_fails env current_memory args = true
        \/ facts_to_save user_id vector_store args = None
        \/ facts_not_iterable user_id vector_store args = true ->
        tables w' = tables w /\ clock w' = clock w).
Proof.
  unfold apply_save_memory, applies, applied_events.
  destruct (history_step args w) as (w1 & E1 & S1 & M1 & D1 & T1 & C1 & H1).
  destruct (profile_step current_memory args w1)
    as (w2 & E2 & S2 & H2 & D2 & T2 & C2 & M2).
  destruct (save_facts_spec user_id vector_store args w2)
    as (w3 & E & (Hs & Hmf & Hh & Hd) & Hf & Hskip).
  unfold bind at 1. rewrite E1.
  destruct (history_fails env args); simpl.
  { exists w1. rewrite app_nil_r, S1, M1, D1, T1, C1, H1.
    repeat match goal with |- _ /\ _ => split end; auto.
    unfold facts_added. rewrite T1. apply facts_added_refl. }
  unfold bind at 1. rewrite E2.
  destruct (profile_fails env current_memory args); simpl.
  { exists w2. rewrite app_nil_r, S2, S1, H2, H1, M2, M1, D2, D1, T2, T1, C2, C1.
    repeat match goal with |- _ /\ _ => split end; auto.
    unfold facts_added. rewrite T2, T1. apply facts_added_refl. }
  unfold bind at 1. rewrite E.
  assert (Hf' : forall w4, tables w4 = tables w3 ->
                facts_added (match user_id with Some u => u | None => 0 end) w w4).
  { intros w4 E4. unfold facts_added in *. rewrite E4, <- T1, <- T2. exact Hf. }
  assert (Hskip' : facts_to_save user_id vector_store args = None
                   \/ facts_not_iterable user_id vector_store args = true ->
                   tables w3 = tables w /\ clock w3 = clock w).
  { intros H. rewrite (Hskip H). split; congruence. }
  destruct (facts_not_iterable user_id vector_store args); simpl.
  - exists w3. split; [reflexivity|].
    rewrite Hs, S2, S1, Hh, H2, H1, Hmf, M2, M1, Hd, D2, D1.
    repeat match goal with |- _ /\ _ => split end; auto.
  - unfold bind, modify, ret. simpl.
    eexists. split; [now rewrite app_nil_r|]. simpl.
    rewrite Hs, S2, S1, Hh, H2, H1, Hmf, M2, M1, Hd, D2, D1.
    repeat match goal with |- _ /\ _ => split end; auto.
    intros [H|[H|H]]; try discriminate. auto.
Qed.

(* ------------------------------------------------------------------ *)
(** *** The three ways through [consolidate] *)

(** Nothing to archive: success, and nothing happened. *)
Lemma consolidate_noop (provider : LLMProvider) (model : str) (archive_all : bool)
  (memory_window : Z) (user_id : option Z) (vector_store : option VectorMemoryStore)
  (w : World) :
  select_old_messages (session w) archive_all memory_window = None ->
  consolidate env provider model archive_all memory_window user_id vector_store w
  = (Ret true, w, []).
Proof.
  intros H. unfold consolidate, bind, gets. simpl. rewrite H. reflexivity.
Qed.

(** The provider's answer carries no usable mapping: failure, and only
    the request was made. *)
Lemma consolidate_rejected (provider : LLMProvider) (model : str) (archive_all : bool)
  (memory_window : Z) (user_id : option Z) (vector_store : option VectorMemoryStore)
  (w : World) (old_messages : list message) (keep_count : Z) :
  select_old_messages (session w) archive_all memory_window
  = Some (old_messages, keep_count) ->
  tool_arguments env (provider (request_for env w old_messages model)) = None ->
  consolidate env provider model archive_all memory_window user_id vector_store w
  = (Ret false, w, [EvChat (request_for env w old_messages model)]).
Proof.
  intros Hsel Hargs.
  unfold consolidate, bind at 1, gets. simpl. rewrite Hsel.
  unfold bind at 1, read_long_term, gets. simpl.
  fold (request_for env w old_messages model).
  unfold tool_arguments in Hargs.
  unfold try_except, bind at 1, chat, bind at 1, emit. simpl.
  destruct (provider (request_for env w old_messages model)) as [|response]; [reflexivity|].
  simpl. destruct (has_tool_calls response); simpl; [|reflexivity].
  unfold bind at 1, first_item.
  destruct (tool_calls response) as [|call rest]; [reflexivity|]. simpl.
  unfold bind at 1, decoded. unfold parsed_arguments in Hargs.
  destruct (arguments call) as [| | | |s| |d]; try reflexivity; try discriminate.
  destruct (json_loads env s) as [[| | | | | |d]|]; try reflexivity; discriminate.
Qed.

(** The provider's answer carries a mapping: lines 149-167 run, and an
    exception there turns into failure. *)
Lemma consolidate_applied (provider : LLMProvider) (model : str) (archive_all : bool)
  (memory_window : Z) (user_id : option Z) (vector_store : option VectorMemoryStore)
  (w : World) (old_messages : list message) (keep_count : Z)
  (args : list (str * pyval)) :
  select_old_messages (session w) archive_all memory_window
  = Some (old_messages, keep_count) ->
  tool_arguments env (provider (request_for env w old_messages model)) = Some args ->
  consolidate env provider model archive_all memory_window user_id vector_store w
  = match apply_save_memory env (long_term w) args archive_all keep_count
            user_id vector_store w with
    | (Ret b, w', evs) => (Ret b, w', EvChat (request_for env w old_messages model) :: evs)
    | (Raise _, w', evs) =>
        (Ret false, w', EvChat (request_for env w old_messages model) :: evs)
    end.
Proof.
  intros Hsel Hargs.
  unfold consolidate, bind at 1, gets. simpl. rewrite Hsel.
  unfold bind at 1, read_long_term, gets. simpl.
  fold (request_for env w old_messages model).
  unfold tool_arguments in Hargs.
  unfold try_except, bind at 1, chat, bind at 1, emit. simpl.
  destruct (provider (request_for env w old_messages model)) as [|response]; [discriminate|].
  simpl. destruct (has_tool_calls response); simpl; [|discriminate].
  unfold bind at 1, first_item.
  destruct (tool_calls response) as [|call rest]; [discriminate|]. simpl.
  unfold bind at 1, decoded. unfold parsed_arguments in Hargs.
  destruct (arguments call) as [| | | |s| |d]; try discriminate.
  - destruct (json_loads env s) as [[| | | | | |d]|]; try discriminate.
    injection Hargs as ->. simpl.
    destruct (apply_save_memory env (long_term w) args archive_all keep_count
                user_id vector_store w) as [[[b|e] w'] evs]; simpl;
      rewrite ?app_nil_r; reflexivity.
  - injection Hargs as ->. simpl.
    destruct (apply_save_memory env (long_term w) args archive_all keep_count
                user_id vector_store w) as [[[b|e] w'] evs]; simpl;
      rewrite ?app_nil_r; reflexivity.
Qed.

(** The keep count that comes with a selected slice. *)
Lemma select_keep_count (s : Session) (archive_all : bool) (memory_window : Z)
  (old_messages : list message) (keep_count : Z) :
  select_old_messages s archive_all memory_window = Some (old_messages, keep_count) ->
  keep_count = (if archive_all then 0 else memory_window / 2).
Proof.
  unfold select_old_messages. destruct archive_all.
  - intros H. now injection H.
  - repeat break_match; try discriminate. intros H. now injection H.
Qed.

(** The third way, spelled out. *)
Lemma consolidate_applied_spec (provider : LLMProvider) (model : str)
  (archive_all : bool) (memory_window : Z) (user_id : option Z)
  (vector_store : option VectorMemoryStore) (w : World)
  (old_messages : list message) (keep_count : Z) (args : list (str * pyval)) :
  select_old_messages (session w) archive_all memory_window
  = Some (old_messages, keep_count) ->
  tool_arguments env (provider (request_for env w old_messages model)) = Some args ->
  exists w',
    consolidate env provider model archive_all memory_window user_id vector_store w
    = (Ret (applies env (long_term w) user_id vector_store args), w',
       EvChat (request_for env w old_messages model)
       :: applied_events env (long_term w) user_id vector_store args)
    /\ messages (session w') = messages (session w)
    /\ last_consolidated (session w')
       = (if applies env (long_term w) user_id vector_store args
          then (if archive_all then 0
                else len (messages (session w)) - memory_window / 2)
          else last_consolidated (session w))
    /\ history_file w'
       = (if history_due args
          then Some (history_text w
                     ++ (if encodable (history_entry env args)
                         then block (history_entry env args) else []))
          else history_file w)
    /\ memory_file w'
       = (if history_fails env args then memory_file w
          else if profile_due env (long_term w) args
          then Some (if encodable (profile_update env args)
                     then profile_update env args else [])
          else memory_file w)
    /\ db w' = db w
    /\ facts_added (match user_id with Some u => u | None => 0 end) w w'
    /\ (history_fails env args = true \/ profile_fails env (long_term w) args = true
        \/ facts_to_save user_id vector_store args = None
        \/ facts_not_iterable user_id vector_store args = true ->
        tables w' = tables w /\ clock w' = clock w).
Proof.
  intros Hsel Hargs.
  rewrite (consolidate_applied provider model archive_all memory_window user_id
             vector_store w old_messages keep_count args Hsel Hargs).
  destruct (apply_save_memory_spec (long_term w) args archive_all keep_count
              user_id vector_store w)
    as (w' & -> & Hm & Hc & Hh & Hmf & Hd & Hf & Hskip).
  exists w'. split.
  - unfold applies.
    destruct (history_fails env args), (profile_fails env (long_term w) args),
             (facts_not_iterable user_id vector_store args); reflexivity.
  - rewrite Hc. apply select_keep_count in Hsel.
    destruct archive_all; subst keep_count;
      repeat match goal with |- _ /\ _ => split end; auto.
Qed.

Lemma not_chat_in_forwarded (u : Z) (items : list pyval) (e : event) :
  In e (forwarded u items) -> exists s, e = EvAddMemory u s /\ In (PStr s) items
                                        /\ nonblank s = true.
Proof.
  unfold forwarded. intros H. apply in_flat_map in H as (fact & Hin & He).
  destruct fact; try contradiction.
  destruct (nonblank s) eqn:Hs; [|contradiction].
  destruct He as [<-|[]]. eauto.
Qed.

(** The events of a call, sorted by kind. *)
Lemma history_events_kind (args : list (str * pyval)) (e : event) :
  In e (history_events env args) ->
  e = EvAppendHistory (as_text env (dict_get args (lit "history_entry")))
  /\ truthy (dict_get args (lit "history_entry")) = true
  /\ encodable (as_text env (dict_get args (lit "history_entry"))) = true.
Proof.
  unfold history_events, history_due, history_entry.
  rewrite encodable_block.
  destruct (truthy (dict_get args (lit "history_entry"))); [|contradiction].
  destruct (encodable _); [|contradiction].
  intros [<-|[]]. auto.
Qed.

Lemma profile_events_kind (current : str) (args : list (str * pyval)) (e : event) :
  In e (profile_events env current args) ->
  e = EvWriteLongTerm (as_text env (dict_get args (lit "memory_update")))
  /\ truthy (dict_get args (lit "memory_update")) = true
  /\ as_text env (dict_get args (lit "memory_update")) <> current
  /\ encodable (as_text env (dict_get args (lit "memory_update"))) = true.
Proof.
  unfold profile_events, profile_due, profile_update.
  destruct (truthy (dict_get args (lit "memory_update"))); [|contradiction].
  destruct (str_eqb _ current) eqn:E; [contradiction|]. simpl.
  destruct (encodable _); [|contradiction].
  intros [<-|[]]. apply str_eqb_neq in E. auto.
Qed.

(** The events of lines 149-163, stage by stage. *)
Lemma applied_events_kind (current : str) (user_id : option Z)
  (vector_store : option VectorMemoryStore) (args : list (str * pyval)) (e : event) :
  In e (applied_events env current user_id vector_store args) ->
  In e (history_events env args)
  \/ (history_fails env args = false /\ In e (profile_events env current args))
  \/ (history_fails env args = false /\ profile_fails env current args = false
      /\ In e (fact_events user_id vector_store args)).
Proof.
  unfold applied_events. intros H.
  apply in_app_or in H as [H|H]; [auto|].
  destruct (history_fails env args); [contradiction|].
  apply in_app_or in H as [H|H]; [auto|].
  destruct (profile_fails env current args); [contradiction|]. auto.
Qed.

(** Without a failing write the events are those of the three steps. *)
Lemma applied_events_plain (current : str) (user_id : option Z)
  (vector_store : option VectorMemoryStore) (args : list (str * pyval)) :
  history_fails env args = false -> profile_fails env current args = false ->
  applied_events env current user_id vector_store args
  = history_events env args ++ profile_events env current args
    ++ fact_events user_id vector_store args.
Proof. unfold applied_events. now intros -> ->. Qed.

Lemma fact_events_kind (user_id : option Z) (vector_store : option VectorMemoryStore)
  (args : list (str * pyval)) (e : event) :
  In e (fact_events user_id vector_store args) ->
  exists u s, e = EvAddMemory u s /\ user_id = Some u /\ u <> 0
              /\ vector_store <> None /\ nonblank s = true.
Proof.
  unfold fact_events, facts_to_save.
  destruct user_id as [u|]; [|contradiction].
  destruct vector_store as [store|]; [|contradiction].
  destruct (truthy_id (Some u) && truthy (dict_get args (lit "facts")))%bool eqn:E;
    [|contradiction].
  apply andb_true_iff in E as [Hu _]. simpl in Hu.
  destruct (py_iter (dict_get args (lit "facts"))) as [items|]; [|contradiction].
  intros H. apply not_chat_in_forwarded in H as (s & -> & _ & Hs).
  exists u, s. repeat split; auto; try discriminate.
  intros ->. discriminate.
Qed.

(* ------------------------------------------------------------------ *)
(** *** The cursor *)

(** C2. A call that returns true after a round trip to the provider
    leaves the cursor at 0 when [archive_all] is set and at
    [len(messages) - memory_window // 2] otherwise; every other call
    leaves the cursor where it was.  The messages are never touched. *)
Theorem consolidate_cursor (provider : LLMProvider) (model : str) (archive_all : bool)
  (memory_window : Z) (user_id : option Z) (vector_store : option VectorMemoryStore)
  (w w' : World) (r : outcome bool) (evs : list event) :
  consolidate env provider model archive_all memory_window user_id vector_store w
  = (r, w', evs) ->
  messages (session w') = messages (session w)
  /\ (r = Ret true /\ (exists request, In (EvChat request) evs) ->
      last_consolidated (session w')
      = if archive_all then 0 else len (messages (session w)) - memory_window / 2)
  /\ (~ (r = Ret true /\ exists request, In (EvChat request) evs) ->
      last_consolidated (session w') = last_consolidated (session w)).
Proof.
  intros Hrun.
  destruct (select_old_messages (session w) archive_all memory_window)
    as [[old_messages keep_count]|] eqn:Hsel.
  - destruct (tool_arguments env (provider (request_for env w old_messages model)))
      as [args|] eqn:Hargs.
    + destruct (consolidate_applied_spec provider model archive_all memory_window
                  user_id vector_store w old_messages keep_count args Hsel Hargs)
        as (w1 & E & Hm & Hc & _).
      rewrite E in Hrun. injection Hrun as <- <- <-.
      split; [assumption|].
      destruct (applies env (long_term w) user_id vector_store args); simpl.
      * split; [auto|]. intros H. exfalso. apply H. split; [reflexivity|].
        eexists. left. reflexivity.
      * split; [intros [H _]; discriminate | auto].
    + rewrite (consolidate_rejected provider model archive_all memory_window user_id
                 vector_store w old_messages keep_count Hsel Hargs) in Hrun.
      injection Hrun as <- <- <-.
      split; [reflexivity|]. split; [intros [H _]; discriminate | auto].
  - rewrite (consolidate_noop provider model archive_all memory_window user_id
               vector_store w Hsel) in Hrun.
    injection Hrun as <- <- <-.
    split; [reflexivity|]. split; [intros [_ [? []]] | auto].
Qed.

(* ------------------------------------------------------------------ *)
(** *** Answers that are turned down *)

(** C3. When the provider's answer has no tool call, or the arguments of
    its tool call are a string that [json.loads] rejects or decodes to
    something that is not a mapping, [consolidate] returns false and the
    world is the one it started from: HISTORY.md, MEMORY.md, the tables
    and the cursor are untouched, and the request is all that happened. *)
Theorem consolidate_rejects_bad_answer (provider : LLMProvider) (model : str)
  (archive_all : bool) (memory_window : Z) (user_id : option Z)
  (vector_store : option VectorMemoryStore) (w : World)
  (old_messages : list message) (keep_count : Z) (response : LLMResponse) :
  select_old_messages (session w) archive_all memory_window
  = Some (old_messages, keep_count) ->
  provider (request_for env w old_messages model) = ChatReturns response ->
  has_tool_calls response = false
  \/ (exists call rest s,
        tool_calls response = call :: rest /\ arguments call = PStr s
        /\ (json_loads env s = None
            \/ exists v, json_loads env s = Some v /\ is_dict v = false)) ->
  consolidate env provider model archive_all memory_window user_id vector_store w
  = (Ret false, w, [EvChat (request_for env w old_messages model)]).
Proof.
  intros Hsel Hreply Hbad.
  apply consolidate_rejected with (keep_count := keep_count); [assumption|].
  rewrite Hreply. simpl.
  destruct Hbad as [-> | (call & rest & s & -> & Hs & Hloads)]; [reflexivity|].
  destruct (has_tool_calls response); [|reflexivity].
  unfold parsed_arguments. rewrite Hs.
  destruct Hloads as [-> | (v & -> & Hv)]; [reflexivity|].
  destruct v; try reflexivity. discriminate.
Qed.

(* ------------------------------------------------------------------ *)
(** *** The slice that is archived *)

Lemma py_slice_nonempty {A : Type} (l : list A) (start stop : Z) :
  py_slice l start stop <> [] ->
  slice_bound (len l) start < slice_bound (len l) stop.
Proof.
  unfold py_slice. intros H.
  destruct (Z_lt_le_dec (slice_bound (len l) start) (slice_bound (len l) stop))
    as [Hlt|Hle]; [assumption|].
  exfalso. apply H.
  replace (Z.to_nat (slice_bound (len l) stop - slice_bound (len l) start)) with 0%nat
    by lia.
  reflexivity.
Qed.

(** Without [archive_all], short sessions and sessions whose cursor is at
    the end are left alone. *)
Lemma select_nothing_to_do (s : Session) (memory_window : Z) :
  len (messages s) <= memory_window / 2 \/ len (messages s) - last_consolidated s <= 0 ->
  select_old_messages s false memory_window = None.
Proof.
  unfold select_old_messages. intros H.
  destruct (len (messages s) <=? memory_window / 2) eqn:E1; [reflexivity|].
  destruct (len (messages s) - last_consolidated s <=? 0) eqn:E2; [reflexivity|].
  apply Z.leb_gt in E1. apply Z.leb_gt in E2. lia.
Qed.

(** With a positive keep count the slice taken is
    [messages[last_consolidated : len(messages) - keep_count]]. *)
Lemma select_slice (s : Session) (memory_window : Z) :
  0 < memory_window / 2 ->
  memory_window / 2 < len (messages s) ->
  0 < len (messages s) - last_consolidated s ->
  select_old_messages s false memory_window
  = match py_slice (messages s) (last_consolidated s)
            (len (messages s) - memory_window / 2) with
    | [] => None
    | old_messages => Some (old_messages, memory_window / 2)
    end.
Proof.
  intros Hk Hn Hc. unfold select_old_messages.
  destruct (len (messages s) <=? memory_window / 2) eqn:E1;
    [apply Z.leb_le in E1; lia|].
  destruct (len (messages s) - last_consolidated s <=? 0) eqn:E2;
    [apply Z.leb_le in E2; lia|].
  replace (py_slice (messages s) (last_consolidated s) (- (memory_window / 2)))
    with (py_slice (messages s) (last_consolidated s)
            (len (messages s) - memory_window / 2)); [reflexivity|].
  unfold py_slice. f_equal. f_equal. f_equal.
  unfold slice_bound.
  destruct (len (messages s) - memory_window / 2 <? 0) eqn:E3;
    [apply Z.ltb_lt in E3; lia|].
  destruct (- (memory_window / 2) <? 0) eqn:E4;
    [|apply Z.ltb_ge in E4; lia].
  lia.
Qed.

(** With a keep count of 0 the slice [messages[cursor:-0]] is empty:
    nothing is ever selected. *)
Lemma select_keep_zero (s : Session) (memory_window : Z) :
  memory_window / 2 = 0 ->
  select_old_messages s false memory_window = None.
Proof.
  intros Hk. unfold select_old_messages. rewrite Hk.
  destruct (len (messages s) <=? 0); [reflexivity|].
  destruct (len (messages s) - last_consolidated s <=? 0); [reflexivity|].
  replace (py_slice (messages s) (last_consolidated s) (- 0)) with (@nil message);
    [reflexivity|].
  unfold py_slice. simpl (- 0).
  assert (H : slice_bound (len (messages s)) 0 = 0).
  { unfold slice_bound, len. simpl. lia. }
  rewrite H.
  assert (H' : 0 <= slice_bound (len (messages s)) (last_consolidated s)).
  { unfold slice_bound, len. destruct (last_consolidated s <? 0) eqn:E; [lia|].
    apply Z.ltb_ge in E. lia. }
  replace (Z.to_nat (0 - slice_bound (len (messages s)) (last_consolidated s)))
    with 0%nat by lia.
  reflexivity.
Qed.

(** A selected slice ends beyond the cursor. *)
Lemma select_advances (s : Session) (memory_window : Z)
  (old_messages : list message) (keep_count : Z) :
  select_old_messages s false memory_window = Some (old_messages, keep_count) ->
  memory_window / 2 < len (messages s)
  /\ last_consolidated s < len (messages s) - memory_window / 2.
Proof.
  unfold select_old_messages.
  destruct (len (messages s) <=? memory_window / 2) eqn:E1; [discriminate|].
  destruct (len (messages s) - last_consolidated s <=? 0) eqn:E2; [discriminate|].
  apply Z.leb_gt in E1. apply Z.leb_gt in E2.
  destruct (py_slice (messages s) (last_consolidated s) (- (memory_window / 2)))
    as [|m rest] eqn:E3; [discriminate|].
  intros _. split; [lia|].
  assert (H : py_slice (messages s) (last_consolidated s) (- (memory_window / 2)) <> [])
    by (rewrite E3; discriminate).
  apply py_slice_nonempty in H. revert H. unfold slice_bound.
  destruct (last_consolidated s <? 0) eqn:E4;
    destruct (- (memory_window / 2) <? 0) eqn:E5;
    try apply Z.ltb_lt in E4; try apply Z.ltb_ge in E4;
    try apply Z.ltb_lt in E5; try apply Z.ltb_ge in E5; lia.
Qed.

(** C5 (amended). For a window that is not negative, [consolidate] keeps
    the cursor within [0 .. len(messages)].  Whatever the window and the
    cursor: a call without [archive_all] never moves the cursor back; a
    successful call with [archive_all] puts it at 0; a call that returns
    false, or returns true without a round trip, leaves it where it
    was. *)
Theorem consolidate_cursor_bounds (provider : LLMProvider) (model : str)
  (archive_all : bool) (memory_window : Z) (user_id : option Z)
  (vector_store : option VectorMemoryStore) (w w' : World) (r : outcome bool)
  (evs : list event) :
  consolidate env provider model archive_all memory_window user_id vector_store w
  = (r, w', evs) ->
  (0 <= memory_window ->
   0 <= last_consolidated (session w) <= len (messages (session w)) ->
   0 <= last_consolidated (session w') <= len (messages (session w')))
  /\ (archive_all = false ->
      last_consolidated (session w) <= last_consolidated (session w'))
  /\ (archive_all = true -> r = Ret true ->
      last_consolidated (session w') = 0)
  /\ (r = Ret false \/ evs = [] ->
      last_consolidated (session w') = last_consolidated (session w)).
Proof.
  intros Hrun.
  destruct (select_old_messages (session w) archive_all memory_window)
    as [[old_messages keep_count]|] eqn:Hsel.
  - destruct (tool_arguments env (provider (request_for env w old_messages model)))
      as [args|] eqn:Hargs.
    + destruct (consolidate_applied_spec provider model archive_all memory_window
                  user_id vector_store w old_messages keep_count args Hsel Hargs)
        as (w1 & E & Hm & Hc & _).
      rewrite E in Hrun. injection Hrun as <- <- <-. rewrite Hc, Hm.
      destruct (applies env (long_term w) user_id vector_store args); simpl.
      * destruct archive_all.
        -- split; [lia|]. split; [discriminate|]. split; [reflexivity|].
           intros [H|H]; discriminate.
        -- apply select_advances in Hsel as (Hk & Hadv).
           split.
           { intros Hwin Hinv.
             assert (Hpos : 0 <= memory_window / 2) by (apply Z.div_pos; lia).
             lia. }
           split; [lia|]. split; [discriminate|].
           intros [H|H]; discriminate.
      * split; [auto|]. split; [lia|]. split; [discriminate|]. reflexivity.
    + rewrite (consolidate_rejected provider model archive_all memory_window user_id
                 vector_store w old_messages keep_count Hsel Hargs) in Hrun.
      injection Hrun as <- <- <-.
      split; [auto|]. split; [lia|]. split; [discriminate|]. reflexivity.
  - rewrite (consolidate_noop provider model archive_all memory_window user_id
               vector_store w Hsel) in Hrun.
    injection Hrun as <- <- <-.
    split; [auto|]. split; [lia|]. split; [|reflexivity].
    intros ->. discriminate Hsel.
Qed.

(* ------------------------------------------------------------------ *)
(** *** What is written *)

(** When the writes of lines 152 and 157 go through. *)
Lemma history_fails_false (args : list (str * pyval)) :
  history_fails env args = false
  <-> truthy (dict_get args (lit "history_entry")) = false
      \/ encodable (as_text env (dict_get args (lit "history_entry"))) = true.
Proof.
  unfold history_fails, history_due, history_entry. rewrite encodable_block.
  destruct (truthy (dict_get args (lit "history_entry"))),
           (encodable (as_text env (dict_get args (lit "history_entry"))));
    simpl; settle_iff.
Qed.

Lemma profile_due_true (current : str) (args : list (str * pyval)) :
  profile_due env current args = true
  <-> truthy (dict_get args (lit "memory_update")) = true
      /\ as_text env (dict_get args (lit "memory_update")) <> current.
Proof.
  unfold profile_due. now rewrite andb_true_iff, negb_true_iff, str_eqb_neq.
Qed.

Lemma profile_fails_false (current : str) (args : list (str * pyval)) :
  profile_fails env current args = false
  <-> truthy (dict_get args (lit "memory_update")) = false
      \/ as_text env (dict_get args (lit "memory_update")) = current
      \/ encodable (as_text env (dict_get args (lit "memory_update"))) = true.
Proof.
  unfold profile_fails, profile_due, profile_update.
  destruct (truthy (dict_get args (lit "memory_update"))),
           (str_eqb (as_text env (dict_get args (lit "memory_update"))) current) eqn:E,
           (encodable (as_text env (dict_get args (lit "memory_update"))));
    simpl; first [apply str_eqb_eq in E | apply str_eqb_neq in E];
    settle_iff.
Qed.

(** The events of lines 149-163, by kind. *)
Lemma applied_appends (current : str) (user_id : option Z)
  (vector_store : option VectorMemoryStore) (args : list (str * pyval)) (text : str) :
  In (EvAppendHistory text) (applied_events env current user_id vector_store args) ->
  text = as_text env (dict_get args (lit "history_entry"))
  /\ truthy (dict_get args (lit "history_entry")) = true
  /\ encodable (as_text env (dict_get args (lit "history_entry"))) = true.
Proof.
  intros H. apply applied_events_kind in H as [H|[[_ H]|(_ & _ & H)]].
  - apply history_events_kind in H as (H & Ht & He). injection H as ->. auto.
  - apply profile_events_kind in H as [H _]. discriminate.
  - apply fact_events_kind in H as (u & s0 & H & _). discriminate.
Qed.

Lemma applied_writes (current : str) (user_id : option Z)
  (vector_store : option VectorMemoryStore) (args : list (str * pyval)) (text : str) :
  In (EvWriteLongTerm text) (applied_events env current user_id vector_store args) ->
  history_fails env args = false
  /\ text = as_text env (dict_get args (lit "memory_update"))
  /\ truthy (dict_get args (lit "memory_update")) = true
  /\ as_text env (dict_get args (lit "memory_update")) <> current
  /\ encodable (as_text env (dict_get args (lit "memory_update"))) = true.
Proof.
  intros H. apply applied_events_kind in H as [H|[[Hh H]|(_ & _ & H)]].
  - apply history_events_kind in H as [H _]. discriminate.
  - apply profile_events_kind in H as (H & Ht & Hn & He). injection H as ->. auto.
  - apply fact_events_kind in H as (u & s0 & H & _). discriminate.
Qed.

Lemma applied_adds (current : str) (user_id : option Z)
  (vector_store : option VectorMemoryStore) (args : list (str * pyval))
  (u : Z) (text : str) :
  In (EvAddMemory u text) (applied_events env current user_id vector_store args) ->
  history_fails env args = false /\ profile_fails env current args = false
  /\ In (EvAddMemory u text) (fact_events user_id vector_store args).
Proof.
  intros H. apply applied_events_kind in H as [H|[[_ H]|(Hh & Hp & H)]].
  - apply history_events_kind in H as [H _]. discriminate.
  - apply profile_events_kind in H as [H _]. discriminate.
  - auto.
Qed.

(** The write of line 157, when it is reached and goes through. *)
Lemma applied_write_happens (current : str) (user_id : option Z)
  (vector_store : option VectorMemoryStore) (args : list (str * pyval)) :
  history_fails env args = false ->
  truthy (dict_get args (lit "memory_update")) = true ->
  as_text env (dict_get args (lit "memory_update")) <> current ->
  encodable (as_text env (dict_get args (lit "memory_update"))) = true ->
  In (EvWriteLongTerm (as_text env (dict_get args (lit "memory_update"))))
     (applied_events env current user_id vector_store args).
Proof.
  intros Hh Ht Hn He. unfold applied_events. rewrite Hh.
  apply in_or_app. right. apply in_or_app. left.
  unfold profile_events, profile_due, profile_update.
  apply str_eqb_neq in Hn. rewrite Ht, Hn, He. now left.
Qed.

(** The append of line 152, when it is reached and goes through. *)
Lemma applied_append_happens (current : str) (user_id : option Z)
  (vector_store : option VectorMemoryStore) (args : list (str * pyval)) :
  truthy (dict_get args (lit "history_entry")) = true ->
  encodable (as_text env (dict_get args (lit "history_entry"))) = true ->
  In (EvAppendHistory (as_text env (dict_get args (lit "history_entry"))))
     (applied_events env current user_id vector_store args).
Proof.
  intros Ht He. unfold applied_events. apply in_or_app. left.
  unfold history_events, history_due, history_entry.
  rewrite encodable_block, Ht, He. now left.
Qed.

(** C4 (amended). With a mapping accepted from the provider, MEMORY.md is
    written with the update if and only if the append of line 152 did
    not raise ([history_entry] is falsy or its text can be encoded),
    [memory_update] is truthy, its text (dumped when it is not a string)
    differs from the text read at the start of the call, and that text
    can be encoded; the file then holds that text.  When the append
    raised, or the update is falsy or equal to the text read, the file
    stays as it was.  When the update is due and cannot be encoded, the
    file is left empty and the call returns false. *)
Theorem profile_written_iff (provider : LLMProvider) (model : str)
  (archive_all : bool) (memory_window : Z) (user_id : option Z)
  (vector_store : option VectorMemoryStore) (w w' : World)
  (old_messages : list message) (keep_count : Z) (args : list (str * pyval))
  (r : outcome bool) (evs : list event) :
  select_old_messages (session w) archive_all memory_window
  = Some (old_messages, keep_count) ->
  tool_arguments env (provider (request_for env w old_messages model)) = Some args ->
  consolidate env provider model archive_all memory_window user_id vector_store w
  = (r, w', evs) ->
  let entry := dict_get args (lit "history_entry") in
  let update := dict_get args (lit "memory_update") in
  let reached := truthy entry = false \/ encodable (as_text env entry) = true in
  ((exists text, In (EvWriteLongTerm text) evs)
   <-> reached /\ truthy update = true /\ as_text env update <> long_term w
       /\ encodable (as_text env update) = true)
  /\ (forall text, In (EvWriteLongTerm text) evs ->
        text = as_text env update /\ memory_file w' = Some text)
  /\ (~ reached \/ truthy update = false \/ as_text env update = long_term w ->
        memory_file w' = memory_file w)
  /\ (reached -> truthy update = true -> as_text env update <> long_term w ->
      encodable (as_text env update) = false ->
      memory_file w' = Some [] /\ r = Ret false).
Proof.
  intros Hsel Hargs Hrun entry update reached.
  destruct (consolidate_applied_spec provider model archive_all memory_window
              user_id vector_store w old_messages keep_count args Hsel Hargs)
    as (w1 & E & _ & _ & _ & Hmf & _).
  rewrite E in Hrun. injection Hrun as <- <- <-.
  pose proof (history_fails_false args) as Hreached.
  fold entry in Hreached. fold reached in Hreached.
  pose proof (profile_due_true (long_term w) args) as Hdue. fold update in Hdue.
  unfold profile_update in Hmf. fold update in Hmf.
  split; [|split; [|split]].
  - split.
    + intros (text & [H|H]); [discriminate|].
      apply applied_writes in H as (Hh & _ & Ht & Hn & He).
      split; [now apply Hreached | auto].
    + intros (Hr & Ht & Hn & He). exists (as_text env update). right.
      apply applied_write_happens; auto. now apply Hreached.
  - intros text [H|H]; [discriminate|].
    apply applied_writes in H as (Hh & -> & Ht & Hn & He).
    fold update in He. split; [reflexivity|].
    rewrite Hmf, Hh. replace (profile_due env (long_term w) args) with true.
    + now rewrite He.
    + symmetry. apply Hdue. auto.
  - intros Hnot. rewrite Hmf.
    destruct (history_fails env args) eqn:Hh; [reflexivity|].
    destruct (profile_due env (long_term w) args) eqn:Hd; [|reflexivity].
    destruct Hdue as [Hdue _]. destruct (Hdue eq_refl) as [Ht Hn].
    destruct Hnot as [Hnot|[Hnot|Hnot]]; try congruence.
    exfalso. apply Hnot. now apply Hreached.
  - intros Hr Ht Hn He. apply Hreached in Hr.
    assert (Hd : profile_due env (long_term w) args = true) by (apply Hdue; auto).
    rewrite Hmf, Hr, Hd, He. split; [reflexivity|].
    unfold applies, profile_fails, profile_update. fold update.
    now rewrite Hr, Hd, He.
Qed.

Lemma as_text_not_str (v : pyval) : is_str v = false -> as_text env v = json_dumps env v.
Proof. destruct v; simpl; congruence. Qed.

(** C6 (amended). With a mapping accepted from the provider, a
    [history_entry] that is not a string and is truthy is dumped with
    [json.dumps]; when the dumped text can be encoded it is appended to
    HISTORY.md, and when it cannot (it holds a surrogate) the append
    raises, nothing is appended and the call returns false.  An entry
    that is falsy ([None], [False], [0], [0.0], an empty list or mapping)
    is not appended. *)
Theorem history_entry_dumped_when_truthy (provider : LLMProvider) (model : str)
  (archive_all : bool) (memory_window : Z) (user_id : option Z)
  (vector_store : option VectorMemoryStore) (w w' : World)
  (old_messages : list message) (keep_count : Z) (args : list (str * pyval))
  (r : outcome bool) (evs : list event) :
  select_old_messages (session w) archive_all memory_window
  = Some (old_messages, keep_count) ->
  tool_arguments env (provider (request_for env w old_messages model)) = Some args ->
  consolidate env provider model archive_all memory_window user_id vector_store w
  = (r, w', evs) ->
  let entry := dict_get args (lit "history_entry") in
  is_str entry = false ->
  (truthy entry = true -> encodable (json_dumps env entry) = true ->
   In (EvAppendHistory (json_dumps env entry)) evs
   /\ history_file w'
      = Some (history_text w ++ rstrip (json_dumps env entry) ++ [LF; LF]))
  /\ (truthy entry = true -> encodable (json_dumps env entry) = false ->
      (forall text, ~ In (EvAppendHistory text) evs)
      /\ history_file w' = Some (history_text w)
      /\ r = Ret false)
  /\ (truthy entry = false ->
      (forall text, ~ In (EvAppendHistory text) evs)
      /\ history_file w' = history_file w).
Proof.
  intros Hsel Hargs Hrun entry Hstr.
  destruct (consolidate_applied_spec provider model archive_all memory_window
              user_id vector_store w old_messages keep_count args Hsel Hargs)
    as (w1 & E & _ & _ & Hh & _).
  rewrite E in Hrun. injection Hrun as <- <- <-.
  unfold history_due, history_entry, block in Hh.
  fold entry in Hh. rewrite (as_text_not_str entry Hstr) in Hh.
  assert (Hno : forall text,
             In (EvAppendHistory text)
                (EvChat (request_for env w old_messages model)
                 :: applied_events env (long_term w) user_id vector_store args) ->
             truthy entry = true /\ encodable (json_dumps env entry) = true).
  { intros text [H|H]; [discriminate|].
    apply applied_appends in H as (_ & Ht & He). fold entry in Ht, He.
    rewrite (as_text_not_str entry Hstr) in He. auto. }
  split; [|split].
  - intros Ht He. rewrite Ht, He in Hh. split; [|exact Hh].
    right. rewrite <- (as_text_not_str entry Hstr).
    apply applied_append_happens; [exact Ht|].
    fold entry. now rewrite (as_text_not_str entry Hstr).
  - intros Ht He. rewrite Ht, He, app_nil_r in Hh.
    split; [|split; [exact Hh|]].
    + intros text H. apply Hno in H as [_ H]. congruence.
    + unfold applies, history_fails, history_due, history_entry. fold entry.
      now rewrite encodable_block, (as_text_not_str entry Hstr), Ht, He.
  - intros Ht. rewrite Ht in Hh. split; [|exact Hh].
    intros text H. apply Hno in H as [H _]. congruence.
Qed.

(** C7 (amended). With a mapping accepted from the provider whose
    [facts] is a list.  When neither write before line 160 raised: the
    call returns true, and with a user id other than 0 and a vector
    store, [add_memory] is called once for each fact that is a string and
    not blank, in order, with that user id.  When one of the writes
    raised, the call returns false, [add_memory] is not called and the
    tables stay as they were.  When the user id is missing or 0, or no
    vector store is given, [add_memory] is not called and the tables
    stay as they were.  Every call of [add_memory] is for the given user
    and a fact of the list that is not blank.  A fact whose embedding
    fails makes [add_memory] return without a new row and without an
    exception. *)
Theorem facts_forwarded (provider : LLMProvider) (model : str)
  (archive_all : bool) (memory_window : Z) (user_id : option Z)
  (vector_store : option VectorMemoryStore) (w w' : World)
  (old_messages : list message) (keep_count : Z) (args : list (str * pyval))
  (items : list pyval) (r : outcome bool) (evs : list event) :
  select_old_messages (session w) archive_all memory_window
  = Some (old_messages, keep_count) ->
  tool_arguments env (provider (request_for env w old_messages model)) = Some args ->
  dict_get args (lit "facts") = PList items ->
  consolidate env provider model archive_all memory_window user_id vector_store w
  = (r, w', evs) ->
  (history_fails env args = false -> profile_fails env (long_term w) args = false ->
   r = Ret true
   /\ forall u store,
        user_id = Some u -> u <> 0 -> vector_store = Some store ->
        evs = EvChat (request_for env w old_messages model)
              :: history_events env args ++ profile_events env (long_term w) args
                 ++ forwarded u items)
  /\ (history_fails env args = true \/ profile_fails env (long_term w) args = true ->
      r = Ret false
      /\ (forall u text, ~ In (EvAddMemory u text) evs) /\ tables w' = tables w)
  /\ (user_id = None \/ user_id = Some 0 \/ vector_store = None ->
        (forall u text, ~ In (EvAddMemory u text) evs) /\ tables w' = tables w)
  /\ (forall u text, In (EvAddMemory u text) evs ->
        user_id = Some u /\ vector_store <> None
        /\ In (PStr text) items /\ strip text <> [])
  /\ (forall store u text w0 w1 e,
        get_embeddings env store text w0 = (Ret e, w1, []) ->
        e = None \/ e = Some [] ->
        exists w2,
          add_memory env store u text w0 = (Ret tt, w2, [EvAddMemory u text])
          /\ tables w2 = tables w0).
Proof.
  intros Hsel Hargs Hfacts Hrun.
  destruct (consolidate_applied_spec provider model archive_all memory_window
              user_id vector_store w old_messages keep_count args Hsel Hargs)
    as (w1 & E & _ & _ & _ & _ & _ & _ & Hskip).
  rewrite E in Hrun. injection Hrun as <- <- <-.
  assert (Hiter : facts_not_iterable user_id vector_store args = false).
  { unfold facts_not_iterable, facts_to_save. rewrite Hfacts.
    destruct user_id, vector_store; try reflexivity.
    destruct (truthy_id (Some z) && truthy (PList items))%bool; reflexivity. }
  assert (Hadd : forall u text,
             In (EvAddMemory u text)
                (EvChat (request_for env w old_messages model)
                 :: applied_events env (long_term w) user_id vector_store args) ->
             history_fails env args = false
             /\ profile_fails env (long_term w) args = false
             /\ In (EvAddMemory u text) (fact_events user_id vector_store args)).
  { intros u text [H|H]; [discriminate|]. now apply applied_adds in H. }
  split; [|split; [|split; [|split]]].
  - intros Hh Hp. unfold applies. rewrite Hh, Hp, Hiter. split; [reflexivity|].
    intros u store -> Hu ->. rewrite (applied_events_plain _ _ _ _ Hh Hp).
    do 3 f_equal.
    unfold fact_events, facts_to_save. rewrite Hfacts. simpl.
    destruct (u =? 0) eqn:E0; [apply Z.eqb_eq in E0; contradiction|]. simpl.
    destruct items; reflexivity.
  - intros Hfail. split; [|split].
    + unfold applies.
      destruct Hfail as [-> | ->]; [reflexivity|].
      now rewrite andb_false_r.
    + intros u text H. apply Hadd in H as (Hh & Hp & _).
      destruct Hfail; congruence.
    + apply Hskip. tauto.
  - intros Hmissing. split.
    + intros u text H. apply Hadd in H as (_ & _ & H).
      apply fact_events_kind in H as (u' & s0 & _ & Hu & Hnz & Hvs & _).
      destruct Hmissing as [-> | [-> | ->]]; try discriminate; try contradiction.
      injection Hu as <-. contradiction.
    + apply Hskip. right. right. left. unfold facts_to_save.
      destruct Hmissing as [-> | [-> | ->]]; try reflexivity.
      destruct vector_store; reflexivity.
      destruct user_id; reflexivity.
  - intros u text H. apply Hadd in H as (_ & _ & H).
    pose proof (fact_events_kind _ _ _ _ H) as (u' & s0 & He & Hu & _ & Hvs & _).
    injection He as <- <-.
    split; [assumption|]. split; [assumption|].
    unfold fact_events, facts_to_save in H. rewrite Hu in H.
    destruct vector_store; [|contradiction]. rewrite Hfacts in H.
    destruct (truthy_id (Some u) && truthy (PList items))%bool; [|contradiction].
    simpl in H. apply not_chat_in_forwarded in H as (s1 & He & Hin & Hnb).
    injection He as <-. split; [assumption|].
    unfold nonblank in Hnb. destruct (strip text); [discriminate|discriminate].
  - intros store u text w0 w2 e. apply add_memory_without_embedding.
Qed.

(* ------------------------------------------------------------------ *)
(** *** Search *)

Lemma insert_by_In {A : Type} (le : A -> A -> bool) (x y : A) (l : list A) :
  In y (insert_by le x l) <-> y = x \/ In y l.
Proof.
  induction l as [|z l IH]; simpl.
  - intuition auto.
  - destruct (le z x); simpl; rewrite ?IH; intuition auto.
Qed.

Lemma order_by_In {A : Type} (le : A -> A -> bool) (y : A) (l : list A) :
  In y (order_by le l) <-> In y l.
Proof.
  induction l as [|x l IH]; simpl; [tauto|].
  rewrite insert_by_In, IH. intuition auto.
Qed.

Lemma order_by_length {A : Type} (le : A -> A -> bool) (l : list A) :
  List.length (order_by le l) = List.length l.
Proof.
  induction l as [|x l IH]; simpl; [reflexivity|].
  rewrite <- IH. generalize (order_by le l). clear.
  intros l. induction l as [|z l IH]; simpl; [reflexivity|].
  destruct (le z x); simpl; congruence.
Qed.



Section Ordering.

Context {A : Type} (le : A -> A -> bool).
Hypothesis le_total : forall a b, le a b = true \/ le b a = true.
Hypothesis le_trans : forall a b c, le a b = true -> le b c = true -> le a c = true.



End Ordering.



(* ------------------------------------------------------------------ *)
(** *** Identities *)







Lemma faulty_at (t n k : nat) :
  (k < n)%nat -> storage_fault env (k + t) = true -> faulty env t n.
Proof. intros Hk Hf. exists k. split; [assumption|]. now rewrite Nat.add_comm. Qed.

Lemma quiet_2 (t : nat) :
  storage_fault env t = false -> storage_fault env (S t) = false -> quiet env t 2.
Proof.
  intros F0 F1 k Hk. destruct k as [|[|k]]; [| |lia].
  - now rewrite Nat.add_0_r.
  - now rewrite Nat.add_1_r.
Qed.

Lemma quiet_6 (t : nat) :
  storage_fault env t = false -> storage_fault env (1 + t) = false ->
  storage_fault env (2 + t) = false -> storage_fault env (3 + t) = false ->
  storage_fault env (4 + t) = false -> storage_fault env (5 + t) = false ->
  quiet env t 6.
Proof.
  intros F0 F1 F2 F3 F4 F5 k Hk. rewrite Nat.add_comm.
  destruct k as [|[|[|[|[|[|k]]]]]]; try assumption. lia.
Qed.

(** The three outcomes of [get_user_id]: nothing resolved and no row
    created; an existing identity returned; a user and its identity
    created together. *)
Lemma get_user_id_cases (channel sender_id : str) (w : World) :
  exists (r : option Z) (w' : World),
    get_user_id env channel sender_id w = (Ret r, w', [])
    /\ same_memory w w'
    /\ vector_memories (tables w') = vector_memories (tables w)
    /\ ((r = None
         /\ users (tables w') = users (tables w)
         /\ user_identities (tables w') = user_identities (tables w)
         /\ (((_pool (db w) = None \/ enabled (db w) = false) /\ w' = w)
             \/ faulty env (clock w) 2
             \/ (find_identity (tables w) channel sender_id = None
                 /\ faulty env (clock w) 6)))
        \/ (exists row,
              find_identity (tables w) channel sender_id = Some row
              /\ r = Some (idn_user_id row) /\ tables w' = tables w
              /\ quiet env (clock w) 2
              /\ _pool (db w) <> None /\ enabled (db w) = true)
        \/ (find_identity (tables w) channel sender_id = None
            /\ r = Some (users_id_seq (tables w))
            /\ tables w'
               = with_new_identity (users_id_seq (tables w)) channel sender_id
                   (with_new_user (clock w + 3) (tables w))
            /\ quiet env (clock w) 6
            /\ _pool (db w) <> None /\ enabled (db w) = true)).
Proof.
  unfold get_user_id, bind at 1, gets. simpl.
  destruct (negb (is_some (_pool (db w))) || negb (enabled (db w)))%bool eqn:Hoff.
  { exists None, w. split; [reflexivity|]. split; [apply same_memory_refl|].
    split; [reflexivity|]. left. repeat split. left. split; [|reflexivity].
    apply orb_true_iff in Hoff as [H|H]; apply negb_true_iff in H.
    - left. destruct (_pool (db w)); [discriminate | reflexivity].
    - now right. }
  assert (Hon : _pool (db w) <> None /\ enabled (db w) = true).
  { apply orb_false_iff in Hoff as [H1 H2].
    apply negb_false_iff in H1. apply negb_false_iff in H2.
    split; [|assumption]. destruct (_pool (db w)); [discriminate | discriminate]. }
  unfold try_except, transaction, acquire, round_trip, bind, tick, raise, ret,
    gets, modify, try_except. simpl.
  destruct (storage_fault env (clock w)) eqn:F0; simpl.
  { eexists _, _. split; [reflexivity|]. split; [repeat split|].
    split; [reflexivity|]. left. repeat split. right. left.
    apply (faulty_at (clock w) 2 0); [lia | exact F0]. }
  destruct (storage_fault env (S (clock w))) eqn:F1; simpl.
  { eexists _, _. split; [reflexivity|]. split; [repeat split|].
    split; [reflexivity|]. left. repeat split. right. left.
    apply (faulty_at (clock w) 2 1); [lia | exact F1]. }
  destruct (find_identity (tables w) channel sender_id) as [row|] eqn:Hfind; simpl.
  { eexists _, _. split; [reflexivity|]. split; [repeat split|].
    split; [reflexivity|]. right. left. exists row.
    repeat match goal with |- _ /\ _ => split end; try apply Hon; auto using quiet_2. }
  destruct (storage_fault env (S (S (clock w)))) eqn:F2; simpl.
  { eexists _, _. split; [reflexivity|]. split; [repeat split|].
    split; [reflexivity|]. left. repeat split. right. right. split; [reflexivity|].
    apply (faulty_at (clock w) 6 2); [lia | exact F2]. }
  destruct (storage_fault env (S (S (S (clock w))))) eqn:F3; simpl.
  { eexists _, _. split; [reflexivity|]. split; [repeat split|].
    split; [reflexivity|]. left. repeat split. right. right. split; [reflexivity|].
    apply (faulty_at (clock w) 6 3); [lia | exact F3]. }
  destruct (storage_fault env (S (S (S (S (clock w)))))) eqn:F4; simpl.
  { eexists _, _. split; [reflexivity|]. split; [repeat split|].
    split; [reflexivity|]. left. repeat split. right. right. split; [reflexivity|].
    apply (faulty_at (clock w) 6 4); [lia | exact F4]. }
  destruct (storage_fault env (S (S (S (S (S (clock w))))))) eqn:F5; simpl.
  { eexists _, _. split; [reflexivity|]. split; [repeat split|].
    split; [reflexivity|]. left. repeat split. right. right. split; [reflexivity|].
    apply (faulty_at (clock w) 6 5); [lia | exact F5]. }
  eexists _, _. split; [reflexivity|]. split; [repeat split|].
  split; [reflexivity|]. right. right.
  split; [reflexivity|]. split; [reflexivity|]. simpl. split; [|split].
  - replace (clock w + 3)%nat with (S (S (S (clock w)))) by lia. reflexivity.
  - now apply quiet_6.
  - exact Hon.
Qed.







End Properties.

(* ================================================================== *)
(** ** The properties at sample inputs *)

Lemma run_eq {A : Type} (m : M A) (w w' : World) (r : outcome A) (evs : list event) :
  (r, w', evs) = m w -> m w = (r, w', evs).
Proof. intros H. symmetry. exact H. Qed.

(** No event of the list is of the kind looked for. *)
Ltac no_such_event H :=
  simpl in H;
  repeat match type of H with
         | _ \/ _ => destruct H as [H|H]
         | False => contradiction
         | _ = _ => discriminate H
         end.

(** An entry that ends in a line feed and a space: one block, ending in
    one blank line, after what was there; an entry of spaces: the two
    line feeds; an entry with a lone surrogate: an exception, and the
    file as it was. *)
Lemma append_history_block_witness :
  (exists w',
     append_history (lit "[2024-01-01 10:00] Talk" ++ [LF; 32%N])
       (set_history_file (Some (lit "Earlier" ++ [LF; LF])) (sample_world 0 0))
     = (Ret tt, w', [EvAppendHistory (lit "[2024-01-01 10:00] Talk" ++ [LF; 32%N])])
     /\ history_file w'
        = Some (lit "Earlier" ++ [LF; LF] ++ lit "[2024-01-01 10:00] Talk" ++ [LF; LF]))
  /\ (exists w',
        append_history (lit "  ") (sample_world 0 0)
        = (Ret tt, w', [EvAppendHistory (lit "  ")])
        /\ history_file w' = Some [LF; LF])
  /\ (exists w',
        append_history (lit "x" ++ [lone_surrogate])
          (set_history_file (Some (lit "Earlier" ++ [LF; LF])) (sample_world 0 0))
        = (Raise UnicodeEncodeError, w', [])
        /\ history_file w' = Some (lit "Earlier" ++ [LF; LF])).
Proof.
  split; [|split].
  - destruct (append_history_block (lit "[2024-01-01 10:00] Talk" ++ [LF; 32%N])
                (set_history_file (Some (lit "Earlier" ++ [LF; LF])) (sample_world 0 0)))
      as (w' & E & H & _).
    exists w'. split; [exact E | exact H].
  - destruct (append_history_block (lit "  ") (sample_world 0 0)) as (w' & E & H & _).
    exists w'. split; [exact E | exact H].
  - destruct (append_history_block (lit "x" ++ [lone_surrogate])
                (set_history_file (Some (lit "Earlier" ++ [LF; LF])) (sample_world 0 0)))
      as (w' & E & H & _).
    exists w'. split; [exact E | exact H].
Defined.

(** C10 as stated fails: an entry that holds a lone surrogate is not
    written; the call raises, and HISTORY.md, which was not there, is
    left empty. *)
Lemma surrogate_entry_is_not_written :
  exists w',
    append_history (lit "x" ++ [lone_surrogate]) (sample_world 0 0)
    = (Raise UnicodeEncodeError, w', [])
    /\ history_file (sample_world 0 0) = None
    /\ history_file w' = Some [].
Proof. eexists. repeat split. Qed.

(** 60 messages, a window of 50, the cursor at 0: a successful call
    moves the cursor to 35. *)
Lemma consolidate_cursor_witness :
  exists w' evs,
    consolidate sample_env (answering sample_args) sample_model false 50
      (Some 7) (Some sample_store) (sample_world 60 0)
    = (Ret true, w', evs)
    /\ (exists request, In (EvChat request) evs)
    /\ last_consolidated (session w') = 35.
Proof.
  pose proof (run_eq (consolidate sample_env (answering sample_args) sample_model false 50
                        (Some 7) (Some sample_store)) (sample_world 60 0) _ _ _
                     ltac:(vm_compute; reflexivity)) as Hrun.
  eexists _, _. split; [exact Hrun|].
  assert (Hchat : exists request,
             In (EvChat request)
                (snd (consolidate sample_env (answering sample_args) sample_model false 50
                        (Some 7) (Some sample_store) (sample_world 60 0)))).
  { eexists. vm_compute. left. reflexivity. }
  rewrite Hrun in Hchat. simpl snd in Hchat.
  split; [exact Hchat|].
  destruct (consolidate_cursor sample_env _ _ _ _ _ _ _ _ _ _ Hrun) as (_ & Hyes & _).
  rewrite (Hyes (conj eq_refl Hchat)). reflexivity.
Defined.

(** An answer in plain text, and an answer whose arguments are not
    JSON: false, and the world is untouched. *)
Lemma consolidate_rejects_bad_answer_witness :
  (exists request,
     consolidate sample_env chatting sample_model false 4 (Some 7) (Some sample_store)
       (sample_world 6 0)
     = (Ret false, sample_world 6 0, [EvChat request]))
  /\ json_loads sample_env (lit "save it") = None
  /\ (exists request,
        consolidate sample_env (answering (PStr (lit "save it"))) sample_model false 4
          (Some 7) (Some sample_store) (sample_world 6 0)
        = (Ret false, sample_world 6 0, [EvChat request])).
Proof.
  split; [|split].
  - eexists.
    eapply (consolidate_rejects_bad_answer sample_env chatting sample_model false 4
              (Some 7) (Some sample_store) (sample_world 6 0)).
    + vm_compute. reflexivity.
    + reflexivity.
    + left. reflexivity.
  - reflexivity.
  - eexists.
    eapply (consolidate_rejects_bad_answer sample_env (answering (PStr (lit "save it")))
              sample_model false 4 (Some 7) (Some sample_store) (sample_world 6 0)).
    + vm_compute. reflexivity.
    + reflexivity.
    + right. exists {| arguments := PStr (lit "save it") |}, [], (lit "save it").
      split; [reflexivity|]. split; [reflexivity|]. left. reflexivity.
Defined.

(** C1 at a window of 1: [keep_count] is 0, the slice
    [messages[0 : len(messages) - 0]] of a session of three messages is
    the whole session, and yet the slice taken, [messages[0:-0]], is
    empty: whatever the provider, [consolidate] returns true and does
    nothing. *)
Theorem window_of_one_archives_nothing :
  1 / 2 = 0
  /\ py_slice (messages (session (sample_world 3 0))) 0
       (len (messages (session (sample_world 3 0))) - 1 / 2)
     = messages (session (sample_world 3 0))
  /\ py_slice (messages (session (sample_world 3 0))) 0 (- (1 / 2)) = []
  /\ forall env provider model user_id vector_store,
       consolidate env provider model false 1 user_id vector_store (sample_world 3 0)
       = (Ret true, sample_world 3 0, []).
Proof.
  split; [reflexivity|]. split; [reflexivity|]. split; [reflexivity|].
  intros env provider model user_id vector_store.
  apply consolidate_noop. apply select_keep_zero. reflexivity.
Qed.

(** C4 as stated fails: an empty [memory_update] differs from the
    profile and is not written; and an update that differs from the
    profile is not written when the history entry before it cannot be
    encoded. *)
Lemma differing_update_is_not_written :
  (exists w' evs,
     consolidate sample_env (answering (PDict [(lit "memory_update", PStr [])]))
       sample_model false 4 None None (sample_world 6 0)
     = (Ret true, w', evs)
     /\ as_text sample_env (dict_get [(lit "memory_update", PStr [])] (lit "memory_update"))
        <> long_term (sample_world 6 0)
     /\ (forall text, ~ In (EvWriteLongTerm text) evs)
     /\ memory_file w' = memory_file (sample_world 6 0))
  /\ (exists w' evs,
        consolidate sample_env (answering unwritable_args) sample_model false 4 None None
          (sample_world 6 0)
        = (Ret false, w', evs)
        /\ as_text sample_env
             (dict_get (match unwritable_args with PDict d => d | _ => [] end)
                       (lit "memory_update"))
           <> long_term (sample_world 6 0)
        /\ (forall text, ~ In (EvWriteLongTerm text) evs)
        /\ memory_file w' = memory_file (sample_world 6 0)).
Proof.
  split.
  - pose proof (run_eq (consolidate sample_env
                          (answering (PDict [(lit "memory_update", PStr [])]))
                          sample_model false 4 None None) (sample_world 6 0) _ _ _
                       ltac:(vm_compute; reflexivity)) as Hrun.
    eexists _, _. split; [exact Hrun|].
    split; [discriminate|]. split; [|reflexivity].
    intros text H. no_such_event H.
  - pose proof (run_eq (consolidate sample_env (answering unwritable_args)
                          sample_model false 4 None None) (sample_world 6 0) _ _ _
                       ltac:(vm_compute; reflexivity)) as Hrun.
    eexists _, _. split; [exact Hrun|].
    split; [discriminate|]. split; [|reflexivity].
    intros text H. no_such_event H.
Qed.

(** A [memory_update] that differs from the profile is written; one that
    cannot be encoded leaves the file empty. *)
Lemma profile_written_iff_witness :
  (exists w' evs,
     consolidate sample_env (answering sample_args) sample_model false 4
       (Some 7) (Some sample_store) (sample_world 6 0)
     = (Ret true, w', evs)
     /\ In (EvWriteLongTerm (lit "User likes hiking")) evs
     /\ memory_file w' = Some (lit "User likes hiking"))
  /\ (exists w' evs,
        consolidate sample_env
          (answering (PDict [(lit "memory_update", PStr [lone_surrogate])]))
          sample_model false 4 None None (sample_world 6 0)
        = (Ret false, w', evs)
        /\ memory_file w' = Some []).
Proof.
  split.
  - pose proof (run_eq (consolidate sample_env (answering sample_args) sample_model false 4
                          (Some 7) (Some sample_store)) (sample_world 6 0) _ _ _
                       ltac:(vm_compute; reflexivity)) as Hrun.
    eexists _, _. split; [exact Hrun|].
    destruct (profile_written_iff sample_env (answering sample_args) sample_model false 4
                (Some 7) (Some sample_store) (sample_world 6 0) _ _ _ _ _ _
                ltac:(vm_compute; reflexivity) ltac:(vm_compute; reflexivity) Hrun)
      as (_ & Hwhat & _).
    assert (Hin : In (EvWriteLongTerm (lit "User likes hiking"))
                     (snd (consolidate sample_env (answering sample_args) sample_model
                             false 4 (Some 7) (Some sample_store) (sample_world 6 0)))).
    { vm_compute. right. right. left. reflexivity. }
    rewrite Hrun in Hin. simpl snd in Hin.
    split; [exact Hin|]. exact (proj2 (Hwhat _ Hin)).
  - pose proof (run_eq (consolidate sample_env
                          (answering (PDict [(lit "memory_update", PStr [lone_surrogate])]))
                          sample_model false 4 None None) (sample_world 6 0) _ _ _
                       ltac:(vm_compute; reflexivity)) as Hrun.
    eexists _, _. split; [exact Hrun|].
    destruct (profile_written_iff sample_env
                (answering (PDict [(lit "memory_update", PStr [lone_surrogate])]))
                sample_model false 4 None None (sample_world 6 0) _ _ _ _ _ _
                ltac:(vm_compute; reflexivity) ltac:(vm_compute; reflexivity) Hrun)
      as (_ & _ & _ & Hempty).
    exact (proj1 (Hempty (or_introl eq_refl) eq_refl ltac:(discriminate) eq_refl)).
Defined.

(** C5 as stated fails: a successful [archive_all] call moves the cursor
    from 3 back to 0, and a negative window puts it beyond the end. *)
Lemma cursor_moves_back_or_out :
  (exists w' evs,
     consolidate sample_env (answering sample_args) sample_model true 50 None None
       (sample_world 5 3)
     = (Ret true, w', evs)
     /\ last_consolidated (session w') < last_consolidated (session (sample_world 5 3)))
  /\ (exists w' evs,
        consolidate sample_env (answering sample_args) sample_model false (-4) None None
          (sample_world 5 0)
        = (Ret true, w', evs)
        /\ len (messages (session w')) < last_consolidated (session w')).
Proof.
  split.
  - pose proof (run_eq (consolidate sample_env (answering sample_args) sample_model true 50
                          None None) (sample_world 5 3) _ _ _
                       ltac:(vm_compute; reflexivity)) as Hrun.
    eexists _, _. split; [exact Hrun|]. reflexivity.
  - pose proof (run_eq (consolidate sample_env (answering sample_args) sample_model false
                          (-4) None None) (sample_world 5 0) _ _ _
                       ltac:(vm_compute; reflexivity)) as Hrun.
    eexists _, _. split; [exact Hrun|]. reflexivity.
Qed.

(** Six messages, a window of 4, the cursor at 1: the cursor ends at 4. *)
Lemma consolidate_cursor_bounds_witness :
  exists w' evs,
    consolidate sample_env (answering sample_args) sample_model false 4 None None
      (sample_world 6 1)
    = (Ret true, w', evs)
    /\ 0 <= last_consolidated (session w') <= len (messages (session w'))
    /\ last_consolidated (session (sample_world 6 1)) <= last_consolidated (session w').
Proof.
  pose proof (run_eq (consolidate sample_env (answering sample_args) sample_model false 4
                        None None) (sample_world 6 1) _ _ _
                     ltac:(vm_compute; reflexivity)) as Hrun.
  eexists _, _. split; [exact Hrun|].
  destruct (consolidate_cursor_bounds sample_env (answering sample_args) sample_model
              false 4 None None (sample_world 6 1) _ _ _ Hrun)
    as (Hbounds & Hmono & _).
  split; [|exact (Hmono eq_refl)].
  apply Hbounds; [lia | vm_compute; split; discriminate].
Defined.

(** C6 as stated fails: a [history_entry] that is an empty list is
    present, is not a string, and is not appended; neither is one that
    is a list of one string holding a lone surrogate, whose dumped text
    cannot be encoded. *)
Lemma entry_is_not_appended :
  (exists w' evs,
     consolidate sample_env (answering (PDict [(lit "history_entry", PList [])]))
       sample_model false 4 None None (sample_world 6 0)
     = (Ret true, w', evs)
     /\ dict_get [(lit "history_entry", PList [])] (lit "history_entry") = PList []
     /\ (forall text, ~ In (EvAppendHistory text) evs)
     /\ history_file w' = history_file (sample_world 6 0))
  /\ (exists w' evs,
        consolidate sample_env
          (answering (PDict [(lit "history_entry", PList [PStr [lone_surrogate]])]))
          sample_model false 4 None None (sample_world 6 0)
        = (Ret false, w', evs)
        /\ json_dumps sample_env (PList [PStr [lone_surrogate]])
           = lit "[" ++ [34%N; lone_surrogate; 34%N] ++ lit "]"
        /\ (forall text, ~ In (EvAppendHistory text) evs)
        /\ history_file w' = Some []).
Proof.
  split.
  - pose proof (run_eq (consolidate sample_env
                          (answering (PDict [(lit "history_entry", PList [])]))
                          sample_model false 4 None None) (sample_world 6 0) _ _ _
                       ltac:(vm_compute; reflexivity)) as Hrun.
    eexists _, _. split; [exact Hrun|].
    split; [reflexivity|]. split; [|reflexivity].
    intros text H. no_such_event H.
  - pose proof (run_eq (consolidate sample_env
                          (answering
                             (PDict [(lit "history_entry", PList [PStr [lone_surrogate]])]))
                          sample_model false 4 None None) (sample_world 6 0) _ _ _
                       ltac:(vm_compute; reflexivity)) as Hrun.
    eexists _, _. split; [exact Hrun|].
    split; [reflexivity|]. split; [|reflexivity].
    intros text H. no_such_event H.
Qed.

(** A [history_entry] that is the number 42 is appended as "42"; one
    that is a list of a lone surrogate is not appended. *)
Lemma history_entry_dumped_when_truthy_witness :
  (exists w' evs,
     consolidate sample_env (answering (PDict [(lit "history_entry", PInt 42)]))
       sample_model false 4 None None (sample_world 6 0)
     = (Ret true, w', evs)
     /\ In (EvAppendHistory (lit "42")) evs
     /\ history_file w' = Some (lit "42" ++ [LF; LF]))
  /\ (exists w' evs,
        consolidate sample_env
          (answering (PDict [(lit "history_entry", PList [PStr [lone_surrogate]])]))
          sample_model false 4 None None (sample_world 6 0)
        = (Ret false, w', evs)
        /\ (forall text, ~ In (EvAppendHistory text) evs)
        /\ history_file w' = Some []).
Proof.
  split.
  - pose proof (run_eq (consolidate sample_env
                          (answering (PDict [(lit "history_entry", PInt 42)]))
                          sample_model false 4 None None) (sample_world 6 0) _ _ _
                       ltac:(vm_compute; reflexivity)) as Hrun.
    eexists _, _. split; [exact Hrun|].
    destruct (history_entry_dumped_when_truthy sample_env
                (answering (PDict [(lit "history_entry", PInt 42)])) sample_model false 4
                None None (sample_world 6 0) _ _ _ _ _ _
                ltac:(vm_compute; reflexivity) ltac:(vm_compute; reflexivity) Hrun
                eq_refl)
      as (Hyes & _).
    exact (Hyes eq_refl eq_refl).
  - pose proof (run_eq (consolidate sample_env
                          (answering
                             (PDict [(lit "history_entry", PList [PStr [lone_surrogate]])]))
                          sample_model false 4 None None) (sample_world 6 0) _ _ _
                       ltac:(vm_compute; reflexivity)) as Hrun.
    eexists _, _. split; [exact Hrun|].
    destruct (history_entry_dumped_when_truthy sample_env
                (answering (PDict [(lit "history_entry", PList [PStr [lone_surrogate]])]))
                sample_model false 4 None None (sample_world 6 0) _ _ _ _ _ _
                ltac:(vm_compute; reflexivity) ltac:(vm_compute; reflexivity) Hrun
                eq_refl)
      as (_ & Hno & _).
    destruct (Hno eq_refl eq_refl) as (Hev & Hfile & _).
    split; [exact Hev | exact Hfile].
Defined.

(** C7 as stated fails: with the user id 0 and a vector store supplied,
    the fact is not forwarded; and with the user id 7 and a vector store
    it is not forwarded either when the history entry before it cannot
    be encoded. *)
Lemma supplied_user_saves_no_fact :
  (exists w' evs,
     consolidate sample_env (answering sample_args) sample_model false 4
       (Some 0) (Some sample_store) (sample_world 6 0)
     = (Ret true, w', evs)
     /\ dict_get (match sample_args with PDict d => d | _ => [] end) (lit "facts")
        = PList [PStr (lit "User has a dog named Rex")]
     /\ (forall u text, ~ In (EvAddMemory u text) evs)
     /\ tables w' = tables (sample_world 6 0))
  /\ (exists w' evs,
        consolidate sample_env (answering unwritable_args) sample_model false 4
          (Some 7) (Some sample_store) (sample_world 6 0)
        = (Ret false, w', evs)
        /\ dict_get (match unwritable_args with PDict d => d | _ => [] end) (lit "facts")
           = PList [PStr (lit "User has a dog named Rex")]
        /\ (forall u text, ~ In (EvAddMemory u text) evs)
        /\ tables w' = tables (sample_world 6 0)).
Proof.
  split.
  - pose proof (run_eq (consolidate sample_env (answering sample_args) sample_model false 4
                          (Some 0) (Some sample_store)) (sample_world 6 0) _ _ _
                       ltac:(vm_compute; reflexivity)) as Hrun.
    eexists _, _. split; [exact Hrun|].
    split; [reflexivity|]. split; [|reflexivity].
    intros u text H. no_such_event H.
  - pose proof (run_eq (consolidate sample_env (answering unwritable_args) sample_model
                          false 4 (Some 7) (Some sample_store)) (sample_world 6 0) _ _ _
                       ltac:(vm_compute; reflexivity)) as Hrun.
    eexists _, _. split; [exact Hrun|].
    split; [reflexivity|]. split; [|reflexivity].
    intros u text H. no_such_event H.
Qed.

(** With user 7 and a store, the fact of the sample answer is forwarded
    and becomes a row; after a history entry that cannot be encoded it
    is not forwarded. *)
Lemma facts_forwarded_witness :
  (exists w' evs,
     consolidate sample_env (answering sample_args) sample_model false 4
       (Some 7) (Some sample_store) (sample_world 6 0)
     = (Ret true, w', evs)
     /\ evs = EvChat (request_for sample_env (sample_world 6 0)
                        (repeat sample_message 4) sample_model)
              :: [ EvAppendHistory (lit "[2024-01-01 10:00] Discussed trip");
                   EvWriteLongTerm (lit "User likes hiking");
                   EvAddMemory 7 (lit "User has a dog named Rex") ]
     /\ map mem_content (vector_memories (tables w')) = [lit "User has a dog named Rex"])
  /\ (exists w' evs,
        consolidate sample_env (answering unwritable_args) sample_model false 4
          (Some 7) (Some sample_store) (sample_world 6 0)
        = (Ret false, w', evs)
        /\ (forall u text, ~ In (EvAddMemory u text) evs)
        /\ tables w' = tables (sample_world 6 0)).
Proof.
  split.
  - pose proof (run_eq (consolidate sample_env (answering sample_args) sample_model false 4
                          (Some 7) (Some sample_store)) (sample_world 6 0) _ _ _
                       ltac:(vm_compute; reflexivity)) as Hrun.
    eexists _, _. split; [exact Hrun|].
    destruct (facts_forwarded sample_env (answering sample_args) sample_model false 4
                (Some 7) (Some sample_store) (sample_world 6 0) _
                (repeat sample_message 4) 2 _ [PStr (lit "User has a dog named Rex")] _ _
                ltac:(vm_compute; reflexivity) ltac:(vm_compute; reflexivity)
                eq_refl Hrun)
      as (Hcalls & _).
    destruct (Hcalls eq_refl eq_refl) as (_ & Hevs).
    split; [|reflexivity].
    rewrite (Hevs 7 sample_store eq_refl ltac:(discriminate) eq_refl).
    reflexivity.
  - pose proof (run_eq (consolidate sample_env (answering unwritable_args) sample_model
                          false 4 (Some 7) (Some sample_store)) (sample_world 6 0) _ _ _
                       ltac:(vm_compute; reflexivity)) as Hrun.
    eexists _, _. split; [exact Hrun|].
    destruct (facts_forwarded sample_env (answering unwritable_args) sample_model false 4
                (Some 7) (Some sample_store) (sample_world 6 0) _
                (repeat sample_message 4) 2 _ [PStr (lit "User has a dog named Rex")] _ _
                ltac:(vm_compute; reflexivity) ltac:(vm_compute; reflexivity)
                eq_refl Hrun)
      as (_ & Hfail & _).
    destruct (Hfail (or_introl eq_refl)) as (_ & Hev & Ht).
    split; [exact Hev | exact Ht].
Defined.



(* ================================================================== *)
(** ** Further properties of the three files *)

Section Coverage.

Variable env : Env.

(* ------------------------------------------------------------------ *)
(** *** The slice, once more *)

Lemma py_slice_split {A : Type} (l : list A) (a b : Z) :
  0 <= a <= b -> b <= len l ->
  l = firstn (Z.to_nat a) l ++ py_slice l a b ++ skipn (Z.to_nat b) l.
Proof.
  intros Hab Hb. unfold py_slice, slice_bound.
  destruct (a <? 0) eqn:Ea; [apply Z.ltb_lt in Ea; lia|].
  destruct (b <? 0) eqn:Eb; [apply Z.ltb_lt in Eb; lia|].
  rewrite !Z.min_l by lia.
  rewrite <- (firstn_skipn (Z.to_nat a) l) at 1. f_equal.
  rewrite <- (firstn_skipn (Z.to_nat (b - a)) (skipn (Z.to_nat a) l)) at 1. f_equal.
  rewrite skipn_skipn. f_equal. lia.
Qed.

(** Asked again with the cursor where a successful call left it,
    [select_old_messages] finds nothing. *)
Lemma select_at_cursor (s : Session) (memory_window : Z) :
  last_consolidated s = len (messages s) - memory_window / 2 ->
  select_old_messages s false memory_window = None.
Proof.
  intros Hc. unfold select_old_messages.
  destruct (len (messages s) <=? memory_window / 2) eqn:E1; [reflexivity|].
  destruct (len (messages s) - last_consolidated s <=? 0) eqn:E2; [reflexivity|].
  apply Z.leb_gt in E1. apply Z.leb_gt in E2.
  replace (py_slice (messages s) (last_consolidated s) (- (memory_window / 2)))
    with (@nil message); [reflexivity|].
  unfold py_slice, slice_bound. rewrite Hc.
  destruct (len (messages s) - memory_window / 2 <? 0) eqn:E3;
    [apply Z.ltb_lt in E3; lia|].
  destruct (- (memory_window / 2) <? 0) eqn:E4;
    [|apply Z.ltb_ge in E4; lia].
  replace (Z.to_nat (Z.max 0 (len (messages s) + - (memory_window / 2))
                     - Z.min (len (messages s) - memory_window / 2) (len (messages s))))
    with 0%nat by lia.
  reflexivity.
Qed.

(** X1. Without [archive_all], for a window that is not negative and a
    cursor that is not negative, a slice that is selected is
    [messages[last_consolidated : len(messages) - keep_count]] with
    [keep_count = memory_window // 2 >= 1]; it is not empty, and the
    session is the messages before the cursor, then the slice, then the
    last [keep_count] messages, which are not archived. *)
Theorem archived_slice (s : Session) (memory_window : Z)
  (old_messages : list message) (keep_count : Z) :
  0 <= memory_window ->
  0 <= last_consolidated s ->
  select_old_messages s false memory_window = Some (old_messages, keep_count) ->
  keep_count = memory_window / 2
  /\ 1 <= keep_count < len (messages s)
  /\ old_messages
     = py_slice (messages s) (last_consolidated s) (len (messages s) - keep_count)
  /\ old_messages <> []
  /\ messages s
     = firstn (Z.to_nat (last_consolidated s)) (messages s)
       ++ old_messages
       ++ skipn (Z.to_nat (len (messages s) - keep_count)) (messages s)
  /\ len (skipn (Z.to_nat (len (messages s) - keep_count)) (messages s)) = keep_count.
Proof.
  intros Hwin Hcur Hsel.
  pose proof (select_keep_count s false memory_window old_messages keep_count Hsel) as Hk.
  simpl in Hk.
  destruct (select_advances s memory_window old_messages keep_count Hsel) as (Hlen & Hadv).
  assert (Hpos : 0 <= memory_window / 2) by (apply Z.div_pos; lia).
  assert (Hnz : memory_window / 2 <> 0).
  { intros H0. rewrite (select_keep_zero s memory_window H0) in Hsel. discriminate. }
  assert (Hslice : old_messages
                   = py_slice (messages s) (last_consolidated s)
                       (len (messages s) - keep_count)).
  { rewrite (select_slice s memory_window) in Hsel by lia.
    rewrite Hk.
    destruct (py_slice (messages s) (last_consolidated s)
                (len (messages s) - memory_window / 2)); [discriminate|].
    now injection Hsel. }
  split; [exact Hk|]. split; [lia|]. split; [exact Hslice|]. split; [|split].
  - unfold select_old_messages in Hsel.
    destruct (len (messages s) <=? memory_window / 2); [discriminate|].
    destruct (len (messages s) - last_consolidated s <=? 0); [discriminate|].
    destruct (py_slice (messages s) (last_consolidated s) (- (memory_window / 2)));
      [discriminate|].
    injection Hsel as <- _. discriminate.
  - rewrite Hslice at 1. apply py_slice_split; lia.
  - unfold len. rewrite length_skipn. unfold len in *. lia.
Qed.

(* ------------------------------------------------------------------ *)
(** *** [consolidate] as a whole *)

(** The three ways through [consolidate], for any call. *)
Lemma consolidate_outcomes (provider : LLMProvider) (model : str) (archive_all : bool)
  (memory_window : Z) (user_id : option Z) (vector_store : option VectorMemoryStore)
  (w : World) :
  (select_old_messages (session w) archive_all memory_window = None
   /\ consolidate env provider model archive_all memory_window user_id vector_store w
      = (Ret true, w, []))
  \/ (exists old_messages keep_count,
        select_old_messages (session w) archive_all memory_window
        = Some (old_messages, keep_count)
        /\ tool_arguments env (provider (request_for env w old_messages model)) = None
        /\ consolidate env provider model archive_all memory_window user_id vector_store w
           = (Ret false, w, [EvChat (request_for env w old_messages model)]))
  \/ (exists old_messages keep_count args w',
        select_old_messages (session w) archive_all memory_window
        = Some (old_messages, keep_count)
        /\ tool_arguments env (provider (request_for env w old_messages model)) = Some args
        /\ consolidate env provider model archive_all memory_window user_id vector_store w
           = (Ret (applies env (long_term w) user_id vector_store args), w',
              EvChat (request_for env w old_messages model)
              :: applied_events env (long_term w) user_id vector_store args)
        /\ messages (session w') = messages (session w)
        /\ last_consolidated (session w')
           = (if applies env (long_term w) user_id vector_store args
              then (if archive_all then 0
                    else len (messages (session w)) - memory_window / 2)
              else last_consolidated (session w))
        /\ history_file w'
           = (if history_due args
              then Some (history_text w
                         ++ (if encodable (history_entry env args)
                             then block (history_entry env args) else []))
              else history_file w)
        /\ memory_file w'
           = (if history_fails env args then memory_file w
              else if profile_due env (long_term w) args
              then Some (if encodable (profile_update env args)
                         then profile_update env args else [])
              else memory_file w)
        /\ db w' = db w
        /\ facts_added (match user_id with Some u => u | None => 0 end) w w'
        /\ (history_fails env args = true \/ profile_fails env (long_term w) args = true
            \/ facts_to_save user_id vector_store args = None
            \/ facts_not_iterable user_id vector_store args = true ->
            tables w' = tables w /\ clock w' = clock w)).
Proof.
  destruct (select_old_messages (session w) archive_all memory_window)
    as [[old_messages keep_count]|] eqn:Hsel.
  - destruct (tool_arguments env (provider (request_for env w old_messages model)))
      as [args|] eqn:Hargs.
    + right. right.
      destruct (consolidate_applied_spec env provider model archive_all memory_window
                  user_id vector_store w old_messages keep_count args Hsel Hargs)
        as (w' & H).
      exists old_messages, keep_count, args, w'. auto.
    + right. left. exists old_messages, keep_count.
      split; [reflexivity|]. split; [assumption|].
      now apply consolidate_rejected with (keep_count := keep_count).
  - left. split; [reflexivity|]. now apply consolidate_noop.
Qed.

(** X2. After a call without [archive_all] that returned true after a
    round trip to the provider, a second call with the same window is a
    no-op: it returns true, asks nobody and changes nothing. *)
Theorem second_consolidate_is_noop (provider : LLMProvider) (model : str)
  (memory_window : Z) (user_id : option Z) (vector_store : option VectorMemoryStore)
  (w w' : World) (evs : list event) :
  consolidate env provider model false memory_window user_id vector_store w
  = (Ret true, w', evs) ->
  evs <> [] ->
  forall provider' model' user_id' vector_store',
    consolidate env provider' model' false memory_window user_id' vector_store' w'
    = (Ret true, w', []).
Proof.
  intros Hrun Hev provider' model' user_id' vector_store'.
  apply consolidate_noop. apply select_at_cursor.
  destruct (consolidate_outcomes provider model false memory_window user_id vector_store w)
    as [(_ & E) | [(old & keep & _ & _ & E)
                  | (old & keep & args & w1 & _ & _ & E & Hm & Hc & _)]];
    rewrite E in Hrun.
  - injection Hrun as <- <-. contradiction.
  - discriminate.
  - injection Hrun as Hr <- <-.
    destruct (applies env (long_term w) user_id vector_store args); [|discriminate].
    rewrite Hc, Hm. reflexivity.
Qed.

(** X3. Whatever the provider answers, [consolidate] does not raise and
    leaves the messages of the session, the database manager, the users
    and the identities as they were; facts are only added, each for the
    given user with an embedding that is not empty, and none when no
    user id is given. *)
Theorem consolidate_frame (provider : LLMProvider) (model : str) (archive_all : bool)
  (memory_window : Z) (user_id : option Z) (vector_store : option VectorMemoryStore)
  (w : World) :
  exists (b : bool) (w' : World) (evs : list event),
    consolidate env provider model archive_all memory_window user_id vector_store w
    = (Ret b, w', evs)
    /\ messages (session w') = messages (session w)
    /\ db w' = db w
    /\ users (tables w') = users (tables w)
    /\ user_identities (tables w') = user_identities (tables w)
    /\ exists rows,
         vector_memories (tables w') = vector_memories (tables w) ++ rows
         /\ Forall (fun r => user_id = Some (mem_user_id r) /\ mem_embedding r <> []) rows.
Proof.
  destruct (consolidate_outcomes provider model archive_all memory_window user_id
              vector_store w)
    as [(_ & E) | [(old & keep & _ & _ & E)
                  | (old & keep & args & w1 & _ & _ & E & Hm & _ & _ & _ & Hd & Hf & Hskip)]];
    rewrite E.
  - exists true, w, []. repeat split. exists []. now rewrite app_nil_r.
  - eexists false, w, _. repeat split. exists []. now rewrite app_nil_r.
  - eexists _, w1, _. split; [reflexivity|]. split; [exact Hm|]. split; [exact Hd|].
    destruct Hf as (Hu & Hi & rows & Hr & HF).
    split; [exact Hu|]. split; [exact Hi|].
    destruct user_id as [u|].
    + exists rows. split; [exact Hr|].
      eapply Forall_impl; [|exact HF]. simpl. intros r [-> He]. auto.
    + exists []. split; [|constructor].
      destruct (Hskip (or_intror (or_intror (or_introl eq_refl)))) as (Ht & _).
      now rewrite Ht, app_nil_r.
Qed.

(** X4. [consolidate] never takes text away from HISTORY.md: the file
    stays as it was, or is left with its old text (created empty, where
    it was not there) by an append that raised, in a call that returns
    false, or ends in one more block, that of an entry that can be
    encoded.  MEMORY.md stays as it was, or holds a new text that can be
    encoded and differs from the one read, or is left empty by a write
    that raised, in a call that returns false. *)
Theorem consolidate_files (provider : LLMProvider) (model : str) (archive_all : bool)
  (memory_window : Z) (user_id : option Z) (vector_store : option VectorMemoryStore)
  (w w' : World) (r : outcome bool) (evs : list event) :
  consolidate env provider model archive_all memory_window user_id vector_store w
  = (r, w', evs) ->
  (history_file w' = history_file w
   \/ (history_file w' = Some (history_text w) /\ r = Ret false)
   \/ exists entry,
        history_file w' = Some (history_text w ++ block entry)
        /\ encodable entry = true /\ In (EvAppendHistory entry) evs)
  /\ (memory_file w' = memory_file w
      \/ (exists text,
            memory_file w' = Some text /\ text <> long_term w
            /\ encodable text = true /\ In (EvWriteLongTerm text) evs)
      \/ (memory_file w' = Some [] /\ r = Ret false)).
Proof.
  intros Hrun.
  destruct (consolidate_outcomes provider model archive_all memory_window user_id
              vector_store w)
    as [(_ & E) | [(old & keep & _ & _ & E)
                  | (old & keep & args & w1 & _ & _ & E & _ & _ & Hh & Hmf & _)]];
    rewrite E in Hrun; injection Hrun as <- <- <-; auto.
  split.
  - unfold history_due, history_entry in Hh.
    destruct (truthy (dict_get args (lit "history_entry"))) eqn:Ht; [|now left].
    destruct (encodable (as_text env (dict_get args (lit "history_entry")))) eqn:He.
    + right. right. eexists. split; [exact Hh|]. split; [exact He|].
      right. now apply applied_append_happens.
    + right. left. rewrite app_nil_r in Hh. split; [exact Hh|].
      unfold applies, history_fails, history_due, history_entry.
      now rewrite encodable_block, Ht, He.
  - destruct (history_fails env args) eqn:Hf; [now left|].
    destruct (profile_due env (long_term w) args) eqn:Hd; [|now left].
    apply profile_due_true in Hd as Hd'. destruct Hd' as [Ht Hn].
    unfold profile_update in Hmf.
    destruct (encodable (as_text env (dict_get args (lit "memory_update")))) eqn:He.
    + right. left. eexists. split; [exact Hmf|]. split; [exact Hn|].
      split; [exact He|]. right. now apply applied_write_happens.
    + right. right. split; [exact Hmf|].
      unfold applies, profile_fails, profile_update. now rewrite Hf, Hd, He.
Qed.

(** X5. What a call of [consolidate] does comes in this order: the
    request to the provider, then at most one append to HISTORY.md, then
    at most one write of MEMORY.md, then the calls of [add_memory]. *)
Theorem consolidate_order (provider : LLMProvider) (model : str) (archive_all : bool)
  (memory_window : Z) (user_id : option Z) (vector_store : option VectorMemoryStore)
  (w w' : World) (r : outcome bool) (evs : list event) :
  consolidate env provider model archive_all memory_window user_id vector_store w
  = (r, w', evs) ->
  evs = []
  \/ exists request appends writes calls,
       evs = EvChat request :: appends ++ writes ++ calls
       /\ (appends = [] \/ exists entry, appends = [EvAppendHistory entry])
       /\ (writes = [] \/ exists text, writes = [EvWriteLongTerm text])
       /\ Forall (fun e => exists u fact, e = EvAddMemory u fact) calls.
Proof.
  intros Hrun.
  destruct (consolidate_outcomes provider model archive_all memory_window user_id
              vector_store w)
    as [(_ & E) | [(old & keep & _ & _ & E)
                  | (old & keep & args & w1 & _ & _ & E & _)]];
    rewrite E in Hrun; injection Hrun as <- <- <-.
  - now left.
  - right. exists (request_for env w old model), [], [], []. simpl. auto.
  - right.
    exists (request_for env w old model), (history_events env args),
      (if history_fails env args then [] else profile_events env (long_term w) args),
      (if history_fails env args then []
       else if profile_fails env (long_term w) args then []
            else fact_events user_id vector_store args).
    split; [|split; [|split]].
    + unfold applied_events. destruct (history_fails env args); reflexivity.
    + unfold history_events. destruct (_ && _)%bool; eauto.
    + destruct (history_fails env args); [now left|].
      unfold profile_events. destruct (_ && _)%bool; eauto.
    + apply Forall_forall. intros e He.
      destruct (history_fails env args); [contradiction|].
      destruct (profile_fails env (long_term w) args); [contradiction|].
      apply fact_events_kind in He as (u & s0 & -> & _). eauto.
Qed.

(** X6. A failure after the writes is not undone: when the facts that
    line 160 lets through cannot be iterated (a number, [True]), the call
    returns false, the cursor stays and no fact is stored, yet a truthy
    [history_entry] whose text can be encoded has been appended to
    HISTORY.md (the write of MEMORY.md in between not having raised). *)
Theorem late_failure_keeps_writes (provider : LLMProvider) (model : str)
  (archive_all : bool) (memory_window : Z) (u : Z) (store : VectorMemoryStore)
  (w w' : World) (old_messages : list message) (keep_count : Z)
  (args : list (str * pyval)) (r : outcome bool) (evs : list event) :
  select_old_messages (session w) archive_all memory_window
  = Some (old_messages, keep_count) ->
  tool_arguments env (provider (request_for env w old_messages model)) = Some args ->
  u <> 0 ->
  truthy (dict_get args (lit "facts")) = true ->
  py_iter (dict_get args (lit "facts")) = None ->
  truthy (dict_get args (lit "history_entry")) = true ->
  encodable (as_text env (dict_get args (lit "history_entry"))) = true ->
  profile_fails env (long_term w) args = false ->
  consolidate env provider model archive_all memory_window (Some u) (Some store) w
  = (r, w', evs) ->
  r = Ret false
  /\ last_consolidated (session w') = last_consolidated (session w)
  /\ In (EvAppendHistory (as_text env (dict_get args (lit "history_entry")))) evs
  /\ history_file w'
     = Some (history_text w ++ block (as_text env (dict_get args (lit "history_entry"))))
  /\ tables w' = tables w.
Proof.
  intros Hsel Hargs Hu Hfacts Hiter Hentry Henc Hprofile Hrun.
  assert (Hnot : facts_not_iterable (Some u) (Some store) args = true).
  { unfold facts_not_iterable, facts_to_save. simpl.
    destruct (u =? 0) eqn:E0; [apply Z.eqb_eq in E0; contradiction|].
    simpl. rewrite Hfacts, Hiter. reflexivity. }
  destruct (consolidate_applied_spec env provider model archive_all memory_window
              (Some u) (Some store) w old_messages keep_count args Hsel Hargs)
    as (w1 & E & _ & Hc & Hh & _ & _ & _ & Hskip).
  rewrite E in Hrun. injection Hrun as <- <- <-.
  assert (Happ : applies env (long_term w) (Some u) (Some store) args = false).
  { unfold applies. rewrite Hnot. apply andb_false_r. }
  rewrite Happ in Hc |- *.
  unfold history_due, history_entry in Hh. rewrite Hentry, Henc in Hh.
  split; [reflexivity|]. split; [exact Hc|].
  split; [right; now apply applied_append_happens|].
  split; [exact Hh|]. apply Hskip. tauto.
Qed.

Lemma nonblank_char (c : char) : nonblank [c] = negb (isspace c).
Proof.
  unfold nonblank, strip. simpl.
  destruct (isspace c) eqn:E; simpl; rewrite ?E; reflexivity.
Qed.

Lemma forwarded_characters (u : Z) (text : str) :
  forwarded u (map (fun c => PStr [c]) text)
  = flat_map (fun c => if isspace c then [] else [EvAddMemory u [c]]) text.
Proof.
  unfold forwarded. induction text as [|c text IH]; simpl; [reflexivity|].
  rewrite nonblank_char, IH. destruct (isspace c); reflexivity.
Qed.

(** X7. When [facts] is a string rather than a list, the loop of lines
    161-163 runs over its characters: with a user id other than 0 and a
    vector store, and neither write before it having raised,
    [add_memory] is called once for every character that is not
    whitespace, with that character as the fact. *)
Theorem facts_as_a_string (provider : LLMProvider) (model : str)
  (archive_all : bool) (memory_window : Z) (u : Z) (store : VectorMemoryStore)
  (w w' : World) (old_messages : list message) (keep_count : Z)
  (args : list (str * pyval)) (text : str) (r : outcome bool) (evs : list event) :
  select_old_messages (session w) archive_all memory_window
  = Some (old_messages, keep_count) ->
  tool_arguments env (provider (request_for env w old_messages model)) = Some args ->
  u <> 0 ->
  dict_get args (lit "facts") = PStr text ->
  history_fails env args = false ->
  profile_fails env (long_term w) args = false ->
  consolidate env provider model archive_all memory_window (Some u) (Some store) w
  = (r, w', evs) ->
  r = Ret true
  /\ evs = EvChat (request_for env w old_messages model)
           :: history_events env args ++ profile_events env (long_term w) args
              ++ flat_map (fun c => if isspace c then [] else [EvAddMemory u [c]]) text.
Proof.
  intros Hsel Hargs Hu Hfacts Hh Hp Hrun.
  destruct (consolidate_applied_spec env provider model archive_all memory_window
              (Some u) (Some store) w old_messages keep_count args Hsel Hargs)
    as (w1 & E & _).
  rewrite E in Hrun. injection Hrun as <- <- <-.
  assert (Hnot : facts_not_iterable (Some u) (Some store) args = false).
  { unfold facts_not_iterable, facts_to_save. rewrite Hfacts.
    destruct (truthy_id (Some u) && truthy (PStr text))%bool; reflexivity. }
  unfold applies. rewrite Hh, Hp, Hnot. split; [reflexivity|].
  rewrite (applied_events_plain env _ _ _ _ Hh Hp). do 3 f_equal.
  unfold fact_events, facts_to_save. rewrite Hfacts. simpl.
  destruct (u =? 0) eqn:E0; [apply Z.eqb_eq in E0; contradiction|]. simpl.
  destruct text as [|c text]; [reflexivity|].
  change (truthy (PStr (c :: text))) with true. cbv iota.
  change (py_iter (PStr (c :: text)))
    with (Some (map (fun c => PStr [c]) (c :: text))).
  cbv iota. apply forwarded_characters.
Qed.

(** X8. When the provider raises, answers with [has_tool_calls] set and
    no tool call, or hands over arguments that are neither a string nor
    a mapping, [consolidate] returns false and changes nothing. *)
Theorem consolidate_survives_provider (provider : LLMProvider) (model : str)
  (archive_all : bool) (memory_window : Z) (user_id : option Z)
  (vector_store : option VectorMemoryStore) (w : World)
  (old_messages : list message) (keep_count : Z) :
  select_old_messages (session w) archive_all memory_window
  = Some (old_messages, keep_count) ->
  provider (request_for env w old_messages model) = ChatRaises
  \/ (exists response,
        provider (request_for env w old_messages model) = ChatReturns response
        /\ (tool_calls response = []
            \/ exists call rest,
                 tool_calls response = call :: rest
                 /\ is_str (arguments call) = false
                 /\ is_dict (arguments call) = false)) ->
  consolidate env provider model archive_all memory_window user_id vector_store w
  = (Ret false, w, [EvChat (request_for env w old_messages model)]).
Proof.
  intros Hsel Hbad.
  apply consolidate_rejected with (keep_count := keep_count); [assumption|].
  destruct Hbad as [-> | (response & -> & Hresp)]; [reflexivity|].
  simpl. destruct (has_tool_calls response); [|reflexivity].
  destruct Hresp as [-> | (call & rest & -> & Hs & Hd)]; [reflexivity|].
  unfold parsed_arguments. destruct (arguments call); try reflexivity; discriminate.
Qed.

(** X9. Arguments that arrive as a string which [json.loads] decodes to
    a mapping are treated exactly as that mapping handed over directly:
    the two calls end in the same result, world and events. *)
Theorem arguments_as_string_or_mapping (provider provider' : LLMProvider) (model : str)
  (archive_all : bool) (memory_window : Z) (user_id : option Z)
  (vector_store : option VectorMemoryStore) (w : World)
  (s : str) (d : list (str * pyval)) :
  json_loads env s = Some (PDict d) ->
  (forall request,
     provider request
     = ChatReturns {| has_tool_calls := true;
                      tool_calls := [ {| arguments := PStr s |} ] |}) ->
  (forall request,
     provider' request
     = ChatReturns {| has_tool_calls := true;
                      tool_calls := [ {| arguments := PDict d |} ] |}) ->
  consolidate env provider model archive_all memory_window user_id vector_store w
  = consolidate env provider' model archive_all memory_window user_id vector_store w.
Proof.
  intros Hloads Hp Hp'.
  destruct (select_old_messages (session w) archive_all memory_window)
    as [[old_messages keep_count]|] eqn:Hsel.
  - rewrite (consolidate_applied env provider model archive_all memory_window user_id
               vector_store w old_messages keep_count d Hsel).
    + rewrite (consolidate_applied env provider' model archive_all memory_window user_id
                 vector_store w old_messages keep_count d Hsel); [reflexivity|].
      rewrite Hp'. reflexivity.
    + rewrite Hp. simpl. rewrite Hloads. reflexivity.
  - rewrite !consolidate_noop by assumption. reflexivity.
Qed.

(** X10. With [archive_all] the window plays no part and the provider is
    always asked, about the whole session, even when the session holds
    no message. *)
Theorem archive_all_always_asks (provider : LLMProvider) (model : str)
  (memory_window : Z) (user_id : option Z) (vector_store : option VectorMemoryStore)
  (w : World) :
  (exists b w' rest,
     consolidate env provider model true memory_window user_id vector_store w
     = (Ret b, w', EvChat (request_for env w (messages (session w)) model) :: rest))
  /\ forall other_window,
       consolidate env provider model true other_window user_id vector_store w
       = consolidate env provider model true memory_window user_id vector_store w.
Proof.
  split.
  - destruct (consolidate_outcomes provider model true memory_window user_id
                vector_store w)
      as [(Hsel & _) | [(old & keep & Hsel & _ & E)
                       | (old & keep & args & w1 & Hsel & _ & E & _)]].
    + discriminate.
    + injection Hsel as <- <-. rewrite E. eauto.
    + injection Hsel as <- <-. rewrite E. eauto.
  - intros other_window. reflexivity.
Qed.

(* ------------------------------------------------------------------ *)
(** *** The transcript, the profile and the history *)




Lemma lstrip_split (s : str) :
  exists ws, s = ws ++ lstrip s /\ forallb isspace ws = true.
Proof.
  induction s as [|c s (ws & Hs & Hws)]; simpl.
  - exists []. auto.
  - destruct (isspace c) eqn:Hc.
    + exists (c :: ws). simpl. rewrite Hc, Hws. split; [congruence | reflexivity].
    + exists []. auto.
Qed.

Lemma lstrip_head (s rest : str) (c : char) :
  lstrip s = c :: rest -> isspace c = false.
Proof.
  induction s as [|x s IH]; simpl; [discriminate|].
  destruct (isspace x) eqn:Hx; [assumption|].
  intros H. injection H as <- _. assumption.
Qed.

Lemma rstrip_head (s : str) (c : char) :
  isspace c = false -> exists rest, rstrip (c :: s) = c :: rest.
Proof.
  intros Hc. simpl. destruct (rstrip s); rewrite ?Hc; eauto.
Qed.

Lemma forallb_isspace_In (ws : str) (c : char) :
  forallb isspace ws = true -> In c ws -> isspace c = true.
Proof. intros H Hin. rewrite forallb_forall in H. auto. Qed.

(** X12. [strip] removes whitespace, and only whitespace, from both
    ends: what is left neither begins nor ends with whitespace.  A
    string is non-blank, so that line 162 lets it through as a fact,
    exactly when it holds a character that is not whitespace. *)
Theorem strip_trims (s : str) :
  (exists before after,
     s = before ++ strip s ++ after
     /\ forallb isspace before = true /\ forallb isspace after = true)
  /\ (forall c rest, strip s = c :: rest -> isspace c = false)
  /\ (forall body c, strip s = body ++ [c] -> isspace c = false)
  /\ (nonblank s = true <-> exists c, In c s /\ isspace c = false).
Proof.
  assert (Hsplit : exists before after,
             s = before ++ strip s ++ after
             /\ forallb isspace before = true /\ forallb isspace after = true).
  { destruct (lstrip_split s) as (before & Hs & Hb).
    destruct (rstrip_split (lstrip s)) as (after & Hl & Ha).
    exists before, after. unfold strip. rewrite <- Hl. auto. }
  assert (Hhead : forall c rest, strip s = c :: rest -> isspace c = false).
  { unfold strip. intros c rest H.
    destruct (lstrip s) as [|x l] eqn:El; [discriminate|].
    pose proof (lstrip_head s l x El) as Hx.
    destruct (rstrip_head l x Hx) as (rest' & Hr).
    rewrite Hr in H. injection H as <- _. assumption. }
  split; [exact Hsplit|]. split; [exact Hhead|]. split.
  - intros body c. unfold strip. apply rstrip_last.
  - unfold nonblank. split.
    + destruct (strip s) as [|c rest] eqn:E; [discriminate|]. intros _.
      exists c. split; [|now apply (Hhead c rest)].
      destruct Hsplit as (before & after & Hs & _). rewrite Hs.
      apply in_or_app. right. apply in_or_app. left. rewrite ?E. now left.
    + intros (c & Hin & Hc).
      destruct (strip s) as [|x rest] eqn:E; [|reflexivity].
      destruct Hsplit as (before & after & Hs & Hb & Ha).
      rewrite Hs in Hin. rewrite ?E in Hin. simpl in Hin.
      apply in_app_or in Hin as [Hin|Hin];
        [rewrite (forallb_isspace_In before c Hb Hin) in Hc
        |rewrite (forallb_isspace_In after c Ha Hin) in Hc]; discriminate.
Qed.

(** X13. A text that can be encoded is written to MEMORY.md as it is,
    and [read_long_term] then reads it with every CR LF and lone CR as
    one LF, which is the text itself when it holds no CR;
    [get_memory_context] gives what is read under the heading
    "## Core Profile".  A text that cannot be encoded makes
    [write_long_term] raise and leaves MEMORY.md empty.  Nothing but
    MEMORY.md changes.  The context is empty exactly when what is read
    is empty, as when MEMORY.md does not exist. *)
Theorem profile_round_trip (text : str) (w : World) :
  (exists w',
     write_long_term text w
     = (if encodable text then Ret tt else Raise UnicodeEncodeError, w',
        if encodable text then [EvWriteLongTerm text] else [])
     /\ memory_file w' = Some (if encodable text then text else [])
     /\ read_long_term w'
        = (Ret (if encodable text then universal_newlines text else []), w', [])
     /\ get_memory_context w'
        = (Ret (match (if encodable text then universal_newlines text else []) with
                | [] => []
                | read => lit "## Core Profile" ++ [LF] ++ read
                end), w', [])
     /\ session w' = session w /\ history_file w' = history_file w
     /\ db w' = db w /\ tables w' = tables w /\ clock w' = clock w)
  /\ (forallb (fun c => negb (N.eqb c 13)) text = true -> universal_newlines text = text)
  /\ forallb (fun c => negb (N.eqb c 13)) (universal_newlines text) = true
  /\ exists context,
       get_memory_context w = (Ret context, w, [])
       /\ (context = [] <-> long_term w = [])
       /\ (memory_file w = None -> context = []).
Proof.
  split; [|split; [|split]].
  - eexists. split; [apply write_long_term_run|].
    destruct (encodable text); repeat split.
    unfold get_memory_context, bind, read_long_term, gets, ret, long_term. simpl.
    destruct (universal_newlines text); reflexivity.
  - apply universal_newlines_plain.
  - apply universal_newlines_no_cr.
  - unfold get_memory_context, bind, read_long_term, gets, ret, long_term.
    destruct (memory_file w) as [stored|]; simpl.
    + destruct (universal_newlines stored); simpl; eexists; split; try reflexivity;
        split; try tauto; try discriminate; split; discriminate.
    + eexists. split; [reflexivity|]. split; tauto.
Qed.

(** A run of appends, in one equation. *)
Lemma append_history_run_many (entries : list str) (w : World) :
  for_each entries append_history w
  = (if forallb encodable entries then Ret tt else Raise UnicodeEncodeError,
     match entries with
     | [] => w
     | _ => set_history_file
              (Some (history_text w ++ List.concat (map block (writable_prefix entries))))
              w
     end,
     map EvAppendHistory (writable_prefix entries)).
Proof.
  revert w. induction entries as [|entry entries IH]; intros w; [reflexivity|].
  cbn [for_each forallb writable_prefix]. unfold bind at 1.
  rewrite append_history_run.
  destruct (encodable entry); cbn [andb]; [|reflexivity].
  rewrite IH. destruct entries as [|entry' entries].
  - simpl. rewrite app_nil_r. reflexivity.
  - destruct (forallb encodable (entry' :: entries));
      unfold history_text; simpl; rewrite <- !app_assoc; reflexivity.
Qed.

(** X14. Entries appended one after the other end up in HISTORY.md as
    their blocks, in order, after what was there, up to the first entry
    that cannot be encoded: there the run stops with an exception.  When
    every entry can be encoded the run returns and all the blocks are
    there.  Nothing but HISTORY.md changes. *)
Theorem append_history_many (entries : list str) (w : World) :
  exists w',
    for_each entries append_history w
    = (if forallb encodable entries then Ret tt else Raise UnicodeEncodeError, w',
       map EvAppendHistory (writable_prefix entries))
    /\ history_text w'
       = history_text w ++ List.concat (map block (writable_prefix entries))
    /\ (entries <> [] -> history_file w' = Some (history_text w'))
    /\ (entries = [] -> history_file w' = history_file w)
    /\ (forallb encodable entries = true -> writable_prefix entries = entries)
    /\ session w' = session w /\ memory_file w' = memory_file w
    /\ db w' = db w /\ tables w' = tables w /\ clock w' = clock w.
Proof.
  eexists. split; [apply append_history_run_many|].
  split; [|split; [|split; [|split]]].
  - destruct entries; [now rewrite app_nil_r | reflexivity].
  - destruct entries; [congruence | reflexivity].
  - intros ->. reflexivity.
  - induction entries as [|entry entries IH]; simpl; [reflexivity|].
    destruct (encodable entry); [|discriminate].
    intros H. now rewrite (IH H).
  - destruct entries; repeat split.
Qed.

(* ------------------------------------------------------------------ *)
(** *** The identity tables *)

Lemma NoDup_snoc {A : Type} (l : list A) (x : A) :
  NoDup l -> ~ In x l -> NoDup (l ++ [x]).
Proof.
  induction l as [|y l IH]; simpl; intros Hl Hx.
  - constructor; [intros [] | constructor].
  - inversion Hl as [|? ? Hy Hl']; subst. constructor.
    + intros H. apply in_app_or in H as [H|[H|[]]]; [contradiction | subst; tauto].
    + apply IH; tauto.
Qed.

Lemma find_identity_none_key (t : Database) (channel sender_id : str) :
  find_identity t channel sender_id = None ->
  ~ In (channel, sender_id) (map identity_key (user_identities t)).
Proof.
  unfold find_identity. intros Hnone Hin.
  apply in_map_iff in Hin as (r & Hkey & Hr).
  pose proof (find_none _ _ Hnone r Hr) as Hno.
  unfold identity_key in Hkey. injection Hkey as Hc Hs.
  unfold identity_matches in Hno. rewrite Hc, Hs, !str_eqb_refl in Hno. discriminate.
Qed.

(** The sequence of user ids never goes back. *)
Lemma get_user_id_sequence (channel sender_id : str) (w w' : World)
  (r : outcome (option Z)) (evs : list event) :
  get_user_id env channel sender_id w = (r, w', evs) ->
  users_id_seq (tables w) <= users_id_seq (tables w').
Proof.
  unfold get_user_id, bind at 1, gets. simpl.
  destruct (negb (is_some (_pool (db w))) || negb (enabled (db w)))%bool.
  { intros H. injection H as _ <- _. lia. }
  unfold try_except, transaction, acquire, round_trip, bind, tick, raise, ret,
    gets, modify, try_except. simpl.
  destruct (storage_fault env (clock w)); simpl;
    [intros H; injection H as _ <- _; simpl; lia|].
  destruct (storage_fault env (S (clock w))); simpl;
    [intros H; injection H as _ <- _; simpl; lia|].
  destruct (find_identity (tables w) channel sender_id); simpl;
    [intros H; injection H as _ <- _; simpl; lia|].
  destruct (storage_fault env (S (S (clock w)))); simpl;
    [intros H; injection H as _ <- _; simpl; lia|].
  destruct (storage_fault env (S (S (S (clock w))))); simpl;
    [intros H; injection H as _ <- _; simpl; lia|].
  destruct (storage_fault env (S (S (S (S (clock w)))))); simpl;
    [intros H; injection H as _ <- _; simpl; lia|].
  destruct (storage_fault env (S (S (S (S (S (clock w))))))); simpl;
    intros H; injection H as _ <- _; simpl; lia.
Qed.

Lemma consistent_after_creation (t : Database) (now : nat) (channel sender_id : str) :
  consistent t ->
  find_identity t channel sender_id = None ->
  consistent (with_new_identity (users_id_seq t) channel sender_id (with_new_user now t)).
Proof.
  intros (Hseq & Hids & Hkeys & Hrefs) Hnone.
  assert (Hfresh : ~ In (users_id_seq t) (map usr_id (users t))).
  { intros H. apply in_map_iff in H as (u & Hu & Hin).
    specialize (Hseq u Hin). lia. }
  unfold consistent. simpl. repeat split.
  - intros u Hu. apply in_app_or in Hu as [Hu | [<- | []]]; simpl.
    + specialize (Hseq u Hu). lia.
    + lia.
  - rewrite map_app. simpl. now apply NoDup_snoc.
  - rewrite map_app. simpl. apply NoDup_snoc; [assumption|].
    now apply find_identity_none_key.
  - intros r Hr. rewrite map_app. apply in_or_app.
    apply in_app_or in Hr as [Hr | [<- | []]]; simpl; [left; auto | right; now left].
Qed.

(** X15. [get_user_id] keeps the identity tables as the schema wants
    them: the sequence stays ahead of every user id and never goes back,
    user ids stay distinct, no pair gets a second identity row, and
    every identity row names a user that exists. *)
Theorem get_user_id_keeps_consistent (channel sender_id : str) (w w' : World)
  (r : outcome (option Z)) (evs : list event) :
  consistent (tables w) ->
  get_user_id env channel sender_id w = (r, w', evs) ->
  consistent (tables w')
  /\ users_id_seq (tables w) <= users_id_seq (tables w').
Proof.
  intros Hcons Hrun.
  pose proof (get_user_id_sequence channel sender_id w w' r evs Hrun) as Hmono.
  split; [|exact Hmono].
  destruct (get_user_id_cases env channel sender_id w)
    as (r1 & w1 & E & _ & _
        & [(_ & Hu & Hi & _) | [(row & _ & _ & Ht & _) | (Hnone & _ & Ht & _)]]);
    rewrite E in Hrun; injection Hrun as <- <- <-.
  - destruct Hcons as (Hseq & Hids & Hkeys & Hrefs).
    unfold consistent. rewrite Hu, Hi. repeat split; auto.
    intros u Hin. specialize (Hseq u Hin). lia.
  - now rewrite Ht.
  - rewrite Ht. now apply consistent_after_creation.
Qed.


(* ------------------------------------------------------------------ *)
(** *** Without a pool *)

Lemma offline_test (w : World) :
  offline w ->
  (negb (is_some (_pool (db w))) || negb (enabled (db w)))%bool = true.
Proof.
  intros [H|H]; rewrite H; simpl; [reflexivity | apply orb_true_r].
Qed.

Lemma get_user_id_offline (channel sender_id : str) (w : World) :
  offline w -> get_user_id env channel sender_id w = (Ret None, w, []).
Proof.
  intros H. unfold get_user_id, bind, gets. simpl.
  now rewrite (offline_test w H).
Qed.

Lemma unavailable_offline (store : VectorMemoryStore) (w : World) :
  offline w ->
  (negb (vs_db store) || negb (enabled (db w)) || negb (is_some (pool (db w))))%bool
  = true.
Proof.
  unfold pool. intros [H|H]; rewrite H; simpl.
  - apply orb_true_r.
  - rewrite orb_true_r. reflexivity.
Qed.

Lemma add_memory_offline (store : VectorMemoryStore) (u : Z) (text : str) (w : World) :
  offline w -> add_memory env store u text w = (Ret tt, w, [EvAddMemory u text]).
Proof.
  intros H. unfold add_memory, bind, emit, unavailable, gets, ret. simpl.
  now rewrite (unavailable_offline store w H).
Qed.

Lemma search_memories_offline (store : VectorMemoryStore) (u : Z) (query : str)
  (limit : Z) (w : World) :
  offline w -> search_memories env store u query limit w = (Ret [], w, []).
Proof.
  intros H. unfold search_memories, bind, unavailable, gets, ret. simpl.
  now rewrite (unavailable_offline store w H).
Qed.

(** X17. While the manager has no pool or is disabled, the storage
    operations are inert: [get_user_id] returns [None], [add_memory]
    returns, [search_memories] returns the empty list, and none of them
    makes a round trip or changes anything. *)
Theorem offline_is_inert (w : World) (channel sender_id : str)
  (store : VectorMemoryStore) (u : Z) (text : str) (limit : Z) :
  offline w ->
  get_user_id env channel sender_id w = (Ret None, w, [])
  /\ add_memory env store u text w = (Ret tt, w, [EvAddMemory u text])
  /\ search_memories env store u text limit w = (Ret [], w, []).
Proof.
  intros H. split; [|split].
  - now apply get_user_id_offline.
  - now apply add_memory_offline.
  - now apply search_memories_offline.
Qed.

(** The outcomes of [connect]. *)
Lemma connect_cases (w : World) :
  exists w',
    connect env w = (Ret tt, w', [])
    /\ session w' = session w /\ memory_file w' = memory_file w
    /\ history_file w' = history_file w /\ tables w' = tables w
    /\ ((enabled (db w) = false \/ _pool (db w) <> None) /\ w' = w
        \/ (enabled (db w) = true /\ _pool (db w) = None
            /\ storage_fault env (clock w) = true
            /\ db w' = {| enabled := false; _pool := None |})
        \/ (enabled (db w) = true /\ _pool (db w) = None
            /\ storage_fault env (clock w) = false
            /\ db w' = {| enabled := negb (storage_fault env (S (clock w)));
                          _pool := Some asyncpg_pool |})).
Proof.
  unfold connect, bind at 1, gets. simpl.
  destruct (enabled (db w)) eqn:Hen; simpl.
  2:{ exists w. repeat split. left. auto. }
  destruct (_pool (db w)) as [p|] eqn:Hpool; simpl.
  { exists w. repeat split. left. split; [right; discriminate | reflexivity]. }
  unfold try_except, _init_tables, acquire, round_trip, bind, tick, raise, ret,
    gets, modify, try_except. simpl.
  destruct (storage_fault env (clock w)) eqn:F0; simpl.
  { eexists. split; [reflexivity|]. repeat split. right. left.
    rewrite Hpool. auto. }
  destruct (storage_fault env (S (clock w))) eqn:F1; simpl.
  { eexists. split; [reflexivity|]. repeat split. right. right. rewrite Hen. auto. }
  destruct (storage_fault env (S (S (clock w)))); simpl.
  { eexists. split; [reflexivity|]. repeat split. right. right. rewrite Hen. auto. }
  destruct (storage_fault env (S (S (S (clock w))))); simpl.
  { eexists. split; [reflexivity|]. repeat split. right. right. rewrite Hen. auto. }
  destruct (storage_fault env (S (S (S (S (clock w)))))); simpl.
  { eexists. split; [reflexivity|]. repeat split. right. right. rewrite Hen. auto. }
  destruct (storage_fault env (S (S (S (S (S (clock w))))))); simpl.
  { eexists. split; [reflexivity|]. repeat split. right. right. rewrite Hen. auto. }
  eexists. split; [reflexivity|]. repeat split. right. right. rewrite Hen. auto.
Qed.

Lemma connect_settled (w : World) :
  enabled (db w) = false \/ _pool (db w) <> None -> connect env w = (Ret tt, w, []).
Proof.
  intros H. unfold connect, bind at 1, gets. simpl.
  destruct (enabled (db w)); simpl; [|reflexivity].
  destruct (_pool (db w)); simpl; [reflexivity|].
  destruct H as [H|H]; [discriminate | contradiction].
Qed.

(** X18. [connect] never raises and touches only the manager.  It does
    nothing when the manager is disabled or has a pool.  Otherwise, when
    the pool cannot be created the manager ends disabled without a pool;
    when it can, the manager has a pool, and is disabled exactly when the
    connection for creating the tables could not be acquired (a failing
    CREATE statement does not disable it).  A disabled manager is never
    enabled again, and calling [connect] a second time does nothing. *)
Theorem connect_spec (w : World) :
  exists w',
    connect env w = (Ret tt, w', [])
    /\ session w' = session w /\ memory_file w' = memory_file w
    /\ history_file w' = history_file w /\ tables w' = tables w
    /\ (enabled (db w) = false \/ _pool (db w) <> None -> w' = w)
    /\ (enabled (db w) = true -> _pool (db w) = None ->
        (storage_fault env (clock w) = true ->
         db w' = {| enabled := false; _pool := None |})
        /\ (storage_fault env (clock w) = false ->
            _pool (db w') = Some asyncpg_pool
            /\ (enabled (db w') = false <-> storage_fault env (S (clock w)) = true)))
    /\ (enabled (db w') = true -> enabled (db w) = true)
    /\ connect env w' = (Ret tt, w', []).
Proof.
  destruct (connect_cases w)
    as (w' & E & Hs & Hm & Hh & Ht
        & [(Hset & ->) | [(Hen & Hp & F & Hd) | (Hen & Hp & F & Hd)]]).
  - exists w. split; [now apply connect_settled|].
    do 4 (split; [reflexivity|]).
    split; [intros _; reflexivity|].
    split; [intros Hen Hp; destruct Hset as [H|H]; congruence|].
    split; [auto|]. now apply connect_settled.
  - exists w'. split; [exact E|].
    split; [exact Hs|]. split; [exact Hm|]. split; [exact Hh|]. split; [exact Ht|].
    split; [intros [H|H]; congruence|].
    split; [intros _ _; split; [intros _; exact Hd | intros H; congruence]|].
    split; [rewrite Hd; discriminate|].
    apply connect_settled. left. now rewrite Hd.
  - exists w'. split; [exact E|].
    split; [exact Hs|]. split; [exact Hm|]. split; [exact Hh|]. split; [exact Ht|].
    split; [intros [H|H]; congruence|].
    split.
    { intros _ _. split; [intros H; congruence|]. intros _.
      rewrite Hd. simpl. split; [reflexivity|]. apply negb_false_iff. }
    split; [intros _; exact Hen|].
    apply connect_settled. right. rewrite Hd. discriminate.
Qed.

(** X19. [close] does nothing when there is no pool.  With a pool, it
    raises what closing the pool raises and keeps the pool, or it drops
    the pool and leaves everything else alone; after that the manager is
    without a pool, so that [get_user_id] returns [None], a second
    [close] does nothing, and an enabled manager can [connect] again. *)
Theorem close_spec (w : World) :
  (_pool (db w) = None -> close env w = (Ret tt, w, []))
  /\ (_pool (db w) <> None -> storage_fault env (clock w) = true ->
      exists w', close env w = (Raise StorageError, w', [])
                 /\ db w' = db w /\ tables w' = tables w)
  /\ (_pool (db w) <> None -> storage_fault env (clock w) = false ->
      exists w',
        close env w = (Ret tt, w', [])
        /\ _pool (db w') = None /\ enabled (db w') = enabled (db w)
        /\ session w' = session w /\ memory_file w' = memory_file w
        /\ history_file w' = history_file w /\ tables w' = tables w
        /\ close env w' = (Ret tt, w', [])
        /\ (forall channel sender_id,
              get_user_id env channel sender_id w' = (Ret None, w', []))
        /\ (enabled (db w) = true -> storage_fault env (S (clock w)) = false ->
            exists w'', connect env w' = (Ret tt, w'', [])
                        /\ _pool (db w'') = Some asyncpg_pool)).
Proof.
  assert (Hclosed : forall v, _pool (db v) = None -> close env v = (Ret tt, v, [])).
  { intros v Hv. unfold close, bind, gets. simpl. now rewrite Hv. }
  split; [apply Hclosed|]. split.
  - intros Hp F. unfold close, round_trip, tick, raise, ret, modify, gets, bind. simpl.
    destruct (_pool (db w)); [|contradiction].
    rewrite F. simpl. eexists. repeat split.
  - intros Hp F.
    exists (set_db {| enabled := enabled (db w); _pool := None |}
              (set_clock (S (clock w)) w)).
    split.
    { unfold close, round_trip, tick, raise, ret, modify, gets, bind. simpl.
      destruct (_pool (db w)); [|contradiction].
      rewrite F. reflexivity. }
    do 6 (split; [reflexivity|]).
    split; [now apply Hclosed|].
    split; [intros channel sender_id; apply get_user_id_offline; now left|].
    intros Hen F1.
    destruct (connect_cases
                (set_db {| enabled := enabled (db w); _pool := None |}
                   (set_clock (S (clock w)) w)))
      as (w2 & E & _ & _ & _ & _
          & [([H|H] & _) | [(_ & _ & F' & _) | (_ & _ & _ & Hd)]]);
      simpl in *; try congruence.
    exists w2. split; [exact E|]. now rewrite Hd.
Qed.

(* ------------------------------------------------------------------ *)
(** *** Facts: stored, and found again *)

(** X20. [add_memory] never raises and touches nothing but the clock and
    the facts table, which it either leaves alone or extends by one row
    holding the user id, the content and the embedding, which is not
    empty, under the next id of the sequence; with the store available,
    an embedding and no storage error, the row is added. *)
Theorem add_memory_outcomes (store : VectorMemoryStore) (u : Z) (text : str) (w : World) :
  exists w',
    add_memory env store u text w = (Ret tt, w', [EvAddMemory u text])
    /\ same_memory w w'
    /\ (tables w' = tables w
        \/ exists now e,
             e <> [] /\ tables w' = with_new_memory now u text e (tables w))
    /\ (vs_db store = true -> enabled (db w) = true -> pool (db w) <> None ->
        forall x e w1,
          get_embeddings env store text w = (Ret (Some (x :: e)), w1, []) ->
          storage_fault env (clock w1) = false ->
          storage_fault env (S (clock w1)) = false ->
          tables w' = with_new_memory (S (clock w1)) u text (x :: e) (tables w)).
Proof.
  unfold add_memory, bind at 1 2, emit, unavailable, gets, ret. simpl.
  destruct (vs_db store) eqn:Hdb; simpl.
  2:{ exists w. split; [reflexivity|]. split; [apply same_memory_refl|].
      split; [now left|]. discriminate. }
  destruct (enabled (db w)) eqn:Hen; simpl.
  2:{ exists w. split; [reflexivity|]. split; [apply same_memory_refl|].
      split; [now left|]. discriminate. }
  destruct (pool (db w)) as [p|] eqn:Hpool; simpl.
  2:{ exists w. split; [reflexivity|]. split; [apply same_memory_refl|].
      split; [now left|]. intros _ _ H. contradiction. }
  unfold bind at 1.
  destruct (get_embeddings_total env store text w) as (e & w1 & He & Hm & Ht).
  rewrite He.
  destruct e as [[|x e]|].
  - exists w1. split; [reflexivity|]. split; [exact Hm|]. split; [now left|].
    intros _ _ _ x e w2 H. discriminate.
  - unfold try_except, acquire, round_trip, bind, tick, raise, ret, modify. simpl.
    destruct Hm as (Hs & Hmf & Hh & Hd).
    destruct (storage_fault env (clock w1)) eqn:F1; simpl.
    { eexists. split; [reflexivity|]. split; [repeat split; assumption|].
      split; [now left|]. intros _ _ _ x' e' w2 H. injection H as _ _ <-. congruence. }
    destruct (storage_fault env (S (clock w1))) eqn:F2; simpl.
    { eexists. split; [reflexivity|]. split; [repeat split; assumption|].
      split; [now left|]. intros _ _ _ x' e' w2 H. injection H as _ _ <-. congruence. }
    eexists. split; [reflexivity|]. split; [repeat split; assumption|]. simpl.
    rewrite Ht. split.
    + right. exists (S (clock w1)), (x :: e). split; [discriminate | reflexivity].
    + intros _ _ _ x' e' w2 H. injection H as <- <- <-. reflexivity.
  - exists w1. split; [reflexivity|]. split; [exact Hm|]. split; [now left|].
    intros _ _ _ x e w2 H. discriminate.
Qed.

Lemma insert_by_perm {A : Type} (le : A -> A -> bool) (x : A) (l : list A) :
  Permutation (insert_by le x l) (x :: l).
Proof.
  induction l as [|y l IH]; simpl; [reflexivity|].
  destruct (le y x); [|reflexivity].
  rewrite IH. apply perm_swap.
Qed.

Lemma order_by_perm {A : Type} (le : A -> A -> bool) (l : list A) :
  Permutation (order_by le l) l.
Proof.
  induction l as [|x l IH]; simpl; [reflexivity|].
  rewrite insert_by_perm. now constructor.
Qed.

(** With the store available, an embedding of the query and no storage
    error, [search_memories] returns the contents of the rows of the
    query. *)
Lemma search_memories_runs (store : VectorMemoryStore) (u : Z) (query : str)
  (limit : Z) (w w1 : World) (x : float) (q : embedding) :
  vs_db store = true -> enabled (db w) = true -> pool (db w) <> None ->
  get_embeddings env store query w = (Ret (Some (x :: q)), w1, []) ->
  storage_fault env (clock w1) = false ->
  storage_fault env (S (clock w1)) = false ->
  exists w',
    search_memories env store u query limit w
    = (Ret (map mem_content (nearest_memories env (tables w) u (x :: q) limit)), w', []).
Proof.
  intros Hdb Hen Hpool He F1 F2.
  destruct (get_embeddings_total env store query w) as (e' & w1' & He' & _ & Ht).
  rewrite He in He'. injection He' as <- <-.
  unfold search_memories, bind at 1, unavailable, bind at 1, gets, ret. simpl.
  rewrite Hdb, Hen. destruct (pool (db w)); [|contradiction]. simpl.
  unfold bind at 1. rewrite He.
  unfold try_except, acquire, round_trip, bind, tick, raise, ret, gets. simpl.
  rewrite F1. simpl. rewrite F2. simpl. rewrite Ht. eexists. reflexivity.
Qed.

(** X21. With the store available, an embedding of the query and no
    storage error, a search whose limit is at least the number of facts
    of the user returns the contents of all of them, each once per row;
    a search whose limit is 0 or less returns nothing. *)
Theorem search_returns_all (store : VectorMemoryStore) (u : Z) (query : str)
  (limit : Z) (w w1 : World) (x : float) (q : embedding) :
  vs_db store = true -> enabled (db w) = true -> pool (db w) <> None ->
  get_embeddings env store query w = (Ret (Some (x :: q)), w1, []) ->
  storage_fault env (clock w1) = false ->
  storage_fault env (S (clock w1)) = false ->
  exists found w',
    search_memories env store u query limit w = (Ret found, w', [])
    /\ (limit <= 0 -> found = [])
    /\ (len (filter (fun r => mem_user_id r =? u) (vector_memories (tables w))) <= limit ->
        Permutation found
          (map mem_content
             (filter (fun r => mem_user_id r =? u) (vector_memories (tables w))))).
Proof.
  intros Hdb Hen Hpool He F1 F2.
  destruct (search_memories_runs store u query limit w w1 x q Hdb Hen Hpool He F1 F2)
    as (w' & E).
  eexists _, w'. split; [exact E|]. unfold nearest_memories. split.
  - intros Hl. replace (Z.to_nat limit) with 0%nat by lia. reflexivity.
  - intros Hl. rewrite firstn_all2.
    + apply Permutation_map. apply order_by_perm.
    + rewrite order_by_length. unfold len in Hl. lia.
Qed.

(** X22. A fact that [add_memory] stored is found again: a later search
    of the same user, with an embedding of the query, no storage error
    and a limit that covers the facts of the user, returns its
    content. *)
Theorem added_fact_is_found (store : VectorMemoryStore) (u : Z) (text query : str)
  (limit : Z) (w w1 w2 : World) (r : outcome unit) (evs : list event)
  (x : float) (q : embedding) :
  vs_db store = true -> enabled (db w) = true -> pool (db w) <> None ->
  add_memory env store u text w = (r, w1, evs) ->
  vector_memories (tables w1) <> vector_memories (tables w) ->
  get_embeddings env store query w1 = (Ret (Some (x :: q)), w2, []) ->
  storage_fault env (clock w2) = false ->
  storage_fault env (S (clock w2)) = false ->
  len (filter (fun r => mem_user_id r =? u) (vector_memories (tables w1))) <= limit ->
  exists found w3,
    search_memories env store u query limit w1 = (Ret found, w3, [])
    /\ In text found.
Proof.
  intros Hdb Hen Hpool Hadd Hstored He F1 F2 Hlimit.
  destruct (add_memory_total env store u text w) as (w1' & E & (_ & _ & _ & Hd) & _).
  assert (Hrow : exists now e,
             tables w1 = with_new_memory now u text e (tables w)).
  { unfold add_memory, bind at 1 2, emit, unavailable, gets, ret in Hadd. simpl in Hadd.
    rewrite Hdb, Hen in Hadd. destruct (pool (db w)); [|contradiction]. simpl in Hadd.
    unfold bind at 1 in Hadd.
    destruct (get_embeddings_total env store text w) as (e & v & Hev & _ & Htv).
    rewrite Hev in Hadd.
    destruct e as [[|y e]|];
      try (injection Hadd as _ <- _; rewrite Htv in Hstored; contradiction).
    unfold try_except, acquire, round_trip, bind, tick, raise, ret, modify in Hadd.
    simpl in Hadd.
    destruct (storage_fault env (clock v)); simpl in Hadd;
      [injection Hadd as _ <- _; simpl in Hstored; rewrite Htv in Hstored; contradiction|].
    destruct (storage_fault env (S (clock v))); simpl in Hadd;
      [injection Hadd as _ <- _; simpl in Hstored; rewrite Htv in Hstored; contradiction|].
    injection Hadd as _ <- _. simpl. rewrite Htv. eauto. }
  destruct Hrow as (now & e & Hrow).
  rewrite E in Hadd. injection Hadd as _ <- _.
  assert (Hen1 : enabled (db w1') = true) by congruence.
  assert (Hpool1 : pool (db w1') <> None) by congruence.
  destruct (search_memories_runs store u query limit w1' w2 x q Hdb Hen1 Hpool1 He F1 F2)
    as (w3 & E3).
  eexists _, w3. split; [exact E3|].
  unfold nearest_memories. rewrite firstn_all2.
  - apply in_map_iff.
    exists {| mem_id := vector_memories_id_seq (tables w); mem_user_id := u;
              mem_content := text; mem_embedding := e; mem_created_at := now |}.
    split; [reflexivity|].
    apply order_by_In. apply filter_In. split.
    + rewrite Hrow. simpl. apply in_or_app. right. now left.
    + simpl. apply Z.eqb_refl.
  - rewrite order_by_length. unfold len in Hlimit. lia.
Qed.

(** X23. A store without an API key never contacts the embedding
    service: [get_embeddings] returns [None], [add_memory] stores
    nothing and [search_memories] finds nothing, all without a round
    trip. *)
Theorem no_api_key_no_service (store : VectorMemoryStore) (u : Z) (text : str)
  (limit : Z) (w : World) :
  api_key store = [] ->
  get_embeddings env store text w = (Ret None, w, [])
  /\ add_memory env store u text w = (Ret tt, w, [EvAddMemory u text])
  /\ search_memories env store u text limit w = (Ret [], w, []).
Proof.
  intros Hkey.
  assert (He : get_embeddings env store text w = (Ret None, w, [])).
  { unfold get_embeddings. now rewrite Hkey. }
  split; [exact He|]. split.
  - unfold add_memory, bind at 1 2, emit, unavailable, gets, ret. simpl.
    destruct (negb (vs_db store) || negb (enabled (db w)) || negb (is_some (pool (db w))))%bool;
      [reflexivity|].
    unfold bind. rewrite He. reflexivity.
  - unfold search_memories, bind at 1, unavailable, bind at 1, gets, ret. simpl.
    destruct (negb (vs_db store) || negb (enabled (db w)) || negb (is_some (pool (db w))))%bool;
      [reflexivity|].
    unfold bind. rewrite He. reflexivity.
Qed.

End Coverage.

(* ================================================================== *)
(** ** The further properties at sample inputs *)

(** Six messages, the cursor at 1, a window of 4: messages 1 to 3 are
    archived and the last two are kept. *)
Lemma archived_slice_witness :
  0 <= 4
  /\ 0 <= last_consolidated (session (sample_world 6 1))
  /\ select_old_messages (session (sample_world 6 1)) false 4
     = Some (repeat sample_message 3, 2)
  /\ repeat sample_message 6
     = firstn 1 (repeat sample_message 6) ++ repeat sample_message 3
       ++ skipn 4 (repeat sample_message 6).
Proof.
  split; [lia|]. split; [vm_compute; discriminate|]. split; [reflexivity|].
  destruct (archived_slice (session (sample_world 6 1)) 4 (repeat sample_message 3) 2
              ltac:(lia) ltac:(vm_compute; discriminate) eq_refl)
    as (_ & _ & _ & _ & Hsplit & _).
  exact Hsplit.
Defined.

(** After a successful call, a second call asks nobody. *)
Lemma second_consolidate_is_noop_witness :
  exists w' evs,
    consolidate sample_env (answering sample_args) sample_model false 4 None None
      (sample_world 6 0)
    = (Ret true, w', evs)
    /\ evs <> []
    /\ consolidate sample_env unreachable sample_model false 4 None None w'
       = (Ret true, w', []).
Proof.
  pose proof (run_eq (consolidate sample_env (answering sample_args) sample_model false 4
                        None None) (sample_world 6 0) _ _ _
                     ltac:(vm_compute; reflexivity)) as Hrun.
  eexists _, _. split; [exact Hrun|]. split; [discriminate|].
  apply (second_consolidate_is_noop sample_env _ _ _ _ _ _ _ _ Hrun).
  discriminate.
Defined.

(** The sample answer: one block more in HISTORY.md, a new MEMORY.md. *)
Lemma consolidate_files_witness :
  exists w' evs,
    consolidate sample_env (answering sample_args) sample_model false 4 None None
      (sample_world 6 0)
    = (Ret true, w', evs)
    /\ (history_file w' = history_file (sample_world 6 0)
        \/ (history_file w' = Some [] /\ Ret true = Ret false)
        \/ exists entry,
             history_file w' = Some ([] ++ block entry)
             /\ encodable entry = true /\ In (EvAppendHistory entry) evs)
    /\ (memory_file w' = memory_file (sample_world 6 0)
        \/ (exists text,
              memory_file w' = Some text /\ text <> lit "old profile"
              /\ encodable text = true /\ In (EvWriteLongTerm text) evs)
        \/ (memory_file w' = Some [] /\ Ret true = Ret false)).
Proof.
  pose proof (run_eq (consolidate sample_env (answering sample_args) sample_model false 4
                        None None) (sample_world 6 0) _ _ _
                     ltac:(vm_compute; reflexivity)) as Hrun.
  eexists _, _. split; [exact Hrun|].
  exact (consolidate_files sample_env _ _ _ _ _ _ _ _ _ _ Hrun).
Defined.

(** The sample answer: request, append, write, one call. *)
Lemma consolidate_order_witness :
  exists w' evs,
    consolidate sample_env (answering sample_args) sample_model false 4
      (Some 7) (Some sample_store) (sample_world 6 0)
    = (Ret true, w', evs)
    /\ (evs = []
        \/ exists request appends writes calls,
             evs = EvChat request :: appends ++ writes ++ calls
             /\ (appends = [] \/ exists entry, appends = [EvAppendHistory entry])
             /\ (writes = [] \/ exists text, writes = [EvWriteLongTerm text])
             /\ Forall (fun e => exists u fact, e = EvAddMemory u fact) calls).
Proof.
  pose proof (run_eq (consolidate sample_env (answering sample_args) sample_model false 4
                        (Some 7) (Some sample_store)) (sample_world 6 0) _ _ _
                     ltac:(vm_compute; reflexivity)) as Hrun.
  eexists _, _. split; [exact Hrun|].
  exact (consolidate_order sample_env _ _ _ _ _ _ _ _ _ _ Hrun).
Defined.

(** Facts that are the number 5: false, and the entry is in HISTORY.md. *)
Lemma late_failure_keeps_writes_witness :
  exists w' evs,
    consolidate sample_env (answering (PDict number_args)) sample_model false 4
      (Some 7) (Some sample_store) (sample_world 6 0)
    = (Ret false, w', evs)
    /\ last_consolidated (session w') = 0
    /\ history_file w' = Some (lit "[2024-01-01 10:00] Discussed trip" ++ [LF; LF])
    /\ tables w' = tables (sample_world 6 0).
Proof.
  pose proof (run_eq (consolidate sample_env (answering (PDict number_args)) sample_model
                        false 4 (Some 7) (Some sample_store)) (sample_world 6 0) _ _ _
                     ltac:(vm_compute; reflexivity)) as Hrun.
  eexists _, _. split; [exact Hrun|].
  destruct (late_failure_keeps_writes sample_env (answering (PDict number_args))
              sample_model false 4 7 sample_store (sample_world 6 0) _
              (repeat sample_message 4) 2 number_args _ _
              eq_refl eq_refl ltac:(discriminate) eq_refl eq_refl eq_refl eq_refl eq_refl
              Hrun)
    as (_ & Hc & _ & Hh & Ht).
  split; [exact Hc|]. split; [exact Hh | exact Ht].
Defined.

(** Facts that are the string "a b": two calls, for "a" and for "b". *)
Lemma facts_as_a_string_witness :
  exists w' evs,
    consolidate sample_env (answering (PDict string_args)) sample_model false 4
      (Some 7) (Some sample_store) (sample_world 6 0)
    = (Ret true, w', evs)
    /\ evs = [ EvChat (request_for sample_env (sample_world 6 0) (repeat sample_message 4)
                         sample_model);
               EvAddMemory 7 (lit "a"); EvAddMemory 7 (lit "b") ].
Proof.
  pose proof (run_eq (consolidate sample_env (answering (PDict string_args)) sample_model
                        false 4 (Some 7) (Some sample_store)) (sample_world 6 0) _ _ _
                     ltac:(vm_compute; reflexivity)) as Hrun.
  eexists _, _. split; [exact Hrun|].
  destruct (facts_as_a_string sample_env (answering (PDict string_args))
              sample_model false 4 7 sample_store (sample_world 6 0) _
              (repeat sample_message 4) 2 string_args (lit "a b") _ _
              eq_refl eq_refl ltac:(discriminate) eq_refl eq_refl eq_refl Hrun)
    as (_ & Hevs).
  rewrite Hevs. reflexivity.
Defined.

(** A profile with a CR LF and a lone CR is stored as it is and read
    with line feeds; a profile with a lone surrogate is not stored, and
    the file is left empty. *)
Lemma profile_round_trip_witness :
  (exists w',
     write_long_term (lit "one" ++ [13%N; LF] ++ lit "two" ++ [13%N] ++ lit "three")
       (sample_world 0 0)
     = (Ret tt, w',
        [EvWriteLongTerm (lit "one" ++ [13%N; LF] ++ lit "two" ++ [13%N] ++ lit "three")])
     /\ memory_file w'
        = Some (lit "one" ++ [13%N; LF] ++ lit "two" ++ [13%N] ++ lit "three")
     /\ read_long_term w'
        = (Ret (lit "one" ++ [LF] ++ lit "two" ++ [LF] ++ lit "three"), w', []))
  /\ (exists w',
        write_long_term [lone_surrogate] (sample_world 0 0)
        = (Raise UnicodeEncodeError, w', [])
        /\ memory_file (sample_world 0 0) = Some (lit "old profile")
        /\ memory_file w' = Some []
        /\ read_long_term w' = (Ret [], w', [])).
Proof.
  split.
  - destruct (profile_round_trip
                (lit "one" ++ [13%N; LF] ++ lit "two" ++ [13%N] ++ lit "three")
                (sample_world 0 0)) as ((w' & E & Hm & Hr & _) & _).
    exists w'. split; [exact E|]. split; [exact Hm | exact Hr].
  - destruct (profile_round_trip [lone_surrogate] (sample_world 0 0))
      as ((w' & E & Hm & Hr & _) & _).
    exists w'. split; [exact E|]. split; [reflexivity|]. split; [exact Hm | exact Hr].
Defined.

(** Three entries, the second with a lone surrogate: the first is in
    HISTORY.md, the run stops, the third is not written. *)
Lemma append_history_many_witness :
  exists w',
    for_each [lit "first "; lit "x" ++ [lone_surrogate]; lit "third"] append_history
      (sample_world 0 0)
    = (Raise UnicodeEncodeError, w', [EvAppendHistory (lit "first ")])
    /\ history_file w' = Some (lit "first" ++ [LF; LF]).
Proof.
  destruct (append_history_many [lit "first "; lit "x" ++ [lone_surrogate]; lit "third"]
              (sample_world 0 0)) as (w' & E & Ht & Hf & _).
  exists w'. split; [exact E|].
  rewrite (Hf ltac:(discriminate)), Ht. reflexivity.
Defined.

(** A provider that raises: false, nothing changed. *)
Lemma consolidate_survives_provider_witness :
  consolidate sample_env unreachable sample_model false 4 (Some 7) (Some sample_store)
    (sample_world 6 0)
  = (Ret false, sample_world 6 0,
     [EvChat (request_for sample_env (sample_world 6 0) (repeat sample_message 4) sample_model)]).
Proof.
  apply (consolidate_survives_provider sample_env unreachable sample_model false 4
           (Some 7) (Some sample_store) (sample_world 6 0) (repeat sample_message 4) 2).
  - reflexivity.
  - left. reflexivity.
Defined.

(** The arguments "{}" and the empty mapping. *)
Lemma arguments_as_string_or_mapping_witness :
  json_loads sample_env (lit "{}") = Some (PDict [])
  /\ consolidate sample_env (answering (PStr (lit "{}"))) sample_model false 4 None None
       (sample_world 6 0)
     = consolidate sample_env (answering (PDict [])) sample_model false 4 None None
         (sample_world 6 0).
Proof.
  split; [reflexivity|].
  apply (arguments_as_string_or_mapping sample_env (answering (PStr (lit "{}")))
           (answering (PDict [])) sample_model false 4 None None (sample_world 6 0)
           (lit "{}") []).
  - reflexivity.
  - intros request. reflexivity.
  - intros request. reflexivity.
Defined.

Lemma sample_facts_consistent : consistent sample_facts.
Proof.
  unfold consistent. simpl. repeat split.
  - intros u [<- | [<- | []]]; simpl; lia.
  - repeat constructor; simpl; intuition congruence.
  - repeat constructor; simpl; intuition congruence.
  - intros r [<- | []]. simpl. now left.
Qed.

(** A new pair resolved over the sample tables: they stay consistent. *)
Lemma get_user_id_keeps_consistent_witness :
  consistent (tables facts_world)
  /\ exists w' evs,
       get_user_id sample_env (lit "slack") (lit "U1") facts_world
       = (Ret (Some 9), w', evs)
       /\ consistent (tables w')
       /\ users_id_seq (tables facts_world) <= users_id_seq (tables w').
Proof.
  split; [exact sample_facts_consistent|].
  pose proof (run_eq (get_user_id sample_env (lit "slack") (lit "U1")) facts_world _ _ _
                     ltac:(vm_compute; reflexivity)) as Hrun.
  eexists _, _. split; [exact Hrun|].
  exact (get_user_id_keeps_consistent sample_env (lit "slack") (lit "U1") facts_world
           _ _ _ sample_facts_consistent Hrun).
Defined.


(** Before [connect], nothing is resolved, stored or found. *)
Lemma offline_is_inert_witness :
  offline unconnected_world
  /\ get_user_id sample_env (lit "telegram") (lit "42") unconnected_world
     = (Ret None, unconnected_world, [])
  /\ search_memories sample_env sample_store 7 (lit "dog") 5 unconnected_world
     = (Ret [], unconnected_world, []).
Proof.
  assert (Hoff : offline unconnected_world) by (left; reflexivity).
  split; [exact Hoff|].
  destruct (offline_is_inert sample_env unconnected_world (lit "telegram") (lit "42")
              sample_store 7 (lit "dog") 5 Hoff) as (Hget & _ & Hsearch).
  split; [exact Hget | exact Hsearch].
Defined.

(** The three facts of user 7, all of them, with a limit of 3. *)
Lemma search_returns_all_witness :
  exists found w',
    search_memories sample_env sample_store 7 (lit "dog") 3 facts_world
    = (Ret found, w', [])
    /\ Permutation found
         [ lit "User lives in Paris"; lit "User has a dog named Rex";
           lit "User works at night" ].
Proof.
  destruct (search_returns_all sample_env sample_store 7 (lit "dog") 3 facts_world
              _ _ _ eq_refl eq_refl ltac:(discriminate)
              ltac:(vm_compute; reflexivity) eq_refl eq_refl)
    as (found & w' & E & _ & Hall).
  exists found, w'. split; [exact E|].
  apply Hall. vm_compute. discriminate.
Defined.

(** A fact stored for user 7 over the sample tables, and a search. *)
Lemma added_fact_is_found_witness :
  exists w1 evs found w3,
    add_memory sample_env sample_store 7 (lit "User likes hiking") facts_world
    = (Ret tt, w1, evs)
    /\ vector_memories (tables w1) <> vector_memories (tables facts_world)
    /\ search_memories sample_env sample_store 7 (lit "dog") 10 w1 = (Ret found, w3, [])
    /\ In (lit "User likes hiking") found.
Proof.
  pose proof (run_eq (add_memory sample_env sample_store 7 (lit "User likes hiking"))
                     facts_world _ _ _ ltac:(vm_compute; reflexivity)) as Hadd.
  assert (Hstored : vector_memories
                      (tables (snd (fst (add_memory sample_env sample_store 7
                                           (lit "User likes hiking") facts_world))))
                    <> vector_memories (tables facts_world)).
  { vm_compute. discriminate. }
  rewrite Hadd in Hstored. simpl fst in Hstored. simpl snd in Hstored.
  destruct (added_fact_is_found sample_env sample_store 7 (lit "User likes hiking")
              (lit "dog") 10 facts_world _ _ _ _ _ _
              eq_refl eq_refl ltac:(discriminate) Hadd Hstored
              ltac:(vm_compute; reflexivity) eq_refl eq_refl
              ltac:(vm_compute; discriminate))
    as (found & w3 & E & Hin).
  eexists _, _, found, w3. split; [exact Hadd|]. split; [exact Hstored|].
  split; [exact E | exact Hin].
Defined.

(** A store without a key over the sample tables. *)
Lemma no_api_key_no_service_witness :
  api_key unkeyed_store = []
  /\ add_memory sample_env unkeyed_store 7 (lit "User likes hiking") facts_world
     = (Ret tt, facts_world, [EvAddMemory 7 (lit "User likes hiking")])
  /\ search_memories sample_env unkeyed_store 7 (lit "User likes hiking") 5 facts_world
     = (Ret [], facts_world, []).
Proof.
  split; [reflexivity|].
  destruct (no_api_key_no_service sample_env unkeyed_store 7 (lit "User likes hiking") 5
              facts_world eq_refl) as (_ & Hadd & Hsearch).
  split; [exact Hadd | exact Hsearch].
Defined.
